(** * ras_eye: face-tracking pan/tilt rig with ultrasonic proximity warning

    Shallow embedding of the three programs of the repository

      - [ras_eye01.cpp]   (monolithic tracking loop),
      - [ras_eye02.cpp]   (tracking loop split into functions),
      - [tyouonpa01.cpp]  (ultrasonic sensor and LED only),

    and the properties of their controller, distance measurement and
    alert rule.

    C++ [float] and [double] are IEEE-754 binary32 and binary64 with
    round-to-nearest-even; they are modelled bit-exactly by the Standard
    Library's [spec_float] operations at precision 24 and 53, every
    operation rounding to the type C++ gives it (no excess precision).
    C++ [int] is a 32-bit two's complement integer, modelled as [Z] with
    the wrap-around written out; [long] is taken to be 64 bits wide.
    The C++ clock counts nanoseconds, [gpioTick] microseconds modulo
    2^32. *)

From Stdlib Require Import ZArith QArith Qabs Bool List Lia.
From Stdlib Require Import Floats.SpecFloat.
Import ListNotations.
Local Open Scope Z_scope.

(** ** IEEE-754 arithmetic as the compiled programs use it *)

(** A float or double without a NaN payload. *)
Definition is_nan (x : spec_float) : bool :=
  match x with S754_nan => true | _ => false end.

Definition is_inf (x : spec_float) : bool :=
  match x with S754_infinity _ => true | _ => false end.

(** binary32, the C++ [float]. *)
Module F32.
Definition prec : Z := 24.
Definition emax : Z := 128.
Definition add := SFadd prec emax.
Definition sub := SFsub prec emax.
Definition mul := SFmul prec emax.
Definition div := SFdiv prec emax.
Definition ltb := SFltb.
Definition leb := SFleb.
Definition eqb := SFeqb.
(** Conversion of an integer ([int], [long]) to [float]. *)
Definition of_Z (z : Z) : spec_float := binary_normalize prec emax z 0 false.
(** Narrowing conversion [double] -> [float] (one rounding). *)
Definition of_double (x : spec_float) : spec_float :=
  match x with
  | S754_finite s m e => binary_normalize prec emax (cond_Zopp s (Zpos m)) e s
  | _ => x
  end.
(** [static_cast<unsigned int>]: truncation toward zero (defined for
    values whose truncation fits; the servo commands do). *)
Definition to_Z (x : spec_float) : Z :=
  match x with
  | S754_finite s m e =>
      cond_Zopp s (match e with
                   | Zneg p => Z.shiftr (Zpos m) (Zpos p)
                   | _ => Z.shiftl (Zpos m) e
                   end)
  | _ => 0
  end.
End F32.

(** binary64, the C++ [double]. *)
Module F64.
Definition prec : Z := 53.
Definition emax : Z := 1024.
Definition add := SFadd prec emax.
Definition sub := SFsub prec emax.
Definition mul := SFmul prec emax.
Definition div := SFdiv prec emax.
Definition ltb := SFltb.
Definition leb := SFleb.
Definition eqb := SFeqb.
Definition of_Z (z : Z) : spec_float := binary_normalize prec emax z 0 false.
(** Promotion [float] -> [double] (exact). *)
Definition of_float (x : spec_float) : spec_float :=
  match x with
  | S754_finite s m e => binary_normalize prec emax (cond_Zopp s (Zpos m)) e s
  | _ => x
  end.
(** A decimal literal [n / 10^k], correctly rounded by the compiler. *)
Definition lit (n : Z) (pow10 : Z) : spec_float := div (of_Z n) (of_Z pow10).
End F64.

Arguments F32.add : simpl never.
Arguments F32.sub : simpl never.
Arguments F32.mul : simpl never.
Arguments F32.div : simpl never.
Arguments F32.of_Z : simpl never.
Arguments F32.of_double : simpl never.
Arguments F32.to_Z : simpl never.
Arguments F64.add : simpl never.
Arguments F64.sub : simpl never.
Arguments F64.mul : simpl never.
Arguments F64.div : simpl never.
Arguments F64.of_Z : simpl never.
Arguments F64.of_float : simpl never.
Arguments F64.lit : simpl never.

(** 32-bit two's complement [int]. *)
Definition wrap32 (z : Z) : Z := (z + 2 ^ 31) mod 2 ^ 32 - 2 ^ 31.
Definition int_sub (a b : Z) : Z := wrap32 (a - b).
Definition int_abs (a : Z) : Z := wrap32 (Z.abs a).

Arguments wrap32 : simpl never.


(** ** The machine the programs run on

    The programs talk to the hardware through pigpio and the C++ clock.
    An execution is deterministic once the successive values read from
    the echo line and from the clock are fixed; [world] holds these two
    streams and how far each has been consumed.  Outputs (pin writes,
    servo pulses, sleeps) are collected as a trace. *)

Inductive event : Type :=
| GpioWrite (pin : Z) (level : bool)
| GpioServo (pin : Z) (pulse : Z)
| Sleep (us : Z).

Record world : Type := mkWorld {
  echo_at : nat -> bool;   (* i-th value returned by gpioRead(ECHO_PIN) *)
  clock_at : nat -> Z;     (* i-th value returned by the clock *)
  reads : nat;
  ticks : nat
}.

(** Computations: [None] is a busy-wait that has not ended within the
    given number of polls. *)
Definition io (A : Type) : Type := world -> option (A * world * list event).

Definition ret {A} (a : A) : io A := fun w => Some (a, w, []).

Definition bind {A B} (m : io A) (k : A -> io B) : io B :=
  fun w =>
    match m w with
    | None => None
    | Some (a, w1, t1) =>
        match k a w1 with
        | None => None
        | Some (b, w2, t2) => Some (b, w2, t1 ++ t2)
        end
    end.

Definition spin {A} : io A := fun _ => None.

Declare Scope io_scope.
Delimit Scope io_scope with io.
Notation "x <- m ;; k" := (bind m (fun x => k))
  (at level 61, m at next level, right associativity) : io_scope.
Notation "m ;;; k" := (bind m (fun _ => k))
  (at level 61, right associativity) : io_scope.
Local Open Scope io_scope.

Definition emit (e : event) : io unit := fun w => Some (tt, w, [e]).
Definition emit_all (es : list event) : io unit := fun w => Some (tt, w, es).

Definition gpioWrite (pin : Z) (level : bool) : io unit := emit (GpioWrite pin level).
Definition gpioServo (pin : Z) (pulse : Z) : io unit := emit (GpioServo pin pulse).
Definition sleep_us (us : Z) : io unit := emit (Sleep us).
Definition sleep_ms (ms : Z) : io unit := emit (Sleep (ms * 1000)).

(** The world after [r] more reads of the echo line and [t] more reads
    of the clock. *)
Definition later (w : world) (r t : nat) : world :=
  mkWorld (echo_at w) (clock_at w) (r + reads w) (t + ticks w).

Definition gpioRead (pin : Z) : io bool :=
  fun w => Some (echo_at w (reads w), later w 1 0, []).

(** [std::chrono::high_resolution_clock::now()], in nanoseconds. *)
Definition clock_now : io Z :=
  fun w => Some (clock_at w (ticks w), later w 0 1, []).

(** [gpioTick()]: microseconds as [uint32_t]. *)
Definition gpioTick : io Z :=
  fun w => Some (clock_at w (ticks w) mod 2 ^ 32, later w 0 1, []).

(** How a polling loop inside a function ends: the loop condition became
    false ([Fallthrough], with the loop's time marker), or the body
    executed [return v]. *)
Inductive loop_exit : Type :=
| Fallthrough (marker : Z)
| Return (v : spec_float).

(** [std::chrono::duration<double>(t1 - t0).count()]: the nanosecond
    difference converted to double seconds. *)
Definition seconds_between (t1 t0 : Z) : spec_float :=
  F64.div (F64.of_Z (t1 - t0)) (F64.of_Z 1000000000).

(** Pin numbers (the same in the three programs). *)
Definition PAN_SERVO_PIN : Z := 17.
Definition TILT_SERVO_PIN : Z := 18.
Definition TRIG_PIN : Z := 23.
Definition ECHO_PIN : Z := 24.
Definition LED_PIN : Z := 27.

(** Camera geometry and controller parameters (the same in ras_eye01 and
    ras_eye02). *)
Definition CAMERA_WIDTH : Z := 640.
Definition CAMERA_HEIGHT : Z := 480.
Definition CAMERA_CENTER_X : Z := Z.quot CAMERA_WIDTH 2.
Definition CAMERA_CENTER_Y : Z := Z.quot CAMERA_HEIGHT 2.
Definition Kp_PAN : spec_float := F32.of_double (F64.lit 5 1000).
Definition Kp_TILT : spec_float := F32.of_double (F64.lit 5 1000).
Definition DEAD_ZONE : Z := 15.
Definition DISTANCE_THRESHOLD : spec_float := F32.of_double (F64.of_Z 40).

(** The two servo commands kept in global variables
    ([g_current_pan_angle], [g_current_tilt_angle]; in ras_eye01 without
    the prefix). *)
Record ActuatorState : Type := mkState {
  g_current_pan_angle : spec_float;
  g_current_tilt_angle : spec_float
}.

Definition initial_state : ActuatorState :=
  mkState (F32.of_Z 1500) (F32.of_Z 1500).

(** [if (a < 1000) a = 1000; if (a > 2000) a = 2000;] *)
Definition clamp_cmd (a : spec_float) : spec_float :=
  let a1 := if F32.ltb a (F32.of_Z 1000) then F32.of_Z 1000 else a in
  if F32.ltb (F32.of_Z 2000) a1 then F32.of_Z 2000 else a1.

Arguments clamp_cmd : simpl never.
Arguments Kp_PAN : simpl never.
Arguments Kp_TILT : simpl never.
Arguments DISTANCE_THRESHOLD : simpl never.

(** A detected face, [cv::Rect]. *)
Record Rect : Type := mkRect { rx : Z; ry : Z; rwidth : Z; rheight : Z }.

Definition area (r : Rect) : Z := wrap32 (rwidth r * rheight r).

(** The loop over [faces] that keeps the face of largest area seen so
    far; the first of several equally large faces wins. *)
Definition largest_face (first : Rect) (rest : list Rect) : Rect :=
  fold_left (fun best r => if area best <? area r then r else best) rest first.

Definition face_center (r : Rect) : Z * Z :=
  (wrap32 (rx r + Z.quot (rwidth r) 2), wrap32 (ry r + Z.quot (rheight r) 2)).

(** ** ras_eye02.cpp *)
Module RasEye02.

(** [find_nose], after the detector has produced [faces]:
    [(-1, -1)] when nothing was detected. *)
Definition find_nose (faces : list Rect) : Z * Z :=
  match faces with
  | [] => (-1, -1)
  | f :: rest => face_center (largest_face f rest)
  end.

(** One axis of [control_pan_tilt]: the new command and what is sent
    to the servo ([-=] for pan, [+=] for tilt). *)
Definition pan_axis (pan : spec_float) (error_x : Z) : spec_float * list event :=
  if DEAD_ZONE <? int_abs error_x then
    let pan' := clamp_cmd (F32.sub pan (F32.mul Kp_PAN (F32.of_Z error_x))) in
    (pan', [GpioServo PAN_SERVO_PIN (F32.to_Z pan')])
  else (pan, []).

Definition tilt_axis (tilt : spec_float) (error_y : Z) : spec_float * list event :=
  if DEAD_ZONE <? int_abs error_y then
    let tilt' := clamp_cmd (F32.add tilt (F32.mul Kp_TILT (F32.of_Z error_y))) in
    (tilt', [GpioServo TILT_SERVO_PIN (F32.to_Z tilt')])
  else (tilt, []).

(** [control_pan_tilt(nose_x, nose_y)] on the global state: the new
    state and the servo pulses sent. *)
Definition control_pan_tilt (st : ActuatorState) (nose_x nose_y : Z)
  : ActuatorState * list event :=
  if (nose_x =? -1) || (nose_y =? -1) then (st, [])
  else
    let error_x := int_sub nose_x CAMERA_CENTER_X in
    let error_y := int_sub nose_y CAMERA_CENTER_Y in
    let '(pan', ev_pan) := pan_axis (g_current_pan_angle st) error_x in
    let '(tilt', ev_tilt) := tilt_axis (g_current_tilt_angle st) error_y in
    (mkState pan' tilt', ev_pan ++ ev_tilt).

(** The value [return 999.0] gives in a function returning [float]. *)
Definition INVALID : spec_float := F32.of_double (F64.of_Z 999).

(** [... .count() > 0.1] *)
Definition timed_out (t timeout_start : Z) : bool :=
  F64.ltb (F64.lit 1 10) (seconds_between t timeout_start).

(** [while (gpioRead(ECHO_PIN) == 0) { pulse_start_time = now();
      if (... > 0.1) return 999.0; }] *)
Fixpoint wait_echo_high (fuel : nat) (timeout_start pulse_start_time : Z)
  : io loop_exit :=
  match fuel with
  | O => spin
  | S fuel' =>
      e <- gpioRead ECHO_PIN ;;
      if e then ret (Fallthrough pulse_start_time)
      else
        t <- clock_now ;;
        if timed_out t timeout_start then ret (Return INVALID)
        else wait_echo_high fuel' timeout_start t
  end.

(** [while (gpioRead(ECHO_PIN) == 1) { pulse_end_time = now();
      if (... > 0.1) return 999.0; }] *)
Fixpoint wait_echo_low (fuel : nat) (timeout_start pulse_end_time : Z)
  : io loop_exit :=
  match fuel with
  | O => spin
  | S fuel' =>
      e <- gpioRead ECHO_PIN ;;
      if negb e then ret (Fallthrough pulse_end_time)
      else
        t <- clock_now ;;
        if timed_out t timeout_start then ret (Return INVALID)
        else wait_echo_low fuel' timeout_start t
  end.

(** [float distance_cm = pulse_duration.count() * 34300.0 / 2.0;] *)
Definition distance_of_pulse (pulse_start_time pulse_end_time : Z) : spec_float :=
  F32.of_double
    (F64.div (F64.mul (seconds_between pulse_end_time pulse_start_time)
                      (F64.of_Z 34300))
             (F64.of_Z 2)).

(** [if (distance_cm < 0.0 || distance_cm > 400.0) return 999.0;
    return distance_cm;] *)
Definition filter_distance (distance_cm : spec_float) : spec_float :=
  if F64.ltb (F64.of_float distance_cm) (F64.of_Z 0)
     || F64.ltb (F64.of_Z 400) (F64.of_float distance_cm)
  then INVALID else distance_cm.

Definition get_distance_ultrasonic (fuel : nat) : io spec_float :=
  gpioWrite TRIG_PIN true ;;;
  sleep_us 10 ;;;
  gpioWrite TRIG_PIN false ;;;
  pulse_start_time <- clock_now ;;
  pulse_end_time <- clock_now ;;
  timeout_start <- clock_now ;;
  r1 <- wait_echo_high fuel timeout_start pulse_start_time ;;
  match r1 with
  | Return v => ret v
  | Fallthrough pulse_start_time =>
      timeout_start <- clock_now ;;
      r2 <- wait_echo_low fuel timeout_start pulse_end_time ;;
      match r2 with
      | Return v => ret v
      | Fallthrough pulse_end_time =>
          ret (filter_distance (distance_of_pulse pulse_start_time pulse_end_time))
      end
  end.

(** The LED condition of the main loop,
    [distance_cm != 999.0 && distance_cm < DISTANCE_THRESHOLD],
    with the threshold as a parameter. *)
Definition decide (distance_cm threshold : spec_float) : bool :=
  negb (F64.eqb (F64.of_float distance_cm) (F64.of_Z 999))
  && F32.ltb distance_cm threshold.

Definition set_warning_led (on : bool) : io unit := gpioWrite LED_PIN on.

(** One iteration of the main loop.  [frame] is [None] when the camera
    delivered an empty frame, otherwise the faces the detector found in
    it.  The result is [None] when the loop is left. *)
Definition loop_iteration (fuel : nat) (frame : option (list Rect))
           (st : ActuatorState) : io (option ActuatorState) :=
  match frame with
  | None => ret None
  | Some faces =>
      let nose_position := find_nose faces in
      let '(st', pulses) :=
        control_pan_tilt st (fst nose_position) (snd nose_position) in
      emit_all pulses ;;;
      (if negb (fst nose_position =? -1) then sleep_ms 50 else ret tt) ;;;
      distance_cm <- get_distance_ultrasonic fuel ;;
      set_warning_led (decide distance_cm DISTANCE_THRESHOLD) ;;;
      sleep_ms 100 ;;;
      ret (Some st')
  end.

End RasEye02.

Arguments RasEye02.timed_out : simpl never.
Arguments RasEye02.distance_of_pulse : simpl never.
Arguments RasEye02.filter_distance : simpl never.
Arguments RasEye02.decide : simpl never.
Arguments RasEye02.INVALID : simpl never.

(** ** ras_eye01.cpp: everything inlined in [main] *)
Module RasEye01.

(** Step 4-1: [nose_x], [nose_y] start at -1 and are set from the
    largest face. *)
Definition nose_of_faces (faces : list Rect) : Z * Z :=
  match faces with
  | [] => (-1, -1)
  | f :: rest => face_center (largest_face f rest)
  end.

(** Step 4-2 inside [if (nose_x != -1 && nose_y != -1)]. *)
Definition track (st : ActuatorState) (nose_x nose_y : Z)
  : ActuatorState * list event :=
  let error_x := int_sub nose_x CAMERA_CENTER_X in
  let error_y := int_sub nose_y CAMERA_CENTER_Y in
  let '(pan', ev_pan) :=
    if DEAD_ZONE <? int_abs error_x then
      let pan' := clamp_cmd (F32.sub (g_current_pan_angle st)
                                     (F32.mul Kp_PAN (F32.of_Z error_x))) in
      (pan', [GpioServo PAN_SERVO_PIN (F32.to_Z pan')])
    else (g_current_pan_angle st, []) in
  let '(tilt', ev_tilt) :=
    if DEAD_ZONE <? int_abs error_y then
      let tilt' := clamp_cmd (F32.add (g_current_tilt_angle st)
                                      (F32.mul Kp_TILT (F32.of_Z error_y))) in
      (tilt', [GpioServo TILT_SERVO_PIN (F32.to_Z tilt')])
    else (g_current_tilt_angle st, []) in
  (mkState pan' tilt', ev_pan ++ ev_tilt).

(** The [else] branch: both servos are sent their current command. *)
Definition hold (st : ActuatorState) : list event :=
  [GpioServo PAN_SERVO_PIN (F32.to_Z (g_current_pan_angle st));
   GpioServo TILT_SERVO_PIN (F32.to_Z (g_current_tilt_angle st))].

(** The controller part of one iteration, on the state alone. *)
Definition update (st : ActuatorState) (nose_x nose_y : Z) : ActuatorState :=
  if negb (nose_x =? -1) && negb (nose_y =? -1)
  then fst (track st nose_x nose_y) else st.

(** [... .count() < 0.05] *)
Definition within_50ms (t marker : Z) : bool :=
  F64.ltb (seconds_between t marker) (F64.lit 5 100).

(** [while (gpioRead(ECHO_PIN) == 0 && (now() - pulse_start_time) < 0.05)
      pulse_start_time = now();] *)
Fixpoint wait_echo_high (fuel : nat) (pulse_start_time : Z) : io Z :=
  match fuel with
  | O => spin
  | S fuel' =>
      e <- gpioRead ECHO_PIN ;;
      if e then ret pulse_start_time
      else
        t <- clock_now ;;
        if within_50ms t pulse_start_time then
          t' <- clock_now ;; wait_echo_high fuel' t'
        else ret pulse_start_time
  end.

Fixpoint wait_echo_low (fuel : nat) (pulse_end_time : Z) : io Z :=
  match fuel with
  | O => spin
  | S fuel' =>
      e <- gpioRead ECHO_PIN ;;
      if negb e then ret pulse_end_time
      else
        t <- clock_now ;;
        if within_50ms t pulse_end_time then
          t' <- clock_now ;; wait_echo_low fuel' t'
        else ret pulse_end_time
  end.

(** [float distance_cm = duration_s * 34300 / 2;] *)
Definition distance_of_pulse (pulse_start_time pulse_end_time : Z) : spec_float :=
  F32.of_double
    (F64.div (F64.mul (seconds_between pulse_end_time pulse_start_time)
                      (F64.of_Z 34300))
             (F64.of_Z 2)).

(** [if (distance_cm < 0 || distance_cm > 400) distance_cm = 999.0;] *)
Definition filter_distance (distance_cm : spec_float) : spec_float :=
  if F32.ltb distance_cm (F32.of_Z 0) || F32.ltb (F32.of_Z 400) distance_cm
  then F32.of_double (F64.of_Z 999) else distance_cm.

(** Step 4-3. *)
Definition measure (fuel : nat) : io spec_float :=
  gpioWrite TRIG_PIN true ;;;
  sleep_us 10 ;;;
  gpioWrite TRIG_PIN false ;;;
  pulse_start_time <- clock_now ;;
  pulse_end_time <- clock_now ;;
  pulse_start_time <- wait_echo_high fuel pulse_start_time ;;
  pulse_end_time <- wait_echo_low fuel pulse_end_time ;;
  ret (filter_distance (distance_of_pulse pulse_start_time pulse_end_time)).

(** One iteration of the [while (true)] loop of [main]. *)
Definition loop_iteration (fuel : nat) (frame : option (list Rect))
           (st : ActuatorState) : io (option ActuatorState) :=
  match frame with
  | None => ret None
  | Some faces =>
      let '(nose_x, nose_y) := nose_of_faces faces in
      if negb (nose_x =? -1) && negb (nose_y =? -1) then
        let '(st', pulses) := track st nose_x nose_y in
        emit_all pulses ;;;
        sleep_ms 50 ;;;
        distance_cm <- measure fuel ;;
        gpioWrite LED_PIN (F32.ltb distance_cm DISTANCE_THRESHOLD) ;;;
        sleep_ms 100 ;;;
        ret (Some st')
      else
        emit_all (hold st) ;;;
        gpioWrite LED_PIN false ;;;
        sleep_ms 100 ;;;
        ret (Some st)
  end.

End RasEye01.

Arguments RasEye01.within_50ms : simpl never.
Arguments RasEye01.distance_of_pulse : simpl never.
Arguments RasEye01.filter_distance : simpl never.

(** ** tyouonpa01.cpp *)
Module Tyouonpa01.

Definition WARNING_DISTANCE_CM : spec_float := F32.of_double (F64.of_Z 45).
Definition SOUND_SPEED_CM_PER_S : spec_float := F32.of_double (F64.of_Z 34300).
Definition FAILED : spec_float := F32.of_double (F64.of_Z (-1)).

(** Subtraction of two [uint32_t] ticks. *)
Definition tick_sub (a b : Z) : Z := (a - b) mod 2 ^ 32.

(** [while (gpioRead(ECHO_PIN) == 0) {
      if (gpioTick() - start_time_us > 50000) return -1.0;
      start_time_us = gpioTick(); }] *)
Fixpoint wait_echo_high (fuel : nat) (start_time_us : Z) : io loop_exit :=
  match fuel with
  | O => spin
  | S fuel' =>
      e <- gpioRead ECHO_PIN ;;
      if e then ret (Fallthrough start_time_us)
      else
        t <- gpioTick ;;
        if 50000 <? tick_sub t start_time_us then ret (Return FAILED)
        else t' <- gpioTick ;; wait_echo_high fuel' t'
  end.

Fixpoint wait_echo_low (fuel : nat) (end_time_us : Z) : io loop_exit :=
  match fuel with
  | O => spin
  | S fuel' =>
      e <- gpioRead ECHO_PIN ;;
      if negb e then ret (Fallthrough end_time_us)
      else
        t <- gpioTick ;;
        if 50000 <? tick_sub t end_time_us then ret (Return FAILED)
        else t' <- gpioTick ;; wait_echo_low fuel' t'
  end.

(** [float distance_cm =
      (pulse_duration_us / 1000000.0) * SOUND_SPEED_CM_PER_S / 2.0;]
    with [pulse_duration_us] a [long] (64 bits, so the difference of
    two ticks does not overflow). *)
Definition distance_of_duration (pulse_duration_us : Z) : spec_float :=
  F32.of_double
    (F64.div (F64.mul (F64.div (F64.of_Z pulse_duration_us) (F64.of_Z 1000000))
                      (F64.of_float SOUND_SPEED_CM_PER_S))
             (F64.of_Z 2)).

(** [if (distance_cm < 0.0 || distance_cm > 400.0) return -1.0;
    return distance_cm;] *)
Definition filter_distance (distance_cm : spec_float) : spec_float :=
  if F64.ltb (F64.of_float distance_cm) (F64.of_Z 0)
     || F64.ltb (F64.of_Z 400) (F64.of_float distance_cm)
  then FAILED else distance_cm.

Definition get_distance_ultrasonic (fuel : nat) : io spec_float :=
  gpioWrite TRIG_PIN false ;;;
  sleep_us 2 ;;;
  gpioWrite TRIG_PIN true ;;;
  sleep_us 10 ;;;
  gpioWrite TRIG_PIN false ;;;
  start_time_us <- gpioTick ;;
  r1 <- wait_echo_high fuel start_time_us ;;
  match r1 with
  | Return v => ret v
  | Fallthrough start_tick =>
      end_time_us <- gpioTick ;;
      r2 <- wait_echo_low fuel end_time_us ;;
      match r2 with
      | Return v => ret v
      | Fallthrough end_tick =>
          ret (filter_distance (distance_of_duration (end_tick - start_tick)))
      end
  end.

(** The LED decision of the main loop:
    [if (distance > 0) { if (distance <= WARNING_DISTANCE_CM) on else off }
     else off], with the threshold as a parameter. *)
Definition decide (distance threshold : spec_float) : bool :=
  if F32.ltb (F32.of_Z 0) distance then F32.leb distance threshold else false.

Definition set_warning_led (on : bool) : io unit := gpioWrite LED_PIN on.

Definition loop_iteration (fuel : nat) : io unit :=
  distance <- get_distance_ultrasonic fuel ;;
  set_warning_led (decide distance WARNING_DISTANCE_CM) ;;;
  sleep_ms 500.

End Tyouonpa01.

Arguments Tyouonpa01.distance_of_duration : simpl never.
Arguments Tyouonpa01.filter_distance : simpl never.
Arguments Tyouonpa01.decide : simpl never.
Arguments Tyouonpa01.FAILED : simpl never.
Arguments Tyouonpa01.WARNING_DISTANCE_CM : simpl never.
Arguments Tyouonpa01.tick_sub : simpl never.

(** ** The main loops of the tracking programs *)

(** The [while (true)] loop of [main] in ras_eye02, fed with the frames
    the camera delivers ([None] is an empty frame); the result is the
    actuator state when the loop is left.  While the frames given are
    not used up by an empty one the loop is still running. *)
Fixpoint main_loop02 (fuel : nat) (frames : list (option (list Rect)))
         (st : ActuatorState) : io ActuatorState :=
  match frames with
  | [] => spin
  | frame :: rest =>
      r <- RasEye02.loop_iteration fuel frame st ;;
      match r with
      | None => ret st
      | Some st' => main_loop02 fuel rest st'
      end
  end.

(** The same loop in ras_eye01. *)
Fixpoint main_loop01 (fuel : nat) (frames : list (option (list Rect)))
         (st : ActuatorState) : io ActuatorState :=
  match frames with
  | [] => spin
  | frame :: rest =>
      r <- RasEye01.loop_iteration fuel frame st ;;
      match r with
      | None => ret st
      | Some st' => main_loop01 fuel rest st'
      end
  end.

(** * Vocabulary of the properties *)

(** [MIN_CMD <= a <= MAX_CMD], with the comparisons of [float]. *)
Definition cmd_in_range (a : spec_float) : Prop :=
  F32.leb (F32.of_Z 1000) a = true /\ F32.leb a (F32.of_Z 2000) = true.

Definition state_in_range (st : ActuatorState) : Prop :=
  cmd_in_range (g_current_pan_angle st) /\ cmd_in_range (g_current_tilt_angle st).

(** The controller applied to the targets of successive iterations. *)
Definition run02 (st : ActuatorState) (targets : list (Z * Z)) : ActuatorState :=
  fold_left (fun s t => fst (RasEye02.control_pan_tilt s (fst t) (snd t))) targets st.

Definition run01 (st : ActuatorState) (targets : list (Z * Z)) : ActuatorState :=
  fold_left (fun s t => RasEye01.update s (fst t) (snd t)) targets st.

(** Equality of two floats as bit patterns. *)
Definition sf_eqb (x y : spec_float) : bool :=
  match x, y with
  | S754_zero s, S754_zero s' => Bool.eqb s s'
  | S754_infinity s, S754_infinity s' => Bool.eqb s s'
  | S754_nan, S754_nan => true
  | S754_finite s m e, S754_finite s' m' e' =>
      Bool.eqb s s' && Pos.eqb m m' && Z.eqb e e'
  | _, _ => false
  end.

(** [f] holds on the [n] integers from [start] on. *)
Fixpoint forall_from (f : Z -> bool) (start : Z) (n : nat) : bool :=
  match n with
  | O => true
  | S n' => f start && forall_from f (start + 1) n'
  end.

(** The largest pixel column considered; the frame has 640. *)
Definition MAX_COLUMN : Z := 65535.

(** From a pan command of 1000, an error [e] to the right of the dead
    zone gives 1000 again. *)
Definition pinned_low (e : Z) : bool :=
  sf_eqb (clamp_cmd (F32.sub (F32.of_Z 1000) (F32.mul Kp_PAN (F32.of_Z e))))
         (F32.of_Z 1000).

(** A target to the right of the dead zone. *)
Definition right_of_dead_zone (t : Z * Z) : Prop :=
  CAMERA_CENTER_X + DEAD_ZONE < fst t <= MAX_COLUMN.

(** From a pan command of 2000, an error [e] to the left of the dead
    zone gives 2000 again. *)
Definition pinned_high (e : Z) : bool :=
  sf_eqb (clamp_cmd (F32.sub (F32.of_Z 2000) (F32.mul Kp_PAN (F32.of_Z e))))
         (F32.of_Z 2000).

(** The same for the tilt command, which is increased by the error. *)
Definition tilt_pinned_low (e : Z) : bool :=
  sf_eqb (clamp_cmd (F32.add (F32.of_Z 1000) (F32.mul Kp_TILT (F32.of_Z e))))
         (F32.of_Z 1000).

Definition tilt_pinned_high (e : Z) : bool :=
  sf_eqb (clamp_cmd (F32.add (F32.of_Z 2000) (F32.mul Kp_TILT (F32.of_Z e))))
         (F32.of_Z 2000).

(** A target to the left of the dead zone, below it and above it (the
    rows of the image are counted downwards). *)
Definition left_of_dead_zone (t : Z * Z) : Prop :=
  - MAX_COLUMN <= fst t < CAMERA_CENTER_X - DEAD_ZONE.

Definition below_dead_zone (t : Z * Z) : Prop :=
  CAMERA_CENTER_Y + DEAD_ZONE < snd t <= MAX_COLUMN.

Definition above_dead_zone (t : Z * Z) : Prop :=
  - MAX_COLUMN <= snd t < CAMERA_CENTER_Y - DEAD_ZONE.

(** The value 1499.5 as a [float]. *)
Definition f1499_5 : spec_float := F32.of_double (F64.lit 14995 10).

(** A reading within the closed interval [0, 400] cm, compared in double
    precision as the filter does. *)
Definition valid_reading (d : spec_float) : Prop :=
  F64.leb (F64.of_Z 0) (F64.of_float d) = true
  /\ F64.leb (F64.of_float d) (F64.of_Z 400) = true.

(** 17.15 as a [float]. *)
Definition f17_15 : spec_float := F32.of_double (F64.lit 1715 100).

(** An echo pulse of exactly 1000 microseconds seen by tyouonpa01:
    the echo line is low at the first read and high at the next two;
    the clock reads 0, 10, 20, 25, 500, 1020. *)
Definition pulse_1000us : world :=
  mkWorld (fun i => nth i [false; true; true; false] false)
          (fun i => nth i [0; 10; 20; 25; 500; 1020] 0)
          0 0.

(** The number a finite [float] stands for. *)
Definition SF_value (x : spec_float) : Q :=
  match x with
  | S754_finite s m e => inject_Z (cond_Zopp s (Zpos m)) * Qpower 2 e
  | _ => 0
  end%Q.

(** The distance in cm for a pulse of [us] microseconds, in exact
    arithmetic: duration in seconds times 34300, halved. *)
Definition exact_cm (us : Z) : Q := ((us # 1000000) * 34300 / 2)%Q.

(** The pulses, in microseconds, the check below goes through; 400 cm
    take 23324. *)
Definition MIN_PULSE_US : Z := -1000.
Definition MAX_PULSE_US : Z := 25000.

(** For a pulse of [us] microseconds: the [float] the program computes
    is within 2^-15 of the exact distance, and the filter returns it
    when the exact distance is within [0, 400] and the sentinel
    otherwise. *)
Definition duration_checked (us : Z) : bool :=
  let d := Tyouonpa01.distance_of_duration us in
  Qle_bool (Qabs (SF_value d - exact_cm us)) (1 # 32768)
  && sf_eqb (Tyouonpa01.filter_distance d)
            (if Qle_bool 0 (exact_cm us) && Qle_bool (exact_cm us) 400
             then d else Tyouonpa01.FAILED).

(** An echo pulse of 26240 microseconds (about 450 cm) seen by
    tyouonpa01. *)
Definition pulse_26240us : world :=
  mkWorld (fun i => nth i [false; true; true; false] false)
          (fun i => nth i [0; 10; 20; 25; 500; 26260] 0)
          0 0.

(** The trigger pulse each program sends before it listens. *)
Definition trigger02 : list event :=
  [GpioWrite TRIG_PIN true; Sleep 10; GpioWrite TRIG_PIN false].

Definition trigger_t : list event :=
  [GpioWrite TRIG_PIN false; Sleep 2;
   GpioWrite TRIG_PIN true; Sleep 10; GpioWrite TRIG_PIN false].

(** A reading within [0, 400] as ras_eye01 tests it, in [float]. *)
Definition valid_reading01 (d : spec_float) : Prop :=
  F32.leb (F32.of_Z 0) d = true /\ F32.leb d (F32.of_Z 400) = true.

(** An echo line that never answers, with the clock advancing 50 ms
    between two readings. *)
Definition silent_echo : world :=
  mkWorld (fun _ => false) (fun i => 50000000 * Z.of_nat i) 0 0.

(** An echo line that is low at the first read and high ever after,
    with the clock advancing 50 ms between two readings. *)
Definition low_then_stuck_high : world :=
  mkWorld (fun i => match i with O => false | S _ => true end)
          (fun i => 50000000 * Z.of_nat i) 0 0.

(** An echo that answers 60 ms after the wait began and lasts 1 ms
    (clock readings in nanoseconds). *)
Definition late_echo : world :=
  mkWorld (fun i => nth i [false; true; true; false] false)
          (fun i => nth i [0; 0; 0; 60000000; 60000100; 61000000] 0)
          0 0.

(** An echo line that stays low, with the clock advancing 1 ms between
    two readings (clock readings in microseconds). *)
Definition stuck_low : world :=
  mkWorld (fun _ => false) (fun i => 1000 * Z.of_nat i) 0 0.

(** An echo pulse shorter than a microsecond seen by tyouonpa01: the
    line is already high at the first read and low at the second, and
    both clock readings are 5. *)
Definition instant_echo : world :=
  mkWorld (fun i => nth i [true; false] false) (fun _ => 5) 0 0.

(** A pulse sent to a servo. *)
Definition is_servo (e : event) : Prop :=
  exists pin pulse, e = GpioServo pin pulse.

(** The detector's answer for a frame with one face, centred at
    (420, 320). *)
Definition one_face : list Rect := [mkRect 400 300 40 40].

(** A face that lies inside the camera frame. *)
Definition in_frame (r : Rect) : Prop :=
  0 <= rx r /\ 0 <= ry r /\ 0 <= rwidth r /\ 0 <= rheight r
  /\ rx r + rwidth r <= CAMERA_WIDTH /\ ry r + rheight r <= CAMERA_HEIGHT.

(** The two clock readings ras_eye02 takes the pulse between. *)
Definition pulse_start02 (w : world) (a : nat) : Z :=
  match a with
  | O => clock_at w (ticks w)
  | S a' => clock_at w (a' + (3 + ticks w))
  end.

Definition pulse_end02 (w : world) (a b : nat) : Z :=
  match b with
  | O => clock_at w (1 + ticks w)
  | S b' => clock_at w (b' + (a + (4 + ticks w)))
  end.

(** The [i]-th value [gpioTick] returns from [w] on. *)
Definition tick_at (w : world) (i : nat) : Z := clock_at w (i + ticks w) mod 2 ^ 32.

(** The line stays low; the tick counter is about to wrap (at
    4294967296), and the fourth reading comes 60 ms after the third. *)
Definition slow_poll_at_wrap : world :=
  mkWorld (fun _ => false)
          (fun i => nth i [4294967000; 4294967100; 4294967200] 4295027200)
          0 0.

(** A line that stays low, with the clock advancing 1 ms between two
    readings (clock readings in nanoseconds). *)
Definition stuck_low_ns : world :=
  mkWorld (fun _ => false) (fun i => 1000000 * Z.of_nat i) 0 0.

(** Writes to the LED pin, and rising edges on the trigger pin. *)
Definition is_led_write (e : event) : bool :=
  match e with
  | GpioWrite pin _ => pin =? LED_PIN
  | _ => false
  end.

Definition is_ping (e : event) : bool :=
  match e with
  | GpioWrite pin true => pin =? TRIG_PIN
  | _ => false
  end.

(** The test ras_eye01 makes before it tracks and measures. *)
Definition has_target (faces : list Rect) : bool :=
  negb (fst (RasEye01.nose_of_faces faces) =? -1)
  && negb (snd (RasEye01.nose_of_faces faces) =? -1).

(** Two echoes of 1 ms each for two successive measurements of
    ras_eye02 (clock readings in nanoseconds). *)
Definition two_echoes : world :=
  mkWorld (fun i => nth i [false; true; true; false;
                           false; true; true; false] false)
          (fun i => nth i [0; 0; 0; 1000; 2000; 1001000;
                           200000000; 200000000; 200000000;
                           200001000; 200002000; 201001000] 0)
          0 0.

(** The echo of [late_echo] as ras_eye01 reads the clock: one more
    reading per poll. *)
Definition late_echo01 : world :=
  mkWorld (fun i => nth i [false; true; true; false] false)
          (fun i => nth i [0; 0; 1000; 2000; 3000; 1002000] 0)
          0 0.

(** A line stuck high, the clock advancing 1 ms per reading. *)
Definition stuck_high : world :=
  mkWorld (fun _ => true) (fun i => 1000 * Z.of_nat i) 0 0.

(** The marker ras_eye01 compares the clock with at its [i]-th poll of
    the rising-edge wait: the reading taken before the wait, then the
    refresh of the poll before. *)
Definition marker01 (w : world) (i : nat) : Z :=
  match i with
  | O => clock_at w (ticks w)
  | S i' => clock_at w (3 + 2 * i' + ticks w)
  end.

(** The line never answers and the first poll of ras_eye01 comes 60 ms
    late; the two clock readings before the wait are 1 microsecond
    apart. *)
Definition slow_first_poll : world :=
  mkWorld (fun _ => false) (fun i => nth i [0; 1000] 60000000) 0 0.

(** * Properties *)

(** ** Facts about the floating-point operations *)

Section RoundingNeverNaN.
Variables prec emax : Z.

Lemma shr_1_nonneg (mrs : shr_record) :
  0 <= shr_m mrs -> 0 <= shr_m (shr_1 mrs).
Proof.
  destruct mrs as [m r s]; simpl.
  destruct m as [|p|p]; try destruct p; simpl; lia.
Qed.

Lemma iter_shr_1_nonneg (p : positive) :
  forall mrs, 0 <= shr_m mrs -> 0 <= shr_m (iter_pos shr_1 p mrs).
Proof.
  induction p as [p IH|p IH|]; intros mrs H; simpl.
  - apply IH, IH, shr_1_nonneg, H.
  - apply IH, IH, H.
  - apply shr_1_nonneg, H.
Qed.

Lemma shr_nonneg (mrs : shr_record) (e n : Z) :
  0 <= shr_m mrs -> 0 <= shr_m (fst (shr mrs e n)).
Proof.
  intros H. destruct n; simpl; auto using iter_shr_1_nonneg.
Qed.

Lemma shr_fexp_nonneg (m e : Z) (l : location) :
  0 <= m -> 0 <= shr_m (fst (shr_fexp prec emax m e l)).
Proof.
  intros H. unfold shr_fexp. apply shr_nonneg.
  destruct l as [|[]]; simpl; exact H.
Qed.

Lemma round_nearest_even_nonneg (m : Z) (l : location) :
  0 <= m -> 0 <= round_nearest_even m l.
Proof.
  intros H. destruct l as [|[]]; simpl; try lia.
  destruct (Z.even m); lia.
Qed.

Lemma binary_round_aux_not_nan (s : bool) (m e : Z) (l : location) :
  0 <= m -> is_nan (binary_round_aux prec emax s m e l) = false.
Proof.
  intros H. unfold binary_round_aux.
  pose proof (shr_fexp_nonneg m e l H) as H1.
  destruct (shr_fexp prec emax m e l) as [mrs' e'] eqn:E1. simpl in H1.
  pose proof (round_nearest_even_nonneg _ (loc_of_shr_record mrs') H1) as H2.
  pose proof (shr_fexp_nonneg _ e' loc_Exact H2) as H3.
  destruct (shr_fexp prec emax _ e' loc_Exact) as [mrs'' e''] eqn:E2.
  simpl in H3.
  destruct (shr_m mrs'') as [|p|p]; try reflexivity.
  - destruct (e'' <=? emax - prec); reflexivity.
  - lia.
Qed.

Lemma binary_round_not_nan (s : bool) (m : positive) (e : Z) :
  is_nan (binary_round prec emax s m e) = false.
Proof.
  unfold binary_round.
  destruct (shl_align m e _) as [mz ez].
  apply binary_round_aux_not_nan. lia.
Qed.

Lemma binary_normalize_not_nan (m e : Z) (szero : bool) :
  is_nan (binary_normalize prec emax m e szero) = false.
Proof.
  destruct m; simpl; auto using binary_round_not_nan.
Qed.

(** A product with a finite factor is a NaN only if the other factor
    is a NaN or an infinity times zero; with a finite non-zero factor
    on the left it never is. *)
Lemma SFmul_finite_not_nan (s : bool) (m : positive) (e : Z) (y : spec_float) :
  is_nan y = false ->
  is_nan (SFmul prec emax (S754_finite s m e) y) = false.
Proof.
  destruct y; simpl; intros H; try reflexivity; try discriminate.
  apply binary_round_aux_not_nan. lia.
Qed.

Lemma SFmul_not_nan_finite (x : spec_float) (s : bool) (m : positive) (e : Z) :
  is_nan x = false ->
  is_nan (SFmul prec emax x (S754_finite s m e)) = false.
Proof.
  destruct x; simpl; intros H; try reflexivity; try discriminate.
  apply binary_round_aux_not_nan. lia.
Qed.

Lemma SFdiv_not_nan_finite (x : spec_float) (s : bool) (m : positive) (e : Z) :
  is_nan x = false ->
  is_nan (SFdiv prec emax x (S754_finite s m e)) = false.
Proof.
  destruct x as [sx|sx| |sx mx ex]; simpl; intros H;
    try reflexivity; try discriminate.
  unfold SFdiv_core_binary.
  set (s' := (ex - e - _)%Z).
  set (m' := match s' with Z0 => Zpos mx | Zpos _ => Z.shiftl (Zpos mx) s' | Zneg _ => 0 end).
  assert (Hm : 0 <= m').
  { subst m'. destruct s'; try lia. apply Z.shiftl_nonneg. lia. }
  pose proof (Z_div_mod m' (Zpos m) ltac:(lia)) as Hd.
  destruct (Z.div_eucl m' (Zpos m)) as [q r].
  apply binary_round_aux_not_nan.
  destruct Hd as [Hq Hr]. nia.
Qed.

(** Adding to, or subtracting from, a finite number or a zero. *)
Lemma SFsub_not_nan (x y : spec_float) :
  is_nan x = false -> is_inf x = false -> is_nan y = false ->
  is_nan (SFsub prec emax x y) = false.
Proof.
  destruct x as [sx|sx| |sx mx ex], y as [sy|sy| |sy my ey]; simpl;
    intros Hx Hi Hy; try reflexivity; try discriminate.
  - destruct sx, sy; reflexivity.
  - apply binary_normalize_not_nan.
Qed.

Lemma SFadd_not_nan (x y : spec_float) :
  is_nan x = false -> is_inf x = false -> is_nan y = false ->
  is_nan (SFadd prec emax x y) = false.
Proof.
  destruct x as [sx|sx| |sx mx ex], y as [sy|sy| |sy my ey]; simpl;
    intros Hx Hi Hy; try reflexivity; try discriminate.
  - destruct sx, sy; reflexivity.
  - apply binary_normalize_not_nan.
Qed.
End RoundingNeverNaN.

(** Comparison is total and antisymmetric away from NaN. *)
Lemma SFcompare_not_nan (x y : spec_float) :
  is_nan x = false -> is_nan y = false -> exists c, SFcompare x y = Some c.
Proof.
  destruct x, y; simpl; intros Hx Hy; try discriminate; eauto.
Qed.

Lemma SFcompare_antisym (x y : spec_float) (c : comparison) :
  SFcompare x y = Some c -> SFcompare y x = Some (CompOpp c).
Proof.
  destruct x as [sx|sx| |sx mx ex], y as [sy|sy| |sy my ey]; simpl;
    intros H; try discriminate; injection H as <-;
    try (destruct sx; reflexivity);
    try (destruct sy; reflexivity);
    try (destruct sx, sy; reflexivity);
    try reflexivity.
  f_equal.
  rewrite (Z.compare_antisym ex ey).
  change (Pos.compare_cont Eq my mx) with (Pos.compare my mx).
  change (Pos.compare_cont Eq mx my) with (Pos.compare mx my).
  rewrite (Pos.compare_antisym mx my).
  destruct sx, sy, (ex ?= ey), (mx ?= my)%positive; reflexivity.
Qed.

Lemma SFltb_false_SFleb (x y : spec_float) :
  is_nan x = false -> is_nan y = false ->
  SFltb x y = false -> SFleb y x = true.
Proof.
  intros Hx Hy. destruct (SFcompare_not_nan x y Hx Hy) as [c Hc].
  unfold SFltb, SFleb. rewrite (SFcompare_antisym _ _ _ Hc), Hc.
  destruct c; simpl; congruence.
Qed.

Lemma SFltb_SFleb (x y : spec_float) : SFltb x y = true -> SFleb x y = true.
Proof.
  unfold SFltb, SFleb. destruct (SFcompare x y) as [[]|]; congruence.
Qed.

Lemma SFleb_SFltb_false (x y : spec_float) :
  SFleb x y = true -> SFltb y x = false.
Proof.
  unfold SFltb, SFleb.
  destruct (SFcompare x y) as [c|] eqn:Hc; try discriminate.
  rewrite (SFcompare_antisym _ _ _ Hc). destruct c; simpl; congruence.
Qed.

Lemma SFleb_not_nan_l (x y : spec_float) : SFleb x y = true -> is_nan x = false.
Proof. destruct x; simpl; try reflexivity. discriminate. Qed.

Lemma SFleb_not_nan_r (x y : spec_float) : SFleb x y = true -> is_nan y = false.
Proof. destruct x, y; simpl; try reflexivity; discriminate. Qed.

Lemma F32_of_Z_not_nan (z : Z) : is_nan (F32.of_Z z) = false.
Proof. apply binary_normalize_not_nan. Qed.

Lemma F64_of_Z_not_nan (z : Z) : is_nan (F64.of_Z z) = false.
Proof. apply binary_normalize_not_nan. Qed.

Lemma F32_of_double_not_nan (x : spec_float) :
  is_nan x = false -> is_nan (F32.of_double x) = false.
Proof.
  destruct x; simpl; auto. intros _. apply binary_normalize_not_nan.
Qed.

Lemma F64_of_float_not_nan (x : spec_float) :
  is_nan x = false -> is_nan (F64.of_float x) = false.
Proof.
  destruct x; simpl; auto. intros _. apply binary_normalize_not_nan.
Qed.

(** ** The int arithmetic of the controller *)

Lemma wrap32_small (z : Z) : - 2 ^ 31 <= z < 2 ^ 31 -> wrap32 z = z.
Proof.
  intros H. unfold wrap32.
  change (2 ^ 31) with 2147483648 in *. change (2 ^ 32) with 4294967296.
  rewrite Z.mod_small; lia.
Qed.

Lemma int_abs_sub_small (a c : Z) :
  - 2 ^ 31 < a - c < 2 ^ 31 ->
  int_sub a c = a - c /\ int_abs (int_sub a c) = Z.abs (a - c).
Proof.
  intros H. unfold int_abs, int_sub.
  change (2 ^ 31) with 2147483648 in H.
  rewrite (wrap32_small (a - c)) by (change (2 ^ 31) with 2147483648; lia).
  split; [reflexivity|].
  apply wrap32_small. change (2 ^ 31) with 2147483648. lia.
Qed.

(** ** The command range *)

Lemma Kp_PAN_value : Kp_PAN = S754_finite false 10737418 (-31).
Proof. vm_compute. reflexivity. Qed.

Lemma Kp_TILT_value : Kp_TILT = S754_finite false 10737418 (-31).
Proof. vm_compute. reflexivity. Qed.

Lemma cmd_in_range_finite (a : spec_float) :
  cmd_in_range a -> is_nan a = false /\ is_inf a = false.
Proof.
  intros [H1 H2]. split.
  - exact (SFleb_not_nan_l _ _ H2).
  - destruct a as [s|s| |s m e]; try reflexivity.
    destruct s; vm_compute in H1, H2; discriminate.
Qed.

Lemma clamp_cmd_in_range (a : spec_float) :
  is_nan a = false -> cmd_in_range (clamp_cmd a).
Proof.
  intros Ha. unfold clamp_cmd, cmd_in_range, F32.ltb, F32.leb.
  pose proof (F32_of_Z_not_nan 1000) as N1.
  pose proof (F32_of_Z_not_nan 2000) as N2.
  destruct (SFltb a (F32.of_Z 1000)) eqn:E1.
  - replace (SFltb (F32.of_Z 2000) (F32.of_Z 1000)) with false
      by (vm_compute; reflexivity).
    split; vm_compute; reflexivity.
  - destruct (SFltb (F32.of_Z 2000) a) eqn:E2.
    + split; vm_compute; reflexivity.
    + split; apply SFltb_false_SFleb; assumption.
Qed.

(** Hard saturation: a value below the range is pinned at 1000, a value
    inside is kept. *)
Lemma clamp_cmd_low (a : spec_float) :
  F32.ltb a (F32.of_Z 1000) = true -> clamp_cmd a = F32.of_Z 1000.
Proof.
  intros H. unfold clamp_cmd. rewrite H.
  replace (F32.ltb (F32.of_Z 2000) (F32.of_Z 1000)) with false
    by (vm_compute; reflexivity).
  reflexivity.
Qed.

Lemma clamp_cmd_inside (a : spec_float) :
  cmd_in_range a -> clamp_cmd a = a.
Proof.
  intros [H1 H2]. unfold clamp_cmd, F32.ltb.
  rewrite (SFleb_SFltb_false _ _ H1), (SFleb_SFltb_false _ _ H2).
  reflexivity.
Qed.

Lemma pan_raw_not_nan (pan : spec_float) (error_x : Z) :
  cmd_in_range pan ->
  is_nan (F32.sub pan (F32.mul Kp_PAN (F32.of_Z error_x))) = false.
Proof.
  intros H. destruct (cmd_in_range_finite _ H) as [Hn Hi].
  apply SFsub_not_nan; try assumption.
  rewrite Kp_PAN_value. apply SFmul_finite_not_nan, F32_of_Z_not_nan.
Qed.

Lemma tilt_raw_not_nan (tilt : spec_float) (error_y : Z) :
  cmd_in_range tilt ->
  is_nan (F32.add tilt (F32.mul Kp_TILT (F32.of_Z error_y))) = false.
Proof.
  intros H. destruct (cmd_in_range_finite _ H) as [Hn Hi].
  apply SFadd_not_nan; try assumption.
  rewrite Kp_TILT_value. apply SFmul_finite_not_nan, F32_of_Z_not_nan.
Qed.

Lemma pan_axis_in_range (pan : spec_float) (error_x : Z) :
  cmd_in_range pan -> cmd_in_range (fst (RasEye02.pan_axis pan error_x)).
Proof.
  intros H. unfold RasEye02.pan_axis.
  destruct (DEAD_ZONE <? int_abs error_x); cbn [fst]; auto.
  apply clamp_cmd_in_range, pan_raw_not_nan, H.
Qed.

Lemma tilt_axis_in_range (tilt : spec_float) (error_y : Z) :
  cmd_in_range tilt -> cmd_in_range (fst (RasEye02.tilt_axis tilt error_y)).
Proof.
  intros H. unfold RasEye02.tilt_axis.
  destruct (DEAD_ZONE <? int_abs error_y); cbn [fst]; auto.
  apply clamp_cmd_in_range, tilt_raw_not_nan, H.
Qed.

(** The controller of ras_eye02 written axis by axis. *)
Lemma control_pan_tilt_state (st : ActuatorState) (nose_x nose_y : Z) :
  fst (RasEye02.control_pan_tilt st nose_x nose_y) =
  if (nose_x =? -1) || (nose_y =? -1) then st
  else mkState
         (fst (RasEye02.pan_axis (g_current_pan_angle st)
                                 (int_sub nose_x CAMERA_CENTER_X)))
         (fst (RasEye02.tilt_axis (g_current_tilt_angle st)
                                  (int_sub nose_y CAMERA_CENTER_Y))).
Proof.
  unfold RasEye02.control_pan_tilt.
  destruct ((nose_x =? -1) || (nose_y =? -1)); try reflexivity.
  destruct (RasEye02.pan_axis _ _), (RasEye02.tilt_axis _ _). reflexivity.
Qed.

(** The inlined controller of ras_eye01 computes the same state as
    [control_pan_tilt] of ras_eye02. *)
Lemma update01_eq_control02 (st : ActuatorState) (nose_x nose_y : Z) :
  RasEye01.update st nose_x nose_y =
  fst (RasEye02.control_pan_tilt st nose_x nose_y).
Proof.
  rewrite control_pan_tilt_state.
  unfold RasEye01.update, RasEye01.track, RasEye02.pan_axis, RasEye02.tilt_axis.
  destruct (nose_x =? -1), (nose_y =? -1); cbn [negb andb orb]; try reflexivity.
  destruct (DEAD_ZONE <? int_abs (int_sub nose_x CAMERA_CENTER_X)),
           (DEAD_ZONE <? int_abs (int_sub nose_y CAMERA_CENTER_Y)); reflexivity.
Qed.

Lemma run01_eq_run02 (targets : list (Z * Z)) :
  forall st, run01 st targets = run02 st targets.
Proof.
  induction targets as [|t ts IH]; intros st; simpl; try reflexivity.
  rewrite update01_eq_control02. apply IH.
Qed.

Lemma control_pan_tilt_in_range (st : ActuatorState) (nose_x nose_y : Z) :
  state_in_range st ->
  state_in_range (fst (RasEye02.control_pan_tilt st nose_x nose_y)).
Proof.
  intros [Hp Ht]. rewrite control_pan_tilt_state.
  destruct ((nose_x =? -1) || (nose_y =? -1)).
  - split; assumption.
  - split; cbn [g_current_pan_angle g_current_tilt_angle];
      auto using pan_axis_in_range, tilt_axis_in_range.
Qed.

Lemma run02_in_range (targets : list (Z * Z)) :
  forall st, state_in_range st -> state_in_range (run02 st targets).
Proof.
  induction targets as [|t ts IH]; intros st H; simpl; auto.
  apply IH, control_pan_tilt_in_range, H.
Qed.

Lemma initial_state_in_range : state_in_range initial_state.
Proof. split; split; vm_compute; reflexivity. Qed.

(** ** Saturation at the lower bound, checked over the pixel columns *)

Lemma sf_eqb_eq (x y : spec_float) : sf_eqb x y = true -> x = y.
Proof.
  destruct x as [s|s| |s m e], y as [s'|s'| |s' m' e']; simpl;
    intros H; try discriminate; try reflexivity.
  - apply eqb_prop in H. congruence.
  - apply eqb_prop in H. congruence.
  - apply andb_prop in H as [H He]. apply andb_prop in H as [Hs Hm].
    apply eqb_prop in Hs. apply Pos.eqb_eq in Hm. apply Z.eqb_eq in He.
    congruence.
Qed.

Lemma forall_from_spec (f : Z -> bool) (n : nat) :
  forall start, forall_from f start n = true ->
  forall z, start <= z < start + Z.of_nat n -> f z = true.
Proof.
  induction n as [|n IH]; intros start H z Hz.
  - simpl in Hz. lia.
  - simpl in H. apply andb_prop in H as [H0 H1].
    destruct (Z.eq_dec z start) as [->|Hne]; try assumption.
    apply (IH (start + 1) H1). lia.
Qed.

Lemma pinned_low_columns :
  forall_from pinned_low (DEAD_ZONE + 1)
              (Z.to_nat (MAX_COLUMN - CAMERA_CENTER_X - DEAD_ZONE)) = true.
Proof. vm_cast_no_check (eq_refl true). Qed.

Lemma pan_axis_pinned (error_x : Z) :
  DEAD_ZONE < error_x <= MAX_COLUMN - CAMERA_CENTER_X ->
  fst (RasEye02.pan_axis (F32.of_Z 1000) error_x) = F32.of_Z 1000.
Proof.
  intros H. unfold RasEye02.pan_axis.
  destruct (DEAD_ZONE <? int_abs error_x); try reflexivity.
  cbn [fst]. apply sf_eqb_eq.
  apply (forall_from_spec pinned_low _ _ pinned_low_columns).
  rewrite Z2Nat.id by (vm_compute; discriminate).
  lia.
Qed.

Lemma control_pan_tilt_pinned (st : ActuatorState) (t : Z * Z) :
  g_current_pan_angle st = F32.of_Z 1000 ->
  right_of_dead_zone t ->
  g_current_pan_angle (fst (RasEye02.control_pan_tilt st (fst t) (snd t)))
  = F32.of_Z 1000.
Proof.
  intros Hp [H1 H2]. rewrite control_pan_tilt_state.
  destruct ((fst t =? -1) || (snd t =? -1)); try assumption.
  cbn [g_current_pan_angle]. rewrite Hp.
  unfold int_sub. rewrite wrap32_small.
  - apply pan_axis_pinned. lia.
  - unfold CAMERA_CENTER_X, CAMERA_WIDTH, DEAD_ZONE, MAX_COLUMN in *.
    change (Z.quot 640 2) with 320 in *.
    change (2 ^ 31) with 2147483648. lia.
Qed.

Lemma run02_pinned (targets : list (Z * Z)) :
  forall st,
    g_current_pan_angle st = F32.of_Z 1000 ->
    Forall right_of_dead_zone targets ->
    g_current_pan_angle (run02 st targets) = F32.of_Z 1000.
Proof.
  induction targets as [|t ts IH]; intros st Hp Hall; simpl; try assumption.
  inversion Hall as [|? ? Ht Hts]; subst.
  apply IH; try assumption.
  apply control_pan_tilt_pinned; assumption.
Qed.

(** ** Saturation at the upper bound and of the tilt command *)

Lemma clamp_cmd_high (a : spec_float) :
  F32.ltb (F32.of_Z 2000) a = true -> clamp_cmd a = F32.of_Z 2000.
Proof.
  intros H. unfold clamp_cmd.
  assert (E : F32.ltb a (F32.of_Z 1000) = false).
  { revert H. unfold F32.ltb, SFltb.
    replace (F32.of_Z 2000) with (S754_finite false 16384000 (-13))
      by (vm_compute; reflexivity).
    replace (F32.of_Z 1000) with (S754_finite false 16384000 (-14))
      by (vm_compute; reflexivity).
    destruct a as [s|s| |s m e]; cbn [SFcompare]; try (intros H; discriminate H).
    - destruct s; [discriminate|reflexivity].
    - destruct s; [discriminate|].
      destruct (Z.compare_spec (-13) e) as [He|He|He]; try discriminate.
      + subst e. reflexivity.
      + destruct (Z.compare_spec e (-14)) as [He'|He'|He'];
          [lia|lia|reflexivity]. }
  rewrite E, H. reflexivity.
Qed.

(** The three other cases of saturation, checked like the first. *)
Lemma pinned_high_columns :
  forall_from pinned_high (- MAX_COLUMN - CAMERA_CENTER_X)
              (Z.to_nat (MAX_COLUMN + CAMERA_CENTER_X - DEAD_ZONE)) = true.
Proof. vm_cast_no_check (eq_refl true). Qed.

Lemma tilt_pinned_low_rows :
  forall_from tilt_pinned_low (- MAX_COLUMN - CAMERA_CENTER_Y)
              (Z.to_nat (MAX_COLUMN + CAMERA_CENTER_Y - DEAD_ZONE)) = true.
Proof. vm_cast_no_check (eq_refl true). Qed.

Lemma tilt_pinned_high_rows :
  forall_from tilt_pinned_high (DEAD_ZONE + 1)
              (Z.to_nat (MAX_COLUMN - CAMERA_CENTER_Y - DEAD_ZONE)) = true.
Proof. vm_cast_no_check (eq_refl true). Qed.

Lemma pan_axis_pinned_high (error_x : Z) :
  - MAX_COLUMN - CAMERA_CENTER_X <= error_x < - DEAD_ZONE ->
  fst (RasEye02.pan_axis (F32.of_Z 2000) error_x) = F32.of_Z 2000.
Proof.
  intros H. unfold RasEye02.pan_axis.
  destruct (DEAD_ZONE <? int_abs error_x); try reflexivity.
  cbn [fst]. apply sf_eqb_eq.
  apply (forall_from_spec pinned_high _ _ pinned_high_columns).
  rewrite Z2Nat.id by (vm_compute; discriminate).
  lia.
Qed.

Lemma tilt_axis_pinned_low (error_y : Z) :
  - MAX_COLUMN - CAMERA_CENTER_Y <= error_y < - DEAD_ZONE ->
  fst (RasEye02.tilt_axis (F32.of_Z 1000) error_y) = F32.of_Z 1000.
Proof.
  intros H. unfold RasEye02.tilt_axis.
  destruct (DEAD_ZONE <? int_abs error_y); try reflexivity.
  cbn [fst]. apply sf_eqb_eq.
  apply (forall_from_spec tilt_pinned_low _ _ tilt_pinned_low_rows).
  rewrite Z2Nat.id by (vm_compute; discriminate).
  lia.
Qed.

Lemma tilt_axis_pinned_high (error_y : Z) :
  DEAD_ZONE < error_y <= MAX_COLUMN - CAMERA_CENTER_Y ->
  fst (RasEye02.tilt_axis (F32.of_Z 2000) error_y) = F32.of_Z 2000.
Proof.
  intros H. unfold RasEye02.tilt_axis.
  destruct (DEAD_ZONE <? int_abs error_y); try reflexivity.
  cbn [fst]. apply sf_eqb_eq.
  apply (forall_from_spec tilt_pinned_high _ _ tilt_pinned_high_rows).
  rewrite Z2Nat.id by (vm_compute; discriminate).
  lia.
Qed.

Lemma control_pan_tilt_pinned_high (st : ActuatorState) (t : Z * Z) :
  g_current_pan_angle st = F32.of_Z 2000 ->
  left_of_dead_zone t ->
  g_current_pan_angle (fst (RasEye02.control_pan_tilt st (fst t) (snd t)))
  = F32.of_Z 2000.
Proof.
  intros Hp H. unfold left_of_dead_zone in H. rewrite control_pan_tilt_state.
  destruct ((fst t =? -1) || (snd t =? -1)); try assumption.
  cbn [g_current_pan_angle]. rewrite Hp.
  unfold int_sub. rewrite wrap32_small
    by (unfold CAMERA_CENTER_X, CAMERA_CENTER_Y, CAMERA_WIDTH, CAMERA_HEIGHT,
           DEAD_ZONE, MAX_COLUMN in *;
         change (Z.quot 640 2) with 320 in *;
         change (Z.quot 480 2) with 240 in *;
         change (2 ^ 31) with 2147483648;
         lia).
  apply pan_axis_pinned_high.
  (unfold CAMERA_CENTER_X, CAMERA_CENTER_Y, CAMERA_WIDTH, CAMERA_HEIGHT,
     DEAD_ZONE, MAX_COLUMN in *;
   change (Z.quot 640 2) with 320 in *;
   change (Z.quot 480 2) with 240 in *;
   change (2 ^ 31) with 2147483648;
   lia).
Qed.

Lemma control_pan_tilt_tilt_pinned_low (st : ActuatorState) (t : Z * Z) :
  g_current_tilt_angle st = F32.of_Z 1000 ->
  above_dead_zone t ->
  g_current_tilt_angle (fst (RasEye02.control_pan_tilt st (fst t) (snd t)))
  = F32.of_Z 1000.
Proof.
  intros Hp H. unfold above_dead_zone in H. rewrite control_pan_tilt_state.
  destruct ((fst t =? -1) || (snd t =? -1)); try assumption.
  cbn [g_current_tilt_angle]. rewrite Hp.
  unfold int_sub. rewrite wrap32_small
    by (unfold CAMERA_CENTER_X, CAMERA_CENTER_Y, CAMERA_WIDTH, CAMERA_HEIGHT,
           DEAD_ZONE, MAX_COLUMN in *;
         change (Z.quot 640 2) with 320 in *;
         change (Z.quot 480 2) with 240 in *;
         change (2 ^ 31) with 2147483648;
         lia).
  apply tilt_axis_pinned_low.
  (unfold CAMERA_CENTER_X, CAMERA_CENTER_Y, CAMERA_WIDTH, CAMERA_HEIGHT,
     DEAD_ZONE, MAX_COLUMN in *;
   change (Z.quot 640 2) with 320 in *;
   change (Z.quot 480 2) with 240 in *;
   change (2 ^ 31) with 2147483648;
   lia).
Qed.

Lemma control_pan_tilt_tilt_pinned_high (st : ActuatorState) (t : Z * Z) :
  g_current_tilt_angle st = F32.of_Z 2000 ->
  below_dead_zone t ->
  g_current_tilt_angle (fst (RasEye02.control_pan_tilt st (fst t) (snd t)))
  = F32.of_Z 2000.
Proof.
  intros Hp H. unfold below_dead_zone in H. rewrite control_pan_tilt_state.
  destruct ((fst t =? -1) || (snd t =? -1)); try assumption.
  cbn [g_current_tilt_angle]. rewrite Hp.
  unfold int_sub. rewrite wrap32_small
    by (unfold CAMERA_CENTER_X, CAMERA_CENTER_Y, CAMERA_WIDTH, CAMERA_HEIGHT,
           DEAD_ZONE, MAX_COLUMN in *;
         change (Z.quot 640 2) with 320 in *;
         change (Z.quot 480 2) with 240 in *;
         change (2 ^ 31) with 2147483648;
         lia).
  apply tilt_axis_pinned_high.
  (unfold CAMERA_CENTER_X, CAMERA_CENTER_Y, CAMERA_WIDTH, CAMERA_HEIGHT,
     DEAD_ZONE, MAX_COLUMN in *;
   change (Z.quot 640 2) with 320 in *;
   change (Z.quot 480 2) with 240 in *;
   change (2 ^ 31) with 2147483648;
   lia).
Qed.

(** A property of the state that every step towards a target of a given
    kind keeps is kept by a run over such targets. *)
Lemma run02_keeps (P : ActuatorState -> Prop) (T : Z * Z -> Prop) :
  (forall st t, P st -> T t ->
                P (fst (RasEye02.control_pan_tilt st (fst t) (snd t)))) ->
  forall targets st, P st -> Forall T targets -> P (run02 st targets).
Proof.
  intros Hstep targets.
  induction targets as [|t ts IH]; intros st Hp Hall; simpl; try assumption.
  inversion Hall as [|? ? Ht Hts]; subst.
  apply IH; try assumption.
  apply Hstep; assumption.
Qed.

(** ** The controller *)

(** C1: every state the controller produces from a state within
    [1000, 2000] is within [1000, 2000], whatever the target, in ras_eye02
    ([control_pan_tilt]) and in ras_eye01 (inlined); so is every state
    reached from the initial state, which is the midpoint 1500.  The
    clamp pins at the bounds: a raw value below 1000 is replaced by
    exactly 1000, one above 2000 by exactly 2000, and a value within
    the range is kept.  From a pan command of 1000 any sequence of
    targets to the right of the dead zone leaves the pan command at
    1000; from 2000, targets to the left leave it at 2000; likewise the
    tilt command stays at 1000 for targets above the dead zone and at
    2000 for targets below it. *)
Theorem clamp_invariant :
  (initial_state = mkState (F32.of_Z 1500) (F32.of_Z 1500)
   /\ F32.div (F32.add (F32.of_Z 1000) (F32.of_Z 2000)) (F32.of_Z 2) = F32.of_Z 1500
   /\ state_in_range initial_state)
  /\ (forall st nose_x nose_y,
         state_in_range st ->
         state_in_range (fst (RasEye02.control_pan_tilt st nose_x nose_y))
         /\ state_in_range (RasEye01.update st nose_x nose_y))
  /\ (forall targets,
         state_in_range (run02 initial_state targets)
         /\ state_in_range (run01 initial_state targets))
  /\ (forall a, F32.ltb a (F32.of_Z 1000) = true -> clamp_cmd a = F32.of_Z 1000)
  /\ (forall a, F32.ltb (F32.of_Z 2000) a = true -> clamp_cmd a = F32.of_Z 2000)
  /\ (forall a, cmd_in_range a -> clamp_cmd a = a)
  /\ (forall st targets,
         g_current_pan_angle st = F32.of_Z 1000 ->
         Forall right_of_dead_zone targets ->
         g_current_pan_angle (run02 st targets) = F32.of_Z 1000
         /\ g_current_pan_angle (run01 st targets) = F32.of_Z 1000)
  /\ (forall st targets,
         g_current_pan_angle st = F32.of_Z 2000 ->
         Forall left_of_dead_zone targets ->
         g_current_pan_angle (run02 st targets) = F32.of_Z 2000
         /\ g_current_pan_angle (run01 st targets) = F32.of_Z 2000)
  /\ (forall st targets,
         g_current_tilt_angle st = F32.of_Z 1000 ->
         Forall above_dead_zone targets ->
         g_current_tilt_angle (run02 st targets) = F32.of_Z 1000
         /\ g_current_tilt_angle (run01 st targets) = F32.of_Z 1000)
  /\ (forall st targets,
         g_current_tilt_angle st = F32.of_Z 2000 ->
         Forall below_dead_zone targets ->
         g_current_tilt_angle (run02 st targets) = F32.of_Z 2000
         /\ g_current_tilt_angle (run01 st targets) = F32.of_Z 2000).
Proof.
  split; [|split; [|split; [|split; [|split; [|split; [|split; [|split; [|split]]]]]]]].
  - split; [reflexivity|]. split; [vm_compute; reflexivity|].
    exact initial_state_in_range.
  - intros st nx ny H. rewrite update01_eq_control02.
    split; apply control_pan_tilt_in_range, H.
  - intros targets. rewrite run01_eq_run02.
    split; apply run02_in_range, initial_state_in_range.
  - exact clamp_cmd_low.
  - exact clamp_cmd_high.
  - exact clamp_cmd_inside.
  - intros st targets Hp Hall. rewrite run01_eq_run02.
    split; apply run02_pinned; assumption.
  - intros st targets Hp Hall. rewrite run01_eq_run02.
    split;
      apply (run02_keeps (fun s => g_current_pan_angle s = F32.of_Z 2000)
                         left_of_dead_zone control_pan_tilt_pinned_high);
      assumption.
  - intros st targets Hp Hall. rewrite run01_eq_run02.
    split;
      apply (run02_keeps (fun s => g_current_tilt_angle s = F32.of_Z 1000)
                         above_dead_zone control_pan_tilt_tilt_pinned_low);
      assumption.
  - intros st targets Hp Hall. rewrite run01_eq_run02.
    split;
      apply (run02_keeps (fun s => g_current_tilt_angle s = F32.of_Z 2000)
                         below_dead_zone control_pan_tilt_tilt_pinned_high);
      assumption.
Qed.

(** The invariant at work: a state at both bounds with a target far to
    the lower right; a target at x = 500 repeated from pan = 1000; a raw
    value of 2500; targets at the left, at the bottom and at the top of
    the frame from a command at the bound they push against. *)
Lemma clamp_invariant_witness :
  state_in_range
    (fst (RasEye02.control_pan_tilt (mkState (F32.of_Z 1000) (F32.of_Z 2000)) 639 479))
  /\ g_current_pan_angle
       (run02 (mkState (F32.of_Z 1000) (F32.of_Z 1500))
              [(500, 240); (500, 240); (500, 240)])
     = F32.of_Z 1000
  /\ clamp_cmd (F32.of_Z 2500) = F32.of_Z 2000
  /\ g_current_pan_angle
       (run02 (mkState (F32.of_Z 2000) (F32.of_Z 1500))
              [(100, 240); (0, 240); (100, 240)])
     = F32.of_Z 2000
  /\ g_current_tilt_angle
       (run02 (mkState (F32.of_Z 1500) (F32.of_Z 2000)) [(320, 479); (320, 400)])
     = F32.of_Z 2000
  /\ g_current_tilt_angle
       (run02 (mkState (F32.of_Z 1500) (F32.of_Z 1000)) [(320, 0); (320, 100)])
     = F32.of_Z 1000.
Proof.
  destruct clamp_invariant
    as (_ & Hstep & _ & _ & Hhigh & _ & Hpin & Hpin2 & Htlow & Hthigh).
  split; [|split; [|split; [|split; [|split]]]].
  - refine (proj1 (Hstep (mkState (F32.of_Z 1000) (F32.of_Z 2000)) 639 479 _)).
    split; split; vm_compute; reflexivity.
  - refine (proj1 (Hpin (mkState (F32.of_Z 1000) (F32.of_Z 1500))
                        [(500, 240); (500, 240); (500, 240)] eq_refl _)).
    repeat apply Forall_cons; try apply Forall_nil;
      split; vm_compute; congruence.
  - refine (Hhigh (F32.of_Z 2500) _). vm_compute. reflexivity.
  - refine (proj1 (Hpin2 (mkState (F32.of_Z 2000) (F32.of_Z 1500))
                         [(100, 240); (0, 240); (100, 240)] eq_refl _)).
    repeat apply Forall_cons; try apply Forall_nil;
      split; vm_compute; congruence.
  - refine (proj1 (Hthigh (mkState (F32.of_Z 1500) (F32.of_Z 2000))
                          [(320, 479); (320, 400)] eq_refl _)).
    repeat apply Forall_cons; try apply Forall_nil;
      split; vm_compute; congruence.
  - refine (proj1 (Htlow (mkState (F32.of_Z 1500) (F32.of_Z 1000))
                         [(320, 0); (320, 100)] eq_refl _)).
    repeat apply Forall_cons; try apply Forall_nil;
      split; vm_compute; congruence.
Defined.

Lemma control_pan_tilt_events (st : ActuatorState) (nose_x nose_y : Z) :
  snd (RasEye02.control_pan_tilt st nose_x nose_y) =
  if (nose_x =? -1) || (nose_y =? -1) then []
  else snd (RasEye02.pan_axis (g_current_pan_angle st)
                              (int_sub nose_x CAMERA_CENTER_X))
       ++ snd (RasEye02.tilt_axis (g_current_tilt_angle st)
                                  (int_sub nose_y CAMERA_CENTER_Y)).
Proof.
  unfold RasEye02.control_pan_tilt.
  destruct ((nose_x =? -1) || (nose_y =? -1)); try reflexivity.
  destruct (RasEye02.pan_axis _ _), (RasEye02.tilt_axis _ _). reflexivity.
Qed.

(** C3: with the "no target" point (-1, -1), which is what the locator
    returns for no face, the controller leaves both commands as they
    were: [control_pan_tilt] of ras_eye02 returns at once and sends
    nothing, and the [else] branch of ras_eye01 only re-sends the
    current commands.  One coordinate equal to -1 is enough. *)
Theorem no_target_hold (st : ActuatorState) :
  RasEye02.find_nose [] = (-1, -1)
  /\ RasEye02.control_pan_tilt st (-1) (-1) = (st, [])
  /\ (forall nose_y, RasEye02.control_pan_tilt st (-1) nose_y = (st, []))
  /\ (forall nose_x, RasEye02.control_pan_tilt st nose_x (-1) = (st, []))
  /\ RasEye01.nose_of_faces [] = (-1, -1)
  /\ RasEye01.update st (-1) (-1) = st
  /\ (forall fuel w,
        RasEye01.loop_iteration fuel (Some []) st w =
        Some (Some st, w,
              RasEye01.hold st ++ [GpioWrite LED_PIN false; Sleep 100000])).
Proof.
  repeat split.
  intros nose_x. unfold RasEye02.control_pan_tilt.
  destruct (nose_x =? -1); reflexivity.
Qed.

(** C4: a target whose column is within [DEAD_ZONE] pixels of the centre
    column leaves the pan command exactly as it was, and no pulse is
    sent to the pan servo by [control_pan_tilt]; the same for the row
    and the tilt command. *)
Theorem dead_zone_suppression (st : ActuatorState) (nose_x nose_y : Z) :
  (Z.abs (nose_x - CAMERA_CENTER_X) <= DEAD_ZONE ->
   g_current_pan_angle (fst (RasEye02.control_pan_tilt st nose_x nose_y))
   = g_current_pan_angle st
   /\ (forall pulse,
         ~ In (GpioServo PAN_SERVO_PIN pulse)
              (snd (RasEye02.control_pan_tilt st nose_x nose_y)))
   /\ g_current_pan_angle (RasEye01.update st nose_x nose_y)
      = g_current_pan_angle st)
  /\
  (Z.abs (nose_y - CAMERA_CENTER_Y) <= DEAD_ZONE ->
   g_current_tilt_angle (fst (RasEye02.control_pan_tilt st nose_x nose_y))
   = g_current_tilt_angle st
   /\ (forall pulse,
         ~ In (GpioServo TILT_SERVO_PIN pulse)
              (snd (RasEye02.control_pan_tilt st nose_x nose_y)))
   /\ g_current_tilt_angle (RasEye01.update st nose_x nose_y)
      = g_current_tilt_angle st).
Proof.
  split; intros H.
  - assert (Hz : (DEAD_ZONE <? int_abs (int_sub nose_x CAMERA_CENTER_X)) = false).
    { destruct (int_abs_sub_small nose_x CAMERA_CENTER_X) as [_ ->].
      - unfold DEAD_ZONE in H. change (2 ^ 31) with 2147483648. lia.
      - apply Z.ltb_ge, H. }
    rewrite update01_eq_control02, control_pan_tilt_state, control_pan_tilt_events.
    destruct ((nose_x =? -1) || (nose_y =? -1));
      [repeat split; auto|].
    unfold RasEye02.pan_axis. rewrite Hz. cbn [fst snd g_current_pan_angle app].
    repeat split.
    intros pulse Hin. unfold RasEye02.tilt_axis in Hin.
    destruct (DEAD_ZONE <? int_abs (int_sub nose_y CAMERA_CENTER_Y));
      cbn [snd] in Hin.
    + destruct Hin as [Hin|[]]. discriminate Hin.
    + destruct Hin.
  - assert (Hz : (DEAD_ZONE <? int_abs (int_sub nose_y CAMERA_CENTER_Y)) = false).
    { destruct (int_abs_sub_small nose_y CAMERA_CENTER_Y) as [_ ->].
      - unfold DEAD_ZONE in H. change (2 ^ 31) with 2147483648. lia.
      - apply Z.ltb_ge, H. }
    rewrite update01_eq_control02, control_pan_tilt_state, control_pan_tilt_events.
    destruct ((nose_x =? -1) || (nose_y =? -1));
      [repeat split; auto|].
    unfold RasEye02.tilt_axis. rewrite Hz. cbn [fst snd g_current_tilt_angle].
    rewrite app_nil_r.
    repeat split.
    intros pulse Hin. unfold RasEye02.pan_axis in Hin.
    destruct (DEAD_ZONE <? int_abs (int_sub nose_x CAMERA_CENTER_X));
      cbn [snd] in Hin.
    + destruct Hin as [Hin|[]]. discriminate Hin.
    + destruct Hin.
Qed.

(** A face centred at (330, 250), ten pixels off the centre on both
    axes: nothing moves. *)
Lemma dead_zone_suppression_witness :
  g_current_pan_angle (fst (RasEye02.control_pan_tilt initial_state 330 250))
  = g_current_pan_angle initial_state
  /\ g_current_tilt_angle (fst (RasEye02.control_pan_tilt initial_state 330 250))
     = g_current_tilt_angle initial_state.
Proof.
  destruct (dead_zone_suppression initial_state 330 250) as [Hx Hy].
  split.
  - refine (proj1 (Hx _)). vm_compute. congruence.
  - refine (proj1 (Hy _)). vm_compute. congruence.
Defined.

(** ** The sign convention and the worked example *)

Lemma pan_axis_outside (pan : spec_float) (error_x : Z) :
  DEAD_ZONE < int_abs error_x ->
  fst (RasEye02.pan_axis pan error_x)
  = clamp_cmd (F32.sub pan (F32.mul Kp_PAN (F32.of_Z error_x))).
Proof.
  intros H. unfold RasEye02.pan_axis.
  apply Z.ltb_lt in H. rewrite H. reflexivity.
Qed.

Lemma tilt_axis_outside (tilt : spec_float) (error_y : Z) :
  DEAD_ZONE < int_abs error_y ->
  fst (RasEye02.tilt_axis tilt error_y)
  = clamp_cmd (F32.add tilt (F32.mul Kp_TILT (F32.of_Z error_y))).
Proof.
  intros H. unfold RasEye02.tilt_axis.
  apply Z.ltb_lt in H. rewrite H. reflexivity.
Qed.

Lemma worked_example_pan_axis :
  fst (RasEye02.pan_axis (F32.of_Z 1500) 100) = f1499_5.
Proof. vm_compute. reflexivity. Qed.

(** C5, as the code computes it: with centre (320, 240), gain 0.005,
    dead zone 15 and pan command 1500, a target at column 420 (error
    100) gives the pan command 1500 - 0.005 * 100 = 1499.5, in ras_eye02
    and in ras_eye01, whatever the tilt command and the target's row. *)
Theorem worked_pan_example (tilt : spec_float) (nose_y : Z) :
  nose_y <> -1 ->
  (CAMERA_CENTER_X = 320 /\ CAMERA_CENTER_Y = 240 /\ DEAD_ZONE = 15
   /\ Kp_PAN = F32.of_double (F64.lit 5 1000))
  /\ g_current_pan_angle
       (fst (RasEye02.control_pan_tilt (mkState (F32.of_Z 1500) tilt) 420 nose_y))
     = f1499_5
  /\ g_current_pan_angle
       (RasEye01.update (mkState (F32.of_Z 1500) tilt) 420 nose_y)
     = f1499_5
  /\ F32.eqb f1499_5 (F32.of_Z 1495) = false
  /\ F32.sub (F32.of_Z 1500) (F32.of_double (F64.lit 5 10)) = f1499_5.
Proof.
  intros Hy.
  split; [repeat split|].
  rewrite update01_eq_control02, control_pan_tilt_state.
  apply Z.eqb_neq in Hy. rewrite Hy.
  change (420 =? -1) with false. cbn [orb g_current_pan_angle].
  change (int_sub 420 CAMERA_CENTER_X) with 100.
  rewrite worked_example_pan_axis.
  repeat split; vm_compute; reflexivity.
Qed.

Lemma worked_pan_example_witness :
  g_current_pan_angle (fst (RasEye02.control_pan_tilt initial_state 420 240))
  = f1499_5.
Proof.
  refine (proj1 (proj2 (worked_pan_example (F32.of_Z 1500) 240 _))).
  discriminate.
Defined.

(** C5 as stated fails: the pan command returned for this setup is not
    1495.0, neither as a bit pattern nor under [==]. *)
Lemma worked_pan_example_not_1495 :
  g_current_pan_angle (fst (RasEye02.control_pan_tilt initial_state 420 240))
  <> F32.of_Z 1495
  /\ F32.eqb (g_current_pan_angle
                (fst (RasEye02.control_pan_tilt initial_state 420 240)))
             (F32.of_Z 1495) = false
  /\ g_current_pan_angle (RasEye01.update initial_state 420 240)
     <> F32.of_Z 1495.
Proof.
  repeat split; vm_compute; congruence.
Qed.

(** C9: outside the dead zone the pan command is decreased by
    [Kp_PAN * error_x] and the tilt command is increased by
    [Kp_TILT * error_y], each then clamped; when the raw value lies in
    [1000, 2000] it is the new command itself.  The same in ras_eye01.
    From (1500, 1500) a target 100 pixels right of and below the centre
    gives pan 1499.5 and tilt 1500.5. *)
Theorem sign_convention (st : ActuatorState) (nose_x nose_y : Z) :
  nose_x <> -1 -> nose_y <> -1 ->
  - 2 ^ 31 < nose_x - CAMERA_CENTER_X < 2 ^ 31 ->
  - 2 ^ 31 < nose_y - CAMERA_CENTER_Y < 2 ^ 31 ->
  let error_x := nose_x - CAMERA_CENTER_X in
  let error_y := nose_y - CAMERA_CENTER_Y in
  let pan_raw :=
    F32.sub (g_current_pan_angle st) (F32.mul Kp_PAN (F32.of_Z error_x)) in
  let tilt_raw :=
    F32.add (g_current_tilt_angle st) (F32.mul Kp_TILT (F32.of_Z error_y)) in
  let st02 := fst (RasEye02.control_pan_tilt st nose_x nose_y) in
  let st01 := RasEye01.update st nose_x nose_y in
  (DEAD_ZONE < Z.abs error_x ->
   g_current_pan_angle st02 = clamp_cmd pan_raw
   /\ g_current_pan_angle st01 = clamp_cmd pan_raw
   /\ (cmd_in_range pan_raw -> g_current_pan_angle st02 = pan_raw))
  /\ (DEAD_ZONE < Z.abs error_y ->
      g_current_tilt_angle st02 = clamp_cmd tilt_raw
      /\ g_current_tilt_angle st01 = clamp_cmd tilt_raw
      /\ (cmd_in_range tilt_raw -> g_current_tilt_angle st02 = tilt_raw))
  /\ fst (RasEye02.control_pan_tilt initial_state 420 340)
     = mkState (F32.of_double (F64.lit 14995 10)) (F32.of_double (F64.lit 15005 10)).
Proof.
  intros Hx Hy Bx By error_x error_y pan_raw tilt_raw st02 st01.
  assert (E : st01 = st02) by apply update01_eq_control02.
  rewrite E. clear E st01.
  assert (S : st02 = mkState
                (fst (RasEye02.pan_axis (g_current_pan_angle st)
                                        (int_sub nose_x CAMERA_CENTER_X)))
                (fst (RasEye02.tilt_axis (g_current_tilt_angle st)
                                         (int_sub nose_y CAMERA_CENTER_Y)))).
  { subst st02. rewrite control_pan_tilt_state.
    apply Z.eqb_neq in Hx, Hy. rewrite Hx, Hy. reflexivity. }
  rewrite S. clear S st02. cbn [g_current_pan_angle g_current_tilt_angle].
  destruct (int_abs_sub_small nose_x CAMERA_CENTER_X Bx) as [Ex Ax].
  destruct (int_abs_sub_small nose_y CAMERA_CENTER_Y By) as [Ey Ay].
  split; [|split].
  - intros H. rewrite pan_axis_outside by (rewrite Ax; exact H).
    rewrite Ex. repeat split. intros R. apply clamp_cmd_inside, R.
  - intros H. rewrite tilt_axis_outside by (rewrite Ay; exact H).
    rewrite Ey. repeat split. intros R. apply clamp_cmd_inside, R.
  - vm_compute. reflexivity.
Qed.

Lemma sign_convention_witness :
  g_current_pan_angle (fst (RasEye02.control_pan_tilt initial_state 420 340))
  = F32.sub (F32.of_Z 1500) (F32.mul Kp_PAN (F32.of_Z 100))
  /\ g_current_tilt_angle (fst (RasEye02.control_pan_tilt initial_state 420 340))
     = F32.add (F32.of_Z 1500) (F32.mul Kp_TILT (F32.of_Z 100)).
Proof.
  pose proof (sign_convention initial_state 420 340) as H.
  cbv zeta in H.
  destruct H as (Hp & Ht & _).
  - discriminate.
  - discriminate.
  - split; vm_compute; reflexivity.
  - split; vm_compute; reflexivity.
  - split.
    + refine (proj2 (proj2 (Hp _)) _).
      * vm_compute. reflexivity.
      * split; vm_compute; reflexivity.
    + refine (proj2 (proj2 (Ht _)) _).
      * vm_compute. reflexivity.
      * split; vm_compute; reflexivity.
Defined.

(** ** The proximity alert *)

Lemma SFltb_irrefl (x : spec_float) : SFltb x x = false.
Proof.
  unfold SFltb. destruct (SFcompare x x) as [c|] eqn:Hc; try reflexivity.
  pose proof (SFcompare_antisym _ _ _ Hc) as Hc'.
  rewrite Hc in Hc'. destruct c; try reflexivity. discriminate.
Qed.

Lemma INVALID_is_999 :
  F64.eqb (F64.of_float RasEye02.INVALID) (F64.of_Z 999) = true.
Proof. vm_compute. reflexivity. Qed.

(** C2, as the code has it.  In ras_eye02 the LED is on iff the reading
    is not the sentinel 999.0 and is strictly below the threshold: an
    invalid reading gives off for every threshold, a reading at or above
    the threshold gives off, the boundary included.  In tyouonpa01 the
    LED is on iff the reading is above 0 and at or below the threshold:
    the boundary is included, and a reading of 0 counts as failed. *)
Theorem proximity_alert_rule (reading threshold : spec_float) :
  (RasEye02.decide reading threshold = true <->
   F64.eqb (F64.of_float reading) (F64.of_Z 999) = false
   /\ F32.ltb reading threshold = true)
  /\ RasEye02.decide RasEye02.INVALID threshold = false
  /\ (F32.leb threshold reading = true ->
      RasEye02.decide reading threshold = false)
  /\ RasEye02.decide threshold threshold = false
  /\ (RasEye02.decide (F32.of_Z 30) (F32.of_Z 40) = true
      /\ RasEye02.decide (F32.of_Z 50) (F32.of_Z 40) = false
      /\ RasEye02.decide (F32.of_Z 40) (F32.of_Z 40) = false
      /\ DISTANCE_THRESHOLD = F32.of_Z 40)
  /\ (Tyouonpa01.decide reading threshold = true <->
      F32.ltb (F32.of_Z 0) reading = true /\ F32.leb reading threshold = true)
  /\ Tyouonpa01.decide Tyouonpa01.FAILED threshold = false
  /\ (Tyouonpa01.decide (F32.of_Z 45) (F32.of_Z 45) = true
      /\ Tyouonpa01.decide (F32.of_Z 0) (F32.of_Z 45) = false
      /\ Tyouonpa01.WARNING_DISTANCE_CM = F32.of_Z 45).
Proof.
  unfold RasEye02.decide, Tyouonpa01.decide.
  split; [|split; [|split; [|split; [|split; [|split; [|split]]]]]].
  - rewrite andb_true_iff, negb_true_iff. reflexivity.
  - rewrite INVALID_is_999. reflexivity.
  - intros H. unfold F32.leb, F32.ltb in *.
    rewrite (SFleb_SFltb_false _ _ H). apply andb_false_r.
  - unfold F32.ltb. rewrite SFltb_irrefl. apply andb_false_r.
  - repeat split; vm_compute; reflexivity.
  - destruct (F32.ltb (F32.of_Z 0) reading); split; intros H;
      try discriminate; try (split; [reflexivity|exact H]);
      try exact (proj2 H); destruct H; discriminate.
  - replace (F32.ltb (F32.of_Z 0) Tyouonpa01.FAILED) with false
      by (vm_compute; reflexivity).
    reflexivity.
  - repeat split; vm_compute; reflexivity.
Qed.

Lemma proximity_alert_rule_witness :
  RasEye02.decide (F32.of_Z 50) (F32.of_Z 40) = false.
Proof.
  destruct (proximity_alert_rule (F32.of_Z 50) (F32.of_Z 40))
    as (_ & _ & H & _).
  apply H. vm_compute. reflexivity.
Defined.

(** C2 as stated fails on tyouonpa01: at the boundary, a reading equal
    to the threshold of 45 cm switches the LED on; and the reading 0,
    which the measurement returns for [instant_echo] and which is below
    the threshold, leaves it off. *)
Lemma proximity_alert_boundary_on :
  (Tyouonpa01.decide (F32.of_Z 45) Tyouonpa01.WARNING_DISTANCE_CM = true
   /\ F32.ltb (F32.of_Z 45) Tyouonpa01.WARNING_DISTANCE_CM = false
   /\ Tyouonpa01.filter_distance (F32.of_Z 45) = F32.of_Z 45)
  /\ (option_map (fun r => fst (fst r))
                 (Tyouonpa01.get_distance_ultrasonic 2 instant_echo)
      = Some (F32.of_Z 0)
      /\ F32.of_Z 0 <> Tyouonpa01.FAILED
      /\ F32.ltb (F32.of_Z 0) Tyouonpa01.WARNING_DISTANCE_CM = true
      /\ Tyouonpa01.decide (F32.of_Z 0) Tyouonpa01.WARNING_DISTANCE_CM = false).
Proof.
  split; [repeat split; vm_compute; reflexivity|].
  split; [vm_compute; reflexivity|].
  split; [vm_compute; congruence|].
  split; vm_compute; reflexivity.
Qed.

(** ** The distance computation and its range filter *)

Lemma F64_million : F64.of_Z 1000000 = S754_finite false 8589934592000000 (-33).
Proof. vm_compute. reflexivity. Qed.

Lemma F64_billion : F64.of_Z 1000000000 = S754_finite false 8388608000000000 (-23).
Proof. vm_compute. reflexivity. Qed.

Lemma F64_34300 : F64.of_Z 34300 = S754_finite false 4714156104089600 (-37).
Proof. vm_compute. reflexivity. Qed.

Lemma F64_two : F64.of_Z 2 = S754_finite false 4503599627370496 (-51).
Proof. vm_compute. reflexivity. Qed.

Lemma SOUND_SPEED_as_double :
  F64.of_float Tyouonpa01.SOUND_SPEED_CM_PER_S = F64.of_Z 34300.
Proof. vm_compute. reflexivity. Qed.

Lemma seconds_between_not_nan (t1 t0 : Z) : is_nan (seconds_between t1 t0) = false.
Proof.
  unfold seconds_between, F64.div. rewrite F64_billion.
  apply SFdiv_not_nan_finite, F64_of_Z_not_nan.
Qed.

Lemma scaled_not_nan (x : spec_float) :
  is_nan x = false ->
  is_nan (F32.of_double (F64.div (F64.mul x (F64.of_Z 34300)) (F64.of_Z 2))) = false.
Proof.
  intros H. apply F32_of_double_not_nan.
  unfold F64.div, F64.mul. rewrite F64_two, F64_34300.
  apply SFdiv_not_nan_finite, SFmul_not_nan_finite, H.
Qed.

Lemma distance_of_duration_not_nan (us : Z) :
  is_nan (Tyouonpa01.distance_of_duration us) = false.
Proof.
  unfold Tyouonpa01.distance_of_duration. rewrite SOUND_SPEED_as_double.
  apply scaled_not_nan. unfold F64.div. rewrite F64_million.
  apply SFdiv_not_nan_finite, F64_of_Z_not_nan.
Qed.

Lemma distance_of_pulse_not_nan (t0 t1 : Z) :
  is_nan (RasEye02.distance_of_pulse t0 t1) = false.
Proof.
  unfold RasEye02.distance_of_pulse.
  apply scaled_not_nan, seconds_between_not_nan.
Qed.

Lemma distance_of_pulse01_not_nan (t0 t1 : Z) :
  is_nan (RasEye01.distance_of_pulse t0 t1) = false.
Proof.
  unfold RasEye01.distance_of_pulse.
  apply scaled_not_nan, seconds_between_not_nan.
Qed.

(** What the two filters do, for a value that is not a NaN. *)
Lemma range_test (d : spec_float) :
  is_nan d = false ->
  (F64.ltb (F64.of_float d) (F64.of_Z 0)
   || F64.ltb (F64.of_Z 400) (F64.of_float d) = false)
  <-> valid_reading d.
Proof.
  intros Hd. pose proof (F64_of_float_not_nan d Hd) as Hn.
  unfold valid_reading, F64.ltb, F64.leb. rewrite orb_false_iff.
  split; intros [H1 H2]; split.
  - apply SFltb_false_SFleb; auto using F64_of_Z_not_nan.
  - apply SFltb_false_SFleb; auto using F64_of_Z_not_nan.
  - apply SFleb_SFltb_false, H1.
  - apply SFleb_SFltb_false, H2.
Qed.

Lemma filter_distance_cases (d : spec_float) :
  is_nan d = false ->
  (Tyouonpa01.filter_distance d = Tyouonpa01.FAILED /\ ~ valid_reading d)
  \/ (Tyouonpa01.filter_distance d = d /\ valid_reading d).
Proof.
  intros Hd. unfold Tyouonpa01.filter_distance.
  destruct (F64.ltb (F64.of_float d) (F64.of_Z 0)
            || F64.ltb (F64.of_Z 400) (F64.of_float d)) eqn:E.
  - left. split; [reflexivity|]. intros V.
    apply (range_test d Hd) in V. congruence.
  - right. split; [reflexivity|]. apply (range_test d Hd), E.
Qed.

Lemma filter_distance02_cases (d : spec_float) :
  is_nan d = false ->
  (RasEye02.filter_distance d = RasEye02.INVALID /\ ~ valid_reading d)
  \/ (RasEye02.filter_distance d = d /\ valid_reading d).
Proof.
  intros Hd. unfold RasEye02.filter_distance.
  destruct (F64.ltb (F64.of_float d) (F64.of_Z 0)
            || F64.ltb (F64.of_Z 400) (F64.of_float d)) eqn:E.
  - left. split; [reflexivity|]. intros V.
    apply (range_test d Hd) in V. congruence.
  - right. split; [reflexivity|]. apply (range_test d Hd), E.
Qed.

Lemma sentinels_not_valid :
  ~ valid_reading RasEye02.INVALID /\ ~ valid_reading Tyouonpa01.FAILED.
Proof.
  split; intros [H1 H2]; vm_compute in H1, H2; discriminate.
Qed.

(** The formula in exact arithmetic gives 17.15 for 1000 microseconds;
    the [float] the program returns is the one nearest to it,
    8991539 / 2^19 = 17.1499996185..., less than half a unit in the last
    place (2^-20) away. *)
Lemma distance_1000us_value :
  ((1000 # 1000000) * 34300 / 2 == 1715 # 100)%Q
  /\ (SF_value (Tyouonpa01.distance_of_duration 1000) == 8991539 # 524288)%Q
  /\ (Qabs (SF_value (Tyouonpa01.distance_of_duration 1000) - (1715 # 100))
      < 1 # 1048576)%Q.
Proof.
  split; [reflexivity|].
  replace (Tyouonpa01.distance_of_duration 1000)
    with (S754_finite false 8991539 (-19)) by (vm_compute; reflexivity).
  split; vm_compute; reflexivity.
Qed.

(** ** Running the measurement *)

Lemma bind_Some {A B : Type} (m : io A) (k : A -> io B)
      (w : world) (b : B) (w2 : world) (tr : list event) :
  bind m k w = Some (b, w2, tr) ->
  exists a w1 t1 t2,
    m w = Some (a, w1, t1) /\ k a w1 = Some (b, w2, t2) /\ tr = t1 ++ t2.
Proof.
  unfold bind. destruct (m w) as [[[a w1] t1]|]; try discriminate.
  destruct (k a w1) as [[[b' w2'] t2]|] eqn:E; try discriminate.
  intros H. injection H as <- <- <-.
  exists a, w1, t1, t2. auto.
Qed.

(** The polling loops send nothing, and when they leave the function
    they do so with the sentinel. *)
Lemma wait_echo_high02_inv (fuel : nat) :
  forall ts ps w r w' tr,
    RasEye02.wait_echo_high fuel ts ps w = Some (r, w', tr) ->
    tr = [] /\ (forall v, r = Return v -> v = RasEye02.INVALID).
Proof.
  induction fuel as [|fuel IH]; intros ts ps w r w' tr H; try discriminate.
  cbn [RasEye02.wait_echo_high] in H.
  apply bind_Some in H as (e & w1 & t1 & t2 & He & H & ->).
  injection He as <- <- <-.
  destruct (echo_at w (reads w)).
  - injection H as <- <- <-. split; [reflexivity|discriminate].
  - apply bind_Some in H as (t & w2 & t3 & t4 & Ht & H & ->).
    injection Ht as <- <- <-.
    destruct (RasEye02.timed_out _ ts).
    + injection H as <- <- <-. split; [reflexivity|congruence].
    + apply IH in H as [-> Hv]. auto.
Qed.

Lemma wait_echo_low02_inv (fuel : nat) :
  forall ts pe w r w' tr,
    RasEye02.wait_echo_low fuel ts pe w = Some (r, w', tr) ->
    tr = [] /\ (forall v, r = Return v -> v = RasEye02.INVALID).
Proof.
  induction fuel as [|fuel IH]; intros ts pe w r w' tr H; try discriminate.
  cbn [RasEye02.wait_echo_low] in H.
  apply bind_Some in H as (e & w1 & t1 & t2 & He & H & ->).
  injection He as <- <- <-.
  destruct (echo_at w (reads w)); cbn [negb] in H.
  - apply bind_Some in H as (t & w2 & t3 & t4 & Ht & H & ->).
    injection Ht as <- <- <-.
    destruct (RasEye02.timed_out _ ts).
    + injection H as <- <- <-. split; [reflexivity|congruence].
    + apply IH in H as [-> Hv]. auto.
  - injection H as <- <- <-. split; [reflexivity|discriminate].
Qed.

Lemma wait_echo_high_t_inv (fuel : nat) :
  forall st w r w' tr,
    Tyouonpa01.wait_echo_high fuel st w = Some (r, w', tr) ->
    tr = [] /\ (forall v, r = Return v -> v = Tyouonpa01.FAILED).
Proof.
  induction fuel as [|fuel IH]; intros st w r w' tr H; try discriminate.
  cbn [Tyouonpa01.wait_echo_high] in H.
  apply bind_Some in H as (e & w1 & t1 & t2 & He & H & ->).
  injection He as <- <- <-.
  destruct (echo_at w (reads w)).
  - injection H as <- <- <-. split; [reflexivity|discriminate].
  - apply bind_Some in H as (t & w2 & t3 & t4 & Ht & H & ->).
    injection Ht as <- <- <-.
    destruct (50000 <? _).
    + injection H as <- <- <-. split; [reflexivity|congruence].
    + apply bind_Some in H as (t' & w3 & t5 & t6 & Ht' & H & ->).
      injection Ht' as <- <- <-.
      apply IH in H as [-> Hv]. auto.
Qed.

Lemma wait_echo_low_t_inv (fuel : nat) :
  forall et w r w' tr,
    Tyouonpa01.wait_echo_low fuel et w = Some (r, w', tr) ->
    tr = [] /\ (forall v, r = Return v -> v = Tyouonpa01.FAILED).
Proof.
  induction fuel as [|fuel IH]; intros et w r w' tr H; try discriminate.
  cbn [Tyouonpa01.wait_echo_low] in H.
  apply bind_Some in H as (e & w1 & t1 & t2 & He & H & ->).
  injection He as <- <- <-.
  destruct (echo_at w (reads w)); cbn [negb] in H.
  - apply bind_Some in H as (t & w2 & t3 & t4 & Ht & H & ->).
    injection Ht as <- <- <-.
    destruct (50000 <? _).
    + injection H as <- <- <-. split; [reflexivity|congruence].
    + apply bind_Some in H as (t' & w3 & t5 & t6 & Ht' & H & ->).
      injection Ht' as <- <- <-.
      apply IH in H as [-> Hv]. auto.
  - injection H as <- <- <-. split; [reflexivity|discriminate].
Qed.

(** Every run of [get_distance_ultrasonic] of ras_eye02 that returns has
    sent the trigger pulse and nothing else, and returns the sentinel or
    the filtered distance of some pulse. *)
Lemma get_distance02_inv (fuel : nat) (w w' : world) (v : spec_float)
      (tr : list event) :
  RasEye02.get_distance_ultrasonic fuel w = Some (v, w', tr) ->
  tr = trigger02
  /\ (v = RasEye02.INVALID
      \/ exists t0 t1, v = RasEye02.filter_distance (RasEye02.distance_of_pulse t0 t1)).
Proof.
  unfold RasEye02.get_distance_ultrasonic. intros H.
  apply bind_Some in H as (? & w1 & t1 & t2 & E1 & H & ->).
  injection E1 as _ <- <-.
  apply bind_Some in H as (? & w2 & t3 & t4 & E2 & H & ->).
  injection E2 as _ <- <-.
  apply bind_Some in H as (? & w3 & t5 & t6 & E3 & H & ->).
  injection E3 as _ <- <-.
  apply bind_Some in H as (ps & w4 & t7 & t8 & E4 & H & ->).
  injection E4 as <- <- <-.
  apply bind_Some in H as (pe & w5 & t9 & t10 & E5 & H & ->).
  injection E5 as <- <- <-.
  apply bind_Some in H as (ts & w6 & t11 & t12 & E6 & H & ->).
  injection E6 as <- <- <-.
  apply bind_Some in H as (r1 & w7 & t13 & t14 & E7 & H & ->).
  apply wait_echo_high02_inv in E7 as [-> Hr1].
  destruct r1 as [ps'|v1].
  - apply bind_Some in H as (ts' & w8 & t15 & t16 & E8 & H & ->).
    injection E8 as <- <- <-.
    apply bind_Some in H as (r2 & w9 & t17 & t18 & E9 & H & ->).
    apply wait_echo_low02_inv in E9 as [-> Hr2].
    destruct r2 as [pe'|v2]; injection H as <- <- <-.
    + split; [reflexivity|]. right. eauto.
    + split; [reflexivity|]. left. auto.
  - injection H as <- <- <-. split; [reflexivity|]. left. auto.
Qed.

Lemma get_distance_t_inv (fuel : nat) (w w' : world) (v : spec_float)
      (tr : list event) :
  Tyouonpa01.get_distance_ultrasonic fuel w = Some (v, w', tr) ->
  tr = trigger_t
  /\ (v = Tyouonpa01.FAILED
      \/ exists us, v = Tyouonpa01.filter_distance (Tyouonpa01.distance_of_duration us)).
Proof.
  unfold Tyouonpa01.get_distance_ultrasonic. intros H.
  apply bind_Some in H as (? & w1 & t1 & t2 & E1 & H & ->).
  injection E1 as _ <- <-.
  apply bind_Some in H as (? & w2 & t3 & t4 & E2 & H & ->).
  injection E2 as _ <- <-.
  apply bind_Some in H as (? & w3 & t5 & t6 & E3 & H & ->).
  injection E3 as _ <- <-.
  apply bind_Some in H as (? & w4 & t7 & t8 & E4 & H & ->).
  injection E4 as _ <- <-.
  apply bind_Some in H as (? & w5 & t9 & t10 & E5 & H & ->).
  injection E5 as _ <- <-.
  apply bind_Some in H as (st & w6 & t11 & t12 & E6 & H & ->).
  injection E6 as <- <- <-.
  apply bind_Some in H as (r1 & w7 & t13 & t14 & E7 & H & ->).
  apply wait_echo_high_t_inv in E7 as [-> Hr1].
  destruct r1 as [st'|v1].
  - apply bind_Some in H as (et & w8 & t15 & t16 & E8 & H & ->).
    injection E8 as <- <- <-.
    apply bind_Some in H as (r2 & w9 & t17 & t18 & E9 & H & ->).
    apply wait_echo_low_t_inv in E9 as [-> Hr2].
    destruct r2 as [et'|v2]; injection H as <- <- <-.
    + split; [reflexivity|]. right. eauto.
    + split; [reflexivity|]. left. auto.
  - injection H as <- <- <-. split; [reflexivity|]. left. auto.
Qed.

Lemma wait_echo_high01_inv (fuel : nat) :
  forall ps w r w' tr,
    RasEye01.wait_echo_high fuel ps w = Some (r, w', tr) -> tr = [].
Proof.
  induction fuel as [|fuel IH]; intros ps w r w' tr H; try discriminate.
  cbn [RasEye01.wait_echo_high] in H.
  apply bind_Some in H as (e & w1 & t1 & t2 & He & H & ->).
  injection He as <- <- <-.
  destruct (echo_at w (reads w)).
  - injection H as <- <- <-. reflexivity.
  - apply bind_Some in H as (t & w2 & t3 & t4 & Ht & H & ->).
    injection Ht as <- <- <-.
    destruct (RasEye01.within_50ms _ ps).
    + apply bind_Some in H as (t' & w3 & t5 & t6 & Ht' & H & ->).
      injection Ht' as <- <- <-.
      apply IH in H as ->. reflexivity.
    + injection H as <- <- <-. reflexivity.
Qed.

Lemma wait_echo_low01_inv (fuel : nat) :
  forall pe w r w' tr,
    RasEye01.wait_echo_low fuel pe w = Some (r, w', tr) -> tr = [].
Proof.
  induction fuel as [|fuel IH]; intros pe w r w' tr H; try discriminate.
  cbn [RasEye01.wait_echo_low] in H.
  apply bind_Some in H as (e & w1 & t1 & t2 & He & H & ->).
  injection He as <- <- <-.
  destruct (echo_at w (reads w)); cbn [negb] in H.
  - apply bind_Some in H as (t & w2 & t3 & t4 & Ht & H & ->).
    injection Ht as <- <- <-.
    destruct (RasEye01.within_50ms _ pe).
    + apply bind_Some in H as (t' & w3 & t5 & t6 & Ht' & H & ->).
      injection Ht' as <- <- <-.
      apply IH in H as ->. reflexivity.
    + injection H as <- <- <-. reflexivity.
  - injection H as <- <- <-. reflexivity.
Qed.

Lemma measure01_inv (fuel : nat) (w w' : world) (d : spec_float) (tr : list event) :
  RasEye01.measure fuel w = Some (d, w', tr) ->
  tr = trigger02
  /\ exists t0 t1, d = RasEye01.filter_distance (RasEye01.distance_of_pulse t0 t1).
Proof.
  unfold RasEye01.measure. intros H.
  apply bind_Some in H as (? & w1 & t1 & t2 & E1 & H & ->).
  injection E1 as _ <- <-.
  apply bind_Some in H as (? & w2 & t3 & t4 & E2 & H & ->).
  injection E2 as _ <- <-.
  apply bind_Some in H as (? & w3 & t5 & t6 & E3 & H & ->).
  injection E3 as _ <- <-.
  apply bind_Some in H as (ps & w4 & t7 & t8 & E4 & H & ->).
  injection E4 as <- <- <-.
  apply bind_Some in H as (pe & w5 & t9 & t10 & E5 & H & ->).
  injection E5 as <- <- <-.
  apply bind_Some in H as (ps' & w6 & t11 & t12 & E6 & H & ->).
  apply wait_echo_high01_inv in E6 as ->.
  apply bind_Some in H as (pe' & w7 & t13 & t14 & E7 & H & ->).
  apply wait_echo_low01_inv in E7 as ->.
  injection H as <- <- <-. split; [reflexivity|eauto].
Qed.

Lemma filter_distance01_cases (d : spec_float) :
  is_nan d = false ->
  RasEye01.filter_distance d = RasEye02.INVALID
  \/ (RasEye01.filter_distance d = d /\ valid_reading01 d).
Proof.
  intros Hd. unfold RasEye01.filter_distance.
  destruct (F32.ltb d (F32.of_Z 0) || F32.ltb (F32.of_Z 400) d) eqn:E.
  - left. reflexivity.
  - right. split; [reflexivity|].
    apply orb_false_iff in E as [E1 E2].
    split; apply SFltb_false_SFleb; auto using F32_of_Z_not_nan.
Qed.

(** C10: whatever the echo line and the clock do, a value returned by
    [get_distance_ultrasonic] is the sentinel (999.0 in ras_eye02, -1.0
    in tyouonpa01) or a reading within [0, 400]; the sentinels are
    outside [0, 400], so no reading that passed the filter equals one.
    The inlined measurement of ras_eye01 likewise ends with 999.0 or a
    value within [0, 400]. *)
Theorem sentinel_non_collision :
  (forall fuel w v w' tr,
      RasEye02.get_distance_ultrasonic fuel w = Some (v, w', tr) ->
      v = RasEye02.INVALID \/ valid_reading v)
  /\ (forall fuel w v w' tr,
         Tyouonpa01.get_distance_ultrasonic fuel w = Some (v, w', tr) ->
         v = Tyouonpa01.FAILED \/ valid_reading v)
  /\ (forall v, valid_reading v ->
                v <> RasEye02.INVALID /\ v <> Tyouonpa01.FAILED)
  /\ RasEye02.INVALID = F32.of_Z 999
  /\ Tyouonpa01.FAILED = F32.of_Z (-1)
  /\ (forall fuel w v w' tr,
         RasEye01.measure fuel w = Some (v, w', tr) ->
         v = F32.of_Z 999 \/ valid_reading01 v)
  /\ ~ valid_reading01 (F32.of_Z 999).
Proof.
  split; [|split; [|split; [|split; [|split; [|split]]]]].
  - intros fuel w v w' tr H.
    apply get_distance02_inv in H as [_ [H|(t0 & t1 & H)]]; auto.
    destruct (filter_distance02_cases _ (distance_of_pulse_not_nan t0 t1))
      as [[E _]|[E V]]; rewrite <- H in E.
    + auto.
    + right. rewrite E. exact V.
  - intros fuel w v w' tr H.
    apply get_distance_t_inv in H as [_ [H|(us & H)]]; auto.
    destruct (filter_distance_cases _ (distance_of_duration_not_nan us))
      as [[E _]|[E V]]; rewrite <- H in E.
    + auto.
    + right. rewrite E. exact V.
  - intros v V. destruct sentinels_not_valid as [N1 N2].
    split; intros ->; contradiction.
  - vm_compute. reflexivity.
  - vm_compute. reflexivity.
  - intros fuel w v w' tr H.
    apply measure01_inv in H as [_ (t0 & t1 & ->)].
    destruct (filter_distance01_cases _ (distance_of_pulse01_not_nan t0 t1))
      as [E|[E V]].
    + left. exact E.
    + right. rewrite E. exact V.
  - intros [H1 H2]. vm_compute in H2. discriminate.
Qed.

Lemma sentinel_non_collision_witness :
  (f17_15 = Tyouonpa01.FAILED \/ valid_reading f17_15)
  /\ f17_15 <> RasEye02.INVALID.
Proof.
  destruct sentinel_non_collision as (_ & Ht & Hne & _).
  assert (V : f17_15 = Tyouonpa01.FAILED \/ valid_reading f17_15).
  { refine (Ht 4%nat pulse_1000us f17_15
               (mkWorld (echo_at pulse_1000us) (clock_at pulse_1000us) 4 6)
               trigger_t _).
    vm_compute. reflexivity. }
  split; [exact V|].
  refine (proj1 (Hne f17_15 _)).
  split; vm_compute; reflexivity.
Defined.

(** ** The echo wait and its time limit *)

Lemma later_later (w : world) (a b c d : nat) :
  later (later w a b) c d = later w (c + a) (d + b).
Proof.
  unfold later. cbn [echo_at clock_at reads ticks].
  f_equal; apply Nat.add_assoc.
Qed.

Lemma wait_echo_high02_step (fuel : nat) (ts ps : Z) (w : world) :
  RasEye02.wait_echo_high (S fuel) ts ps w =
  if echo_at w (reads w) then Some (Fallthrough ps, later w 1 0, [])
  else if RasEye02.timed_out (clock_at w (ticks w)) ts
       then Some (Return RasEye02.INVALID, later w 1 1, [])
       else RasEye02.wait_echo_high fuel ts (clock_at w (ticks w)) (later w 1 1).
Proof.
  cbn [RasEye02.wait_echo_high]. unfold bind at 1. unfold gpioRead at 1.
  destruct (echo_at w (reads w)); [reflexivity|].
  unfold bind at 1. unfold clock_now at 1.
  change (clock_at (later w 1 0) (ticks (later w 1 0))) with (clock_at w (ticks w)).
  change (later (later w 1 0) 0 1) with (later w 1 1).
  destruct (RasEye02.timed_out (clock_at w (ticks w)) ts); [reflexivity|].
  destruct (RasEye02.wait_echo_high fuel ts _ _) as [[[r w2] t2]|]; reflexivity.
Qed.

Lemma wait_echo_low02_step (fuel : nat) (ts pe : Z) (w : world) :
  RasEye02.wait_echo_low (S fuel) ts pe w =
  if echo_at w (reads w)
  then if RasEye02.timed_out (clock_at w (ticks w)) ts
       then Some (Return RasEye02.INVALID, later w 1 1, [])
       else RasEye02.wait_echo_low fuel ts (clock_at w (ticks w)) (later w 1 1)
  else Some (Fallthrough pe, later w 1 0, []).
Proof.
  cbn [RasEye02.wait_echo_low]. unfold bind at 1. unfold gpioRead at 1.
  destruct (echo_at w (reads w)); [|reflexivity].
  cbn [negb]. unfold bind at 1. unfold clock_now at 1.
  change (clock_at (later w 1 0) (ticks (later w 1 0))) with (clock_at w (ticks w)).
  change (later (later w 1 0) 0 1) with (later w 1 1).
  destruct (RasEye02.timed_out (clock_at w (ticks w)) ts); [reflexivity|].
  destruct (RasEye02.wait_echo_low fuel ts _ _) as [[[r w2] t2]|]; reflexivity.
Qed.

(** The rising-edge wait of ras_eye02 against an echo line that stays
    low: it ends, with the sentinel, at the first poll whose clock
    reading makes the elapsed-time test true. *)
Lemma wait_echo_high02_times_out (n : nat) :
  forall fuel ts ps w,
    (n < fuel)%nat ->
    (forall i, (i <= n)%nat -> echo_at w (i + reads w) = false) ->
    (forall i, (i < n)%nat ->
               RasEye02.timed_out (clock_at w (i + ticks w)) ts = false) ->
    RasEye02.timed_out (clock_at w (n + ticks w)) ts = true ->
    RasEye02.wait_echo_high fuel ts ps w
    = Some (Return RasEye02.INVALID, later w (S n) (S n), []).
Proof.
  induction n as [|n IH]; intros fuel ts ps w Hf He Ht Hn;
    (destruct fuel as [|fuel]; [lia|]);
    rewrite wait_echo_high02_step;
    rewrite (He 0%nat ltac:(lia) : echo_at w (reads w) = false).
  - rewrite (Hn : RasEye02.timed_out (clock_at w (ticks w)) ts = true).
    reflexivity.
  - rewrite (Ht 0%nat ltac:(lia)
             : RasEye02.timed_out (clock_at w (ticks w)) ts = false).
    rewrite (IH fuel ts _ (later w 1 1)).
    + rewrite later_later. do 3 f_equal. unfold later. f_equal; lia.
    + lia.
    + intros i Hi. cbn [later echo_at reads].
      replace (i + (1 + reads w))%nat with (S i + reads w)%nat by lia.
      apply He. lia.
    + intros i Hi. cbn [later clock_at ticks].
      replace (i + (1 + ticks w))%nat with (S i + ticks w)%nat by lia.
      apply Ht. lia.
    + cbn [later clock_at ticks].
      replace (n + (1 + ticks w))%nat with (S n + ticks w)%nat by lia.
      exact Hn.
Qed.

Lemma wait_echo_low02_times_out (n : nat) :
  forall fuel ts pe w,
    (n < fuel)%nat ->
    (forall i, (i <= n)%nat -> echo_at w (i + reads w) = true) ->
    (forall i, (i < n)%nat ->
               RasEye02.timed_out (clock_at w (i + ticks w)) ts = false) ->
    RasEye02.timed_out (clock_at w (n + ticks w)) ts = true ->
    RasEye02.wait_echo_low fuel ts pe w
    = Some (Return RasEye02.INVALID, later w (S n) (S n), []).
Proof.
  induction n as [|n IH]; intros fuel ts pe w Hf He Ht Hn;
    (destruct fuel as [|fuel]; [lia|]);
    rewrite wait_echo_low02_step;
    rewrite (He 0%nat ltac:(lia) : echo_at w (reads w) = true).
  - rewrite (Hn : RasEye02.timed_out (clock_at w (ticks w)) ts = true).
    reflexivity.
  - rewrite (Ht 0%nat ltac:(lia)
             : RasEye02.timed_out (clock_at w (ticks w)) ts = false).
    rewrite (IH fuel ts _ (later w 1 1)).
    + rewrite later_later. do 3 f_equal. unfold later. f_equal; lia.
    + lia.
    + intros i Hi. cbn [later echo_at reads].
      replace (i + (1 + reads w))%nat with (S i + reads w)%nat by lia.
      apply He. lia.
    + intros i Hi. cbn [later clock_at ticks].
      replace (i + (1 + ticks w))%nat with (S i + ticks w)%nat by lia.
      apply Ht. lia.
    + cbn [later clock_at ticks].
      replace (n + (1 + ticks w))%nat with (S n + ticks w)%nat by lia.
      exact Hn.
Qed.

Lemma wait_echo_high02_falls (a : nat) :
  forall fuel ts ps w,
    (a < fuel)%nat ->
    (forall i, (i < a)%nat -> echo_at w (i + reads w) = false) ->
    (forall i, (i < a)%nat ->
               RasEye02.timed_out (clock_at w (i + ticks w)) ts = false) ->
    echo_at w (a + reads w) = true ->
    RasEye02.wait_echo_high fuel ts ps w
    = Some (Fallthrough (match a with
                         | O => ps
                         | S a' => clock_at w (a' + ticks w)
                         end),
            later w (S a) a, []).
Proof.
  induction a as [|a IH]; intros fuel ts ps w Hf He Ht Hhigh;
    (destruct fuel as [|fuel]; [lia|]);
    rewrite wait_echo_high02_step.
  - rewrite (Hhigh : echo_at w (reads w) = true). reflexivity.
  - rewrite (He 0%nat ltac:(lia) : echo_at w (reads w) = false).
    rewrite (Ht 0%nat ltac:(lia)
             : RasEye02.timed_out (clock_at w (ticks w)) ts = false).
    rewrite (IH fuel ts _ (later w 1 1)).
    + rewrite later_later.
      replace (later w (S a + 1) (a + 1)) with (later w (S (S a)) (S a))
        by (unfold later; f_equal; lia).
      do 4 f_equal.
      destruct a as [|a']; [reflexivity|].
      cbn [later clock_at ticks]. f_equal. lia.
    + lia.
    + intros i Hi. cbn [later echo_at reads].
      replace (i + (1 + reads w))%nat with (S i + reads w)%nat by lia.
      apply He. lia.
    + intros i Hi. cbn [later clock_at ticks].
      replace (i + (1 + ticks w))%nat with (S i + ticks w)%nat by lia.
      apply Ht. lia.
    + cbn [later echo_at reads].
      replace (a + (1 + reads w))%nat with (S a + reads w)%nat by lia.
      exact Hhigh.
Qed.

Lemma get_distance02_rising_timeout (w : world) (n fuel : nat) :
  (n < fuel)%nat ->
  (forall i, (i <= n)%nat -> echo_at w (i + reads w) = false) ->
  (forall i, (i < n)%nat ->
             RasEye02.timed_out (clock_at w (i + (3 + ticks w)))
                                (clock_at w (2 + ticks w)) = false) ->
  RasEye02.timed_out (clock_at w (n + (3 + ticks w)))
                     (clock_at w (2 + ticks w)) = true ->
  RasEye02.get_distance_ultrasonic fuel w
  = Some (RasEye02.INVALID, later w (S n) (S n + 3), trigger02).
Proof.
  intros Hf He Ht Hn.
  unfold RasEye02.get_distance_ultrasonic.
  unfold bind at 1 2 3 4 5 6 7.
  unfold gpioWrite, sleep_us, emit, clock_now.
  rewrite (wait_echo_high02_times_out n); try assumption.
  unfold ret. rewrite later_later. unfold later.
  cbn [echo_at clock_at reads ticks app].
  unfold trigger02. do 3 f_equal. f_equal; lia.
Qed.

Lemma get_distance02_falling_timeout_after (w : world) (a n fuel : nat) :
  (a < fuel)%nat -> (n < fuel)%nat ->
  (forall i, (i < a)%nat -> echo_at w (i + reads w) = false) ->
  (forall i, (i < a)%nat ->
             RasEye02.timed_out (clock_at w (i + (3 + ticks w)))
                                (clock_at w (2 + ticks w)) = false) ->
  (forall i, (i <= S n)%nat -> echo_at w (i + (a + reads w)) = true) ->
  (forall i, (i < n)%nat ->
             RasEye02.timed_out (clock_at w (i + (a + (4 + ticks w))))
                                (clock_at w (a + (3 + ticks w))) = false) ->
  RasEye02.timed_out (clock_at w (n + (a + (4 + ticks w))))
                     (clock_at w (a + (3 + ticks w))) = true ->
  RasEye02.get_distance_ultrasonic fuel w
  = Some (RasEye02.INVALID, later w (a + n + 2) (a + n + 5), trigger02).
Proof.
  intros Hfa Hfn Hlow Ht1 Hhigh Ht2 Hn.
  unfold RasEye02.get_distance_ultrasonic.
  unfold bind at 1 2 3 4 5 6 7.
  unfold gpioWrite, sleep_us, emit, clock_now.
  rewrite (wait_echo_high02_falls a); try assumption.
  - unfold bind at 1 2. unfold clock_now.
    rewrite (wait_echo_low02_times_out n).
    + unfold ret. rewrite !later_later. cbn [app].
      match goal with
      | |- Some (_, ?W, _) = _ =>
          replace W with (later w (a + n + 2) (a + n + 5))
            by (unfold later; f_equal; lia)
      end.
      reflexivity.
    + exact Hfn.
    + intros i Hi. cbn [later echo_at reads].
      replace (i + (0 + (S a + (0 + (0 + (0 + reads w))))))%nat
        with (S i + (a + reads w))%nat by lia.
      apply Hhigh. lia.
    + intros i Hi. cbn [later clock_at ticks].
      replace (i + (1 + (a + (1 + (1 + (1 + ticks w))))))%nat
        with (i + (a + (4 + ticks w)))%nat by lia.
      replace (0 + (a + (1 + (1 + (1 + ticks w)))))%nat
        with (a + (3 + ticks w))%nat by lia.
      apply Ht2, Hi.
    + cbn [later clock_at ticks].
      replace (n + (1 + (a + (1 + (1 + (1 + ticks w))))))%nat
        with (n + (a + (4 + ticks w)))%nat by lia.
      replace (0 + (a + (1 + (1 + (1 + ticks w)))))%nat
        with (a + (3 + ticks w))%nat by lia.
      exact Hn.
  - cbn [later echo_at reads].
    specialize (Hhigh 0%nat ltac:(lia)). exact Hhigh.
Qed.

Lemma timed_out_elapsed (t timeout_start : Z) :
  RasEye02.timed_out t timeout_start = RasEye02.timed_out (t - timeout_start) 0.
Proof.
  unfold RasEye02.timed_out, seconds_between. rewrite Z.sub_0_r. reflexivity.
Qed.

(** C7, as ras_eye02 has it.  The limit of [get_distance_ultrasonic] in
    ras_eye02 is 0.1 s, measured from the start of each wait.  Against
    an echo line that stays low, the function returns 999.0 at the first
    poll whose clock reading makes (elapsed seconds > 0.1) true, after
    exactly that many reads of the line.  Likewise for the falling edge:
    when the line has gone high, after any number [a] of polls that
    found it low, and stays high, the function returns 999.0 at the
    first poll of the second wait whose clock reading is more than 0.1 s
    after that wait began.  The test depends on the elapsed time only;
    it is false at 50 ms, 60 ms and 100 ms and true at 100.000001 ms. *)
Theorem echo_wait_timeout :
  (forall (w : world) (n fuel : nat),
      (n < fuel)%nat ->
      (forall i, (i <= n)%nat -> echo_at w (i + reads w) = false) ->
      (forall i, (i < n)%nat ->
                 RasEye02.timed_out (clock_at w (i + (3 + ticks w)))
                                    (clock_at w (2 + ticks w)) = false) ->
      RasEye02.timed_out (clock_at w (n + (3 + ticks w)))
                         (clock_at w (2 + ticks w)) = true ->
      RasEye02.get_distance_ultrasonic fuel w
      = Some (RasEye02.INVALID, later w (S n) (S n + 3), trigger02))
  /\ (forall (w : world) (a n fuel : nat),
         (a < fuel)%nat -> (n < fuel)%nat ->
         (forall i, (i < a)%nat -> echo_at w (i + reads w) = false) ->
         (forall i, (i < a)%nat ->
                    RasEye02.timed_out (clock_at w (i + (3 + ticks w)))
                                       (clock_at w (2 + ticks w)) = false) ->
         (forall i, (i <= S n)%nat -> echo_at w (i + (a + reads w)) = true) ->
         (forall i, (i < n)%nat ->
                    RasEye02.timed_out (clock_at w (i + (a + (4 + ticks w))))
                                       (clock_at w (a + (3 + ticks w))) = false) ->
         RasEye02.timed_out (clock_at w (n + (a + (4 + ticks w))))
                            (clock_at w (a + (3 + ticks w))) = true ->
         RasEye02.get_distance_ultrasonic fuel w
         = Some (RasEye02.INVALID, later w (a + n + 2) (a + n + 5), trigger02))
  /\ (forall t timeout_start,
         RasEye02.timed_out t timeout_start
         = RasEye02.timed_out (t - timeout_start) 0)
  /\ (RasEye02.timed_out 50000001 0 = false
      /\ RasEye02.timed_out 60000000 0 = false
      /\ RasEye02.timed_out 100000000 0 = false
      /\ RasEye02.timed_out 100000001 0 = true).
Proof.
  split; [|split; [|split]].
  - exact get_distance02_rising_timeout.
  - exact get_distance02_falling_timeout_after.
  - exact timed_out_elapsed.
  - repeat split; vm_compute; reflexivity.
Qed.

(** A line that never answers, and one that is low once and then stuck
    high: both waits give up. *)
Lemma echo_wait_timeout_witness :
  RasEye02.get_distance_ultrasonic 3 silent_echo
  = Some (RasEye02.INVALID, later silent_echo 3 6, trigger02)
  /\ RasEye02.get_distance_ultrasonic 3 low_then_stuck_high
     = Some (RasEye02.INVALID, later low_then_stuck_high 5 8, trigger02).
Proof.
  split.
  - refine (proj1 echo_wait_timeout silent_echo 2%nat 3%nat _ _ _ _).
    + lia.
    + reflexivity.
    + intros [|[|i]] Hi; try lia; vm_compute; reflexivity.
    + vm_compute. reflexivity.
  - refine (proj1 (proj2 echo_wait_timeout) low_then_stuck_high
                  1%nat 2%nat 3%nat _ _ _ _ _ _ _).
    + lia.
    + lia.
    + intros [|i] Hi; [reflexivity|lia].
    + intros [|i] Hi; [vm_compute; reflexivity|lia].
    + intros [|i] Hi; reflexivity.
    + intros [|[|i]] Hi; try lia; vm_compute; reflexivity.
    + vm_compute. reflexivity.
Defined.

(** C7 as stated fails on ras_eye02: with [late_echo] the elapsed time
    has exceeded 50 ms while the line is still low, and the function
    has not returned the sentinel but goes on and returns the distance
    of the 1 ms pulse that follows. *)
Lemma echo_wait_no_abort_after_50ms :
  50000000 < clock_at late_echo 3 - clock_at late_echo 2
  /\ echo_at late_echo 0 = false
  /\ option_map (fun r => fst (fst r))
                (RasEye02.get_distance_ultrasonic 4 late_echo)
     = Some f17_15
  /\ f17_15 <> RasEye02.INVALID.
Proof.
  split; [vm_compute; reflexivity|].
  split; [reflexivity|].
  split; [vm_compute; reflexivity|].
  vm_compute. congruence.
Qed.

(** *** The rolling marker of tyouonpa01

    In tyouonpa01 (and in ras_eye01) the marker the elapsed time is
    measured from is refreshed at every poll.  When two successive clock
    readings are never more than 50 ms apart, the test never fires: with
    an echo line that stays low the function does not return, whatever
    the number of polls. *)

Lemma wait_echo_high_t_step (fuel : nat) (st : Z) (w : world) :
  Tyouonpa01.wait_echo_high (S fuel) st w =
  if echo_at w (reads w) then Some (Fallthrough st, later w 1 0, [])
  else if 50000 <? Tyouonpa01.tick_sub (clock_at w (ticks w) mod 2 ^ 32) st
       then Some (Return Tyouonpa01.FAILED, later w 1 1, [])
       else Tyouonpa01.wait_echo_high
              fuel (clock_at w (S (ticks w)) mod 2 ^ 32) (later w 1 2).
Proof.
  cbn [Tyouonpa01.wait_echo_high]. unfold bind at 1. unfold gpioRead at 1.
  destruct (echo_at w (reads w)); [reflexivity|].
  unfold bind at 1. unfold gpioTick at 1.
  change (clock_at (later w 1 0) (ticks (later w 1 0))) with (clock_at w (ticks w)).
  change (later (later w 1 0) 0 1) with (later w 1 1).
  destruct (50000 <? _); [reflexivity|].
  unfold bind at 1. unfold gpioTick at 1.
  change (clock_at (later w 1 1) (ticks (later w 1 1)))
    with (clock_at w (S (ticks w))).
  change (later (later w 1 1) 0 1) with (later w 1 2).
  destruct (Tyouonpa01.wait_echo_high fuel _ _) as [[[r w2] t2]|]; reflexivity.
Qed.

Lemma rolling_marker_never_expires (fuel : nat) :
  forall st w,
    (forall i, echo_at w (i + reads w) = false) ->
    Tyouonpa01.tick_sub (clock_at w (ticks w) mod 2 ^ 32) st <= 50000 ->
    (forall j, Tyouonpa01.tick_sub (clock_at w (S j + ticks w) mod 2 ^ 32)
                                   (clock_at w (j + ticks w) mod 2 ^ 32)
               <= 50000) ->
    Tyouonpa01.wait_echo_high fuel st w = None.
Proof.
  induction fuel as [|fuel IH]; intros st w He H0 Hj; [reflexivity|].
  rewrite wait_echo_high_t_step.
  rewrite (He 0%nat : echo_at w (reads w) = false).
  apply Z.ltb_ge in H0. rewrite H0.
  apply IH.
  - intros i. cbn [later echo_at reads].
    replace (i + (1 + reads w))%nat with (S i + reads w)%nat by lia.
    apply He.
  - exact (Hj 1%nat).
  - intros j. cbn [later clock_at ticks].
    replace (S j + (2 + ticks w))%nat with (S (S (S j)) + ticks w)%nat by lia.
    replace (j + (2 + ticks w))%nat with (S (S j) + ticks w)%nat by lia.
    apply Hj.
Qed.

Lemma tyouonpa01_echo_wait_unbounded (fuel : nat) (w : world) :
  (forall i, echo_at w (i + reads w) = false) ->
  (forall j, Tyouonpa01.tick_sub (clock_at w (S j + ticks w) mod 2 ^ 32)
                                 (clock_at w (j + ticks w) mod 2 ^ 32)
             <= 50000) ->
  Tyouonpa01.get_distance_ultrasonic fuel w = None.
Proof.
  intros He Hj.
  unfold Tyouonpa01.get_distance_ultrasonic.
  unfold bind at 1 2 3 4 5 6 7.
  unfold gpioWrite, sleep_us, emit, gpioTick.
  rewrite rolling_marker_never_expires; try reflexivity.
  - exact He.
  - exact (Hj 0%nat).
  - intros j. cbn [later clock_at ticks].
    replace (S j + (1 + ticks w))%nat with (S (S j) + ticks w)%nat by lia.
    replace (j + (1 + ticks w))%nat with (S j + ticks w)%nat by lia.
    apply Hj.
Qed.

(** After 1000 polls of [stuck_low], two seconds later, tyouonpa01 is
    still waiting. *)
Lemma tyouonpa01_still_waiting :
  Tyouonpa01.get_distance_ultrasonic 1000 stuck_low = None.
Proof. vm_compute. reflexivity. Qed.

(** ** One iteration of the control loop *)

Lemma control_pan_tilt_only_servo (st : ActuatorState) (nose_x nose_y : Z) :
  Forall is_servo (snd (RasEye02.control_pan_tilt st nose_x nose_y)).
Proof.
  rewrite control_pan_tilt_events.
  destruct ((nose_x =? -1) || (nose_y =? -1)); [constructor|].
  apply Forall_app. split.
  - unfold RasEye02.pan_axis. destruct (DEAD_ZONE <? _); cbn [snd]; repeat constructor.
    unfold is_servo; eauto.
  - unfold RasEye02.tilt_axis. destruct (DEAD_ZONE <? _); cbn [snd]; repeat constructor.
    unfold is_servo; eauto.
Qed.

Lemma track_only_servo (st : ActuatorState) (nose_x nose_y : Z) :
  Forall is_servo (snd (RasEye01.track st nose_x nose_y)).
Proof.
  unfold RasEye01.track.
  destruct (DEAD_ZONE <? _), (DEAD_ZONE <? _); cbn [snd app]; repeat constructor;
    unfold is_servo; eauto.
Qed.

Lemma servo_not_other (es : list event) (e : event) :
  Forall is_servo es -> (forall pin pulse, e <> GpioServo pin pulse) -> ~ In e es.
Proof.
  intros H Hne Hin. rewrite Forall_forall in H.
  destruct (H e Hin) as (pin & pulse & ->). exact (Hne pin pulse eq_refl).
Qed.

Lemma loop_iteration02_inv (fuel : nat) (faces : list Rect) (st : ActuatorState)
      (w w' : world) (r : option ActuatorState) (tr : list event) :
  RasEye02.loop_iteration fuel (Some faces) st w = Some (r, w', tr) ->
  let nose := RasEye02.find_nose faces in
  exists d,
    RasEye02.get_distance_ultrasonic fuel w = Some (d, w', trigger02)
    /\ r = Some (fst (RasEye02.control_pan_tilt st (fst nose) (snd nose)))
    /\ tr = snd (RasEye02.control_pan_tilt st (fst nose) (snd nose))
            ++ (if fst nose =? -1 then [] else [Sleep 50000])
            ++ trigger02
            ++ [GpioWrite LED_PIN (RasEye02.decide d DISTANCE_THRESHOLD);
                Sleep 100000].
Proof.
  intros H nose. unfold RasEye02.loop_iteration in H. fold nose in H.
  destruct (RasEye02.control_pan_tilt st (fst nose) (snd nose)) as [st' pulses].
  apply bind_Some in H as (? & w1 & t1 & t2 & E1 & H & ->).
  injection E1 as _ <- <-.
  apply bind_Some in H as (? & w2 & t3 & t4 & E2 & H & ->).
  apply bind_Some in H as (d & w3 & t5 & t6 & E3 & H & ->).
  apply bind_Some in H as (? & w4 & t7 & t8 & E4 & H & ->).
  injection E4 as _ <- <-.
  apply bind_Some in H as (? & w5 & t9 & t10 & E5 & H & ->).
  injection E5 as _ <- <-.
  injection H as <- <- <-.
  pose proof (get_distance02_inv _ _ _ _ _ E3) as [-> _].
  exists d. cbn [fst snd].
  destruct (fst nose =? -1); cbn [negb] in E2; injection E2 as _ <- <-;
    (split; [exact E3|split; reflexivity]).
Qed.

Lemma loop_iteration01_inv (fuel : nat) (faces : list Rect) (st : ActuatorState)
      (w w' : world) (r : option ActuatorState) (tr : list event) :
  RasEye01.loop_iteration fuel (Some faces) st w = Some (r, w', tr) ->
  let nose := RasEye01.nose_of_faces faces in
  if negb (fst nose =? -1) && negb (snd nose =? -1) then
    exists d,
      RasEye01.measure fuel w = Some (d, w', trigger02)
      /\ r = Some (fst (RasEye01.track st (fst nose) (snd nose)))
      /\ tr = snd (RasEye01.track st (fst nose) (snd nose))
              ++ [Sleep 50000] ++ trigger02
              ++ [GpioWrite LED_PIN (F32.ltb d DISTANCE_THRESHOLD); Sleep 100000]
  else
    w' = w /\ r = Some st
    /\ tr = RasEye01.hold st ++ [GpioWrite LED_PIN false; Sleep 100000].
Proof.
  intros H nose. unfold RasEye01.loop_iteration in H. fold nose in H.
  destruct nose as [nose_x nose_y]. cbn [fst snd].
  destruct (negb (nose_x =? -1) && negb (nose_y =? -1)).
  - destruct (RasEye01.track st nose_x nose_y) as [st' pulses].
    apply bind_Some in H as (? & w1 & t1 & t2 & E1 & H & ->).
    injection E1 as _ <- <-.
    apply bind_Some in H as (? & w2 & t3 & t4 & E2 & H & ->).
    injection E2 as _ <- <-.
    apply bind_Some in H as (d & w3 & t5 & t6 & E3 & H & ->).
    apply bind_Some in H as (? & w4 & t7 & t8 & E4 & H & ->).
    injection E4 as _ <- <-.
    apply bind_Some in H as (? & w5 & t9 & t10 & E5 & H & ->).
    injection E5 as _ <- <-.
    injection H as <- <- <-.
    pose proof (measure01_inv _ _ _ _ _ E3) as [-> _].
    exists d. cbn [fst snd]. split; [exact E3|split; reflexivity].
  - apply bind_Some in H as (? & w1 & t1 & t2 & E1 & H & ->).
    injection E1 as _ <- <-.
    apply bind_Some in H as (? & w2 & t3 & t4 & E2 & H & ->).
    injection E2 as _ <- <-.
    apply bind_Some in H as (? & w3 & t5 & t6 & E3 & H & ->).
    injection E3 as _ <- <-.
    injection H as <- <- <-. repeat split.
Qed.

Lemma loop_iteration02_run (fuel : nat) (faces : list Rect) (st : ActuatorState)
      (w w1 : world) (d : spec_float) :
  RasEye02.get_distance_ultrasonic fuel w = Some (d, w1, trigger02) ->
  let nose := RasEye02.find_nose faces in
  RasEye02.loop_iteration fuel (Some faces) st w
  = Some (Some (fst (RasEye02.control_pan_tilt st (fst nose) (snd nose))), w1,
          snd (RasEye02.control_pan_tilt st (fst nose) (snd nose))
          ++ (if fst nose =? -1 then [] else [Sleep 50000])
          ++ trigger02
          ++ [GpioWrite LED_PIN (RasEye02.decide d DISTANCE_THRESHOLD);
              Sleep 100000]).
Proof.
  intros Hd nose. unfold RasEye02.loop_iteration. fold nose.
  destruct (RasEye02.control_pan_tilt st (fst nose) (snd nose)) as [st' pulses].
  cbn [fst snd].
  unfold bind at 1. unfold emit_all at 1.
  unfold bind at 1.
  destruct (fst nose =? -1); cbn [negb];
    unfold sleep_ms at 1, emit at 1, ret at 1;
    unfold bind at 1; rewrite Hd; reflexivity.
Qed.

Lemma loop_iteration01_run (fuel : nat) (faces : list Rect) (st : ActuatorState)
      (w w1 : world) (d : spec_float) :
  RasEye01.measure fuel w = Some (d, w1, trigger02) ->
  let nose := RasEye01.nose_of_faces faces in
  negb (fst nose =? -1) && negb (snd nose =? -1) = true ->
  RasEye01.loop_iteration fuel (Some faces) st w
  = Some (Some (fst (RasEye01.track st (fst nose) (snd nose))), w1,
          snd (RasEye01.track st (fst nose) (snd nose))
          ++ [Sleep 50000] ++ trigger02
          ++ [GpioWrite LED_PIN (F32.ltb d DISTANCE_THRESHOLD); Sleep 100000]).
Proof.
  intros Hd nose Hfound. unfold RasEye01.loop_iteration. fold nose.
  destruct nose as [nose_x nose_y]. cbn [fst snd] in *. rewrite Hfound.
  destruct (RasEye01.track st nose_x nose_y) as [st' pulses].
  cbn [fst snd].
  unfold bind at 1. unfold emit_all at 1.
  unfold bind at 1. unfold sleep_ms at 1, emit at 1.
  unfold bind at 1. rewrite Hd. reflexivity.
Qed.

Lemma is_servo_not_write (pin : Z) (level : bool) :
  forall p q, GpioWrite pin level <> GpioServo p q.
Proof. discriminate. Qed.

Lemma is_servo_not_sleep (us : Z) : forall p q, Sleep us <> GpioServo p q.
Proof. discriminate. Qed.

(** C8, as the two tracking programs have it.  In ras_eye02 every
    iteration that gets a frame sends the servo pulses of the
    controller, sleeps 50 ms exactly when the locator returned a target
    (column other than -1), then runs [get_distance_ultrasonic], writes
    the alert decision for the returned distance to the LED and sleeps
    100 ms; the iteration completes whenever the measurement returns.
    In ras_eye01 the 50 ms sleep, the measurement and the decision
    happen only when a target was found; otherwise the LED is switched
    off without a measurement.  An empty frame ends the loop in both. *)
Theorem control_loop_structure :
  (forall fuel faces st w r w' tr,
      RasEye02.loop_iteration fuel (Some faces) st w = Some (r, w', tr) ->
      let nose := RasEye02.find_nose faces in
      exists d,
        RasEye02.get_distance_ultrasonic fuel w = Some (d, w', trigger02)
        /\ tr = snd (RasEye02.control_pan_tilt st (fst nose) (snd nose))
                ++ (if fst nose =? -1 then [] else [Sleep 50000])
                ++ trigger02
                ++ [GpioWrite LED_PIN (RasEye02.decide d DISTANCE_THRESHOLD);
                    Sleep 100000]
        /\ In (GpioWrite TRIG_PIN true) tr
        /\ In (GpioWrite LED_PIN (RasEye02.decide d DISTANCE_THRESHOLD)) tr
        /\ (In (Sleep 50000) tr <-> fst nose <> -1)
        /\ (faces = [] -> ~ In (Sleep 50000) tr))
  /\ (forall fuel faces st w r w' tr,
         RasEye01.loop_iteration fuel (Some faces) st w = Some (r, w', tr) ->
         let nose := RasEye01.nose_of_faces faces in
         if negb (fst nose =? -1) && negb (snd nose =? -1) then
           exists d,
             RasEye01.measure fuel w = Some (d, w', trigger02)
             /\ tr = snd (RasEye01.track st (fst nose) (snd nose))
                     ++ [Sleep 50000] ++ trigger02
                     ++ [GpioWrite LED_PIN (F32.ltb d DISTANCE_THRESHOLD);
                         Sleep 100000]
         else
           w' = w
           /\ tr = RasEye01.hold st ++ [GpioWrite LED_PIN false; Sleep 100000]
           /\ ~ In (GpioWrite TRIG_PIN true) tr
           /\ ~ In (Sleep 50000) tr)
  /\ (forall fuel faces st w d w1 tr1,
         RasEye02.get_distance_ultrasonic fuel w = Some (d, w1, tr1) ->
         exists r tr,
           RasEye02.loop_iteration fuel (Some faces) st w = Some (r, w1, tr))
  /\ (forall fuel st w,
         RasEye02.loop_iteration fuel None st w = Some (None, w, [])
         /\ RasEye01.loop_iteration fuel None st w = Some (None, w, [])).
Proof.
  split; [|split; [|split]].
  - intros fuel faces st w r w' tr H nose.
    destruct (loop_iteration02_inv _ _ _ _ _ _ _ H) as (d & Hd & _ & Htr).
    fold nose in Htr. exists d.
    pose proof (control_pan_tilt_only_servo st (fst nose) (snd nose)) as Hs.
    set (pulses := snd (RasEye02.control_pan_tilt st (fst nose) (snd nose))) in *.
    assert (Hsleep : In (Sleep 50000) tr <-> fst nose <> -1).
    { rewrite Htr. rewrite in_app_iff. split.
      - intros [Hin|Hin].
        + exfalso. exact (servo_not_other _ _ Hs (is_servo_not_sleep 50000) Hin).
        + destruct (fst nose =? -1) eqn:E; [|apply Z.eqb_neq, E].
          exfalso. cbn in Hin.
          repeat (destruct Hin as [Hin|Hin]; [discriminate Hin|]).
          exact Hin.
      - intros Hne. right. apply Z.eqb_neq in Hne. rewrite Hne. left. reflexivity. }
    split; [exact Hd|]. split; [exact Htr|].
    split; [|split; [|split]].
    + rewrite Htr. apply in_or_app. right. apply in_or_app. right.
      left. reflexivity.
    + rewrite Htr. apply in_or_app. right. apply in_or_app. right.
      apply in_or_app. right. left. reflexivity.
    + exact Hsleep.
    + intros ->. rewrite Hsleep. intros Hne. apply Hne. reflexivity.
  - intros fuel faces st w r w' tr H nose.
    pose proof (loop_iteration01_inv _ _ _ _ _ _ _ H) as Hinv.
    fold nose in Hinv. cbv zeta in Hinv.
    destruct (negb (fst nose =? -1) && negb (snd nose =? -1)).
    + destruct Hinv as (d & Hd & _ & Htr). exists d. auto.
    + destruct Hinv as (-> & _ & ->).
      split; [reflexivity|]. split; [reflexivity|].
      split; intros Hin; cbn in Hin;
        repeat (destruct Hin as [Hin|Hin]; [discriminate Hin|]);
        exact Hin.
  - intros fuel faces st w d w1 tr1 H.
    pose proof (get_distance02_inv _ _ _ _ _ H) as [-> _].
    eexists. eexists. apply loop_iteration02_run. exact H.
  - intros fuel st w. split; reflexivity.
Qed.

(** With [one_face] and the 1 ms echo of [late_echo], ras_eye02 moves,
    sleeps, measures 17.15 cm and switches the LED on. *)
Lemma control_loop_structure_witness :
  exists d,
    RasEye02.get_distance_ultrasonic 4 late_echo
    = Some (d, later late_echo 4 6, trigger02)
    /\ In (GpioWrite LED_PIN (RasEye02.decide d DISTANCE_THRESHOLD))
          (snd (RasEye02.control_pan_tilt initial_state 420 320)
           ++ [Sleep 50000] ++ trigger02
           ++ [GpioWrite LED_PIN true; Sleep 100000]).
Proof.
  destruct (proj1 control_loop_structure 4%nat one_face initial_state late_echo
              (Some (fst (RasEye02.control_pan_tilt initial_state 420 320)))
              (later late_echo 4 6)
              (snd (RasEye02.control_pan_tilt initial_state 420 320)
               ++ [Sleep 50000] ++ trigger02
               ++ [GpioWrite LED_PIN true; Sleep 100000]))
    as (d & Hd & _ & _ & Hled & _).
  - vm_compute. reflexivity.
  - exists d. split; [exact Hd|exact Hled].
Defined.

(** C8 as stated fails on ras_eye01: in an iteration without a face the
    sensor is not triggered and the echo line is not read; the LED is
    switched off. *)
Lemma no_face_no_measurement :
  RasEye01.loop_iteration 4 (Some []) initial_state late_echo
  = Some (Some initial_state, late_echo,
          [GpioServo PAN_SERVO_PIN 1500; GpioServo TILT_SERVO_PIN 1500;
           GpioWrite LED_PIN false; Sleep 100000])
  /\ ~ In (GpioWrite TRIG_PIN true)
          [GpioServo PAN_SERVO_PIN 1500; GpioServo TILT_SERVO_PIN 1500;
           GpioWrite LED_PIN false; Sleep 100000].
Proof.
  split; [vm_compute; reflexivity|].
  intros Hin. cbn in Hin.
  repeat (destruct Hin as [Hin|Hin]; [discriminate Hin|]).
  exact Hin.
Qed.

(** * Further properties of the programs *)

Lemma largest_face_first_max (rest : list Rect) :
  forall first,
  exists before after,
    first :: rest = before ++ largest_face first rest :: after
    /\ Forall (fun r => area r < area (largest_face first rest)) before
    /\ Forall (fun r => area r <= area (largest_face first rest)) after.
Proof.
  induction rest as [|r rest IH]; intros first.
  - exists [], []. cbn. repeat split; constructor.
  - unfold largest_face. cbn [fold_left].
    destruct (area first <? area r) eqn:E.
    + destruct (IH r) as (before & after & Hsplit & Hb & Ha).
      fold (largest_face r rest).
      exists (first :: before), after. rewrite Hsplit.
      split; [reflexivity|]. split; [|exact Ha].
      constructor; [|exact Hb].
      apply Z.ltb_lt in E.
      assert (Hr : area r <= area (largest_face r rest)).
      { destruct before as [|b before].
        - cbn in Hsplit. injection Hsplit as Hr _. rewrite <- Hr. lia.
        - cbn in Hsplit. injection Hsplit as Hr _. subst b.
          inversion Hb; subst. lia. }
      lia.
    + destruct (IH first) as (before & after & Hsplit & Hb & Ha).
      fold (largest_face first rest).
      apply Z.ltb_ge in E.
      destruct before as [|b before].
      * cbn in Hsplit. injection Hsplit as Hf Hrest. subst after.
        rewrite <- Hf in Ha. rewrite <- Hf.
        exists [], (r :: rest).
        split; [reflexivity|]. split; [constructor|].
        constructor; [exact E|exact Ha].
      * cbn in Hsplit. injection Hsplit as Hf Hrest. subst b.
        exists (first :: r :: before), after.
        split; [cbn [app]; do 2 f_equal; exact Hrest|].
        split; [|exact Ha].
        inversion Hb; subst.
        constructor; [assumption|]. constructor; [lia|assumption].
Qed.

Lemma largest_face_in (first : Rect) (rest : list Rect) :
  In (largest_face first rest) (first :: rest).
Proof.
  destruct (largest_face_first_max rest first) as (before & after & Hs & _).
  rewrite Hs. apply in_or_app. right. left. reflexivity.
Qed.

Lemma largest_face_max (first : Rect) (rest : list Rect) (r : Rect) :
  In r (first :: rest) -> area r <= area (largest_face first rest).
Proof.
  destruct (largest_face_first_max rest first) as (before & after & Hs & Hb & Ha).
  rewrite Forall_forall in Hb, Ha.
  rewrite Hs. intros Hin. apply in_app_or in Hin as [Hin|[<-|Hin]].
  - apply Hb in Hin. lia.
  - lia.
  - apply Ha, Hin.
Qed.

Lemma face_center_in_frame (r : Rect) :
  in_frame r ->
  face_center r = (rx r + Z.quot (rwidth r) 2, ry r + Z.quot (rheight r) 2)
  /\ 0 <= fst (face_center r) <= CAMERA_WIDTH
  /\ 0 <= snd (face_center r) <= CAMERA_HEIGHT.
Proof.
  unfold in_frame, CAMERA_WIDTH, CAMERA_HEIGHT.
  intros (Hx & Hy & Hw & Hh & Hxw & Hyh).
  pose proof (Z.quot_pos (rwidth r) 2 Hw ltac:(lia)) as Qw.
  pose proof (Z.quot_pos (rheight r) 2 Hh ltac:(lia)) as Qh.
  assert (Z.quot (rwidth r) 2 <= rwidth r).
  { rewrite Z.quot_div_nonneg by lia. apply Z.div_le_upper_bound; lia. }
  assert (Z.quot (rheight r) 2 <= rheight r).
  { rewrite Z.quot_div_nonneg by lia. apply Z.div_le_upper_bound; lia. }
  unfold face_center.
  rewrite !wrap32_small by (change (2 ^ 31) with 2147483648; lia).
  cbn [fst snd]. repeat split; lia.
Qed.

Lemma wait_echo_low02_falls (b : nat) :
  forall fuel ts pe w,
    (b < fuel)%nat ->
    (forall i, (i < b)%nat -> echo_at w (i + reads w) = true) ->
    (forall i, (i < b)%nat ->
               RasEye02.timed_out (clock_at w (i + ticks w)) ts = false) ->
    echo_at w (b + reads w) = false ->
    RasEye02.wait_echo_low fuel ts pe w
    = Some (Fallthrough (match b with
                         | O => pe
                         | S b' => clock_at w (b' + ticks w)
                         end),
            later w (S b) b, []).
Proof.
  induction b as [|b IH]; intros fuel ts pe w Hf He Ht Hlow;
    (destruct fuel as [|fuel]; [lia|]);
    rewrite wait_echo_low02_step.
  - rewrite (Hlow : echo_at w (reads w) = false). reflexivity.
  - rewrite (He 0%nat ltac:(lia) : echo_at w (reads w) = true).
    rewrite (Ht 0%nat ltac:(lia)
             : RasEye02.timed_out (clock_at w (ticks w)) ts = false).
    rewrite (IH fuel ts _ (later w 1 1)).
    + rewrite later_later.
      replace (later w (S b + 1) (b + 1)) with (later w (S (S b)) (S b))
        by (unfold later; f_equal; lia).
      do 4 f_equal.
      destruct b as [|b']; [reflexivity|].
      cbn [later clock_at ticks]. f_equal. lia.
    + lia.
    + intros i Hi. cbn [later echo_at reads].
      replace (i + (1 + reads w))%nat with (S i + reads w)%nat by lia.
      apply He. lia.
    + intros i Hi. cbn [later clock_at ticks].
      replace (i + (1 + ticks w))%nat with (S i + ticks w)%nat by lia.
      apply Ht. lia.
    + cbn [later echo_at reads].
      replace (b + (1 + reads w))%nat with (S b + reads w)%nat by lia.
      exact Hlow.
Qed.

(** X4: what ras_eye02 measures.  When the echo line is found low [a]
    times, then high [b] + 1 times, then low, and no wait runs into its
    limit, the function returns the filtered distance for the time
    between two clock readings: the one taken at the last poll that
    found the line low (the reading taken before the wait when the line
    was high at once) and the one taken at the last poll that found it
    high (the reading taken before the waits when the line was low again
    at once). *)
Theorem get_distance02_measures (w : world) (a b fuel : nat) :
  (a < fuel)%nat -> (b < fuel)%nat ->
  (forall i, (i < a)%nat -> echo_at w (i + reads w) = false) ->
  (forall i, (i <= b)%nat -> echo_at w (i + (a + reads w)) = true) ->
  echo_at w (S b + (a + reads w)) = false ->
  (forall i, (i < a)%nat ->
             RasEye02.timed_out (clock_at w (i + (3 + ticks w)))
                                (clock_at w (2 + ticks w)) = false) ->
  (forall i, (i < b)%nat ->
             RasEye02.timed_out (clock_at w (i + (a + (4 + ticks w))))
                                (clock_at w (a + (3 + ticks w))) = false) ->
  RasEye02.get_distance_ultrasonic fuel w
  = Some (RasEye02.filter_distance
            (RasEye02.distance_of_pulse (pulse_start02 w a) (pulse_end02 w a b)),
          later w (a + b + 2) (a + b + 4), trigger02).
Proof.
  intros Hfa Hfb Hlow Hhigh Hend Ht1 Ht2.
  unfold RasEye02.get_distance_ultrasonic.
  unfold bind at 1 2 3 4 5 6 7.
  unfold gpioWrite, sleep_us, emit, clock_now.
  rewrite (wait_echo_high02_falls a); try assumption.
  - unfold bind at 1 2. unfold clock_now.
    rewrite (wait_echo_low02_falls b); try assumption.
    + unfold ret. rewrite !later_later. cbn [app].
      match goal with
      | |- Some (_, ?W, _) = _ =>
          replace W with (later w (a + b + 2) (a + b + 4))
            by (unfold later; f_equal; lia)
      end.
      do 4 f_equal.
      unfold pulse_start02, pulse_end02. f_equal.
      destruct b as [|b']; [reflexivity|].
      cbn [later clock_at ticks]. f_equal. lia.
    + intros i Hi. cbn [later echo_at reads].
      replace (i + (0 + (S a + (0 + (0 + (0 + reads w))))))%nat
        with (S i + (a + reads w))%nat by lia.
      apply Hhigh. lia.
    + intros i Hi. cbn [later clock_at ticks].
      replace (i + (1 + (a + (1 + (1 + (1 + ticks w))))))%nat
        with (i + (a + (4 + ticks w)))%nat by lia.
      replace (0 + (a + (1 + (1 + (1 + ticks w)))))%nat
        with (a + (3 + ticks w))%nat by lia.
      apply Ht2, Hi.
    + cbn [later echo_at reads].
      replace (b + (0 + (S a + (0 + (0 + (0 + reads w))))))%nat
        with (S b + (a + reads w))%nat by lia.
      exact Hend.
  - cbn [later echo_at reads].
    specialize (Hhigh 0%nat ltac:(lia)). exact Hhigh.
Qed.

Lemma wait_echo_low_t_step (fuel : nat) (et : Z) (w : world) :
  Tyouonpa01.wait_echo_low (S fuel) et w =
  if echo_at w (reads w)
  then if 50000 <? Tyouonpa01.tick_sub (clock_at w (ticks w) mod 2 ^ 32) et
       then Some (Return Tyouonpa01.FAILED, later w 1 1, [])
       else Tyouonpa01.wait_echo_low
              fuel (clock_at w (S (ticks w)) mod 2 ^ 32) (later w 1 2)
  else Some (Fallthrough et, later w 1 0, []).
Proof.
  cbn [Tyouonpa01.wait_echo_low]. unfold bind at 1. unfold gpioRead at 1.
  destruct (echo_at w (reads w)); [|reflexivity].
  cbn [negb]. unfold bind at 1. unfold gpioTick at 1.
  change (clock_at (later w 1 0) (ticks (later w 1 0))) with (clock_at w (ticks w)).
  change (later (later w 1 0) 0 1) with (later w 1 1).
  destruct (50000 <? _); [reflexivity|].
  unfold bind at 1. unfold gpioTick at 1.
  change (clock_at (later w 1 1) (ticks (later w 1 1)))
    with (clock_at w (S (ticks w))).
  change (later (later w 1 1) 0 1) with (later w 1 2).
  destruct (Tyouonpa01.wait_echo_low fuel _ _) as [[[r w2] t2]|]; reflexivity.
Qed.

Lemma tick_at_later (w : world) (r t i : nat) :
  tick_at (later w r t) i = tick_at w (i + t).
Proof.
  unfold tick_at. cbn [later clock_at ticks]. do 2 f_equal. lia.
Qed.

Lemma tick_at_eq (w : world) (i j : nat) : i = j -> tick_at w i = tick_at w j.
Proof. intros ->. reflexivity. Qed.

Lemma tick_at_now (w : world) : clock_at w (ticks w) mod 2 ^ 32 = tick_at w 0.
Proof. reflexivity. Qed.

Lemma tick_gap_eq (w : world) (i j i' j' : nat) :
  i = i' -> j = j' ->
  Tyouonpa01.tick_sub (tick_at w i) (tick_at w j)
  = Tyouonpa01.tick_sub (tick_at w i') (tick_at w j').
Proof. intros -> ->. reflexivity. Qed.

(** The rising-edge wait of tyouonpa01 leaves through the loop condition
    after [a] polls that found the line low and no gap above 50 ms. *)
Lemma wait_echo_high_t_falls (a : nat) :
  forall fuel st w,
    (a < fuel)%nat ->
    (forall i, (i < a)%nat -> echo_at w (i + reads w) = false) ->
    ((0 < a)%nat -> Tyouonpa01.tick_sub (tick_at w 0) st <= 50000) ->
    (forall i, (S i < a)%nat ->
               Tyouonpa01.tick_sub (tick_at w (2 + 2 * i)) (tick_at w (1 + 2 * i))
               <= 50000) ->
    echo_at w (a + reads w) = true ->
    Tyouonpa01.wait_echo_high fuel st w
    = Some (Fallthrough (match a with
                         | O => st
                         | S a' => tick_at w (1 + 2 * a')
                         end),
            later w (S a) (2 * a), []).
Proof.
  induction a as [|a IH]; intros fuel st w Hf He H0 Hi Hhigh;
    (destruct fuel as [|fuel]; [lia|]);
    rewrite wait_echo_high_t_step.
  - rewrite (Hhigh : echo_at w (reads w) = true). reflexivity.
  - rewrite (He 0%nat ltac:(lia) : echo_at w (reads w) = false).
    specialize (H0 ltac:(lia)). unfold tick_at in H0.
    apply Z.ltb_ge in H0. cbn [Nat.add] in H0. rewrite H0.
    rewrite (IH fuel _ (later w 1 2)).
    + rewrite later_later.
      replace (later w (S a + 1) (2 * a + 2)) with (later w (S (S a)) (2 * S a))
        by (unfold later; f_equal; lia).
      do 4 f_equal.
      destruct a as [|a']; [reflexivity|].
      rewrite tick_at_later. apply tick_at_eq. lia.
    + lia.
    + intros i Hlt. cbn [later echo_at reads].
      replace (i + (1 + reads w))%nat with (S i + reads w)%nat by lia.
      apply He. lia.
    + intros Ha. rewrite tick_at_later.
      specialize (Hi 0%nat ltac:(lia)). exact Hi.
    + intros i Hlt. rewrite !tick_at_later.
      specialize (Hi (S i) ltac:(lia)).
      replace (2 + 2 * i + 2)%nat with (2 + 2 * S i)%nat by lia.
      replace (1 + 2 * i + 2)%nat with (1 + 2 * S i)%nat by lia.
      exact Hi.
    + cbn [later echo_at reads].
      replace (a + (1 + reads w))%nat with (S a + reads w)%nat by lia.
      exact Hhigh.
Qed.

Lemma wait_echo_low_t_falls (b : nat) :
  forall fuel et w,
    (b < fuel)%nat ->
    (forall i, (i < b)%nat -> echo_at w (i + reads w) = true) ->
    ((0 < b)%nat -> Tyouonpa01.tick_sub (tick_at w 0) et <= 50000) ->
    (forall i, (S i < b)%nat ->
               Tyouonpa01.tick_sub (tick_at w (2 + 2 * i)) (tick_at w (1 + 2 * i))
               <= 50000) ->
    echo_at w (b + reads w) = false ->
    Tyouonpa01.wait_echo_low fuel et w
    = Some (Fallthrough (match b with
                         | O => et
                         | S b' => tick_at w (1 + 2 * b')
                         end),
            later w (S b) (2 * b), []).
Proof.
  induction b as [|b IH]; intros fuel et w Hf He H0 Hi Hlow;
    (destruct fuel as [|fuel]; [lia|]);
    rewrite wait_echo_low_t_step.
  - rewrite (Hlow : echo_at w (reads w) = false). reflexivity.
  - rewrite (He 0%nat ltac:(lia) : echo_at w (reads w) = true).
    specialize (H0 ltac:(lia)). unfold tick_at in H0.
    apply Z.ltb_ge in H0. cbn [Nat.add] in H0. rewrite H0.
    rewrite (IH fuel _ (later w 1 2)).
    + rewrite later_later.
      replace (later w (S b + 1) (2 * b + 2)) with (later w (S (S b)) (2 * S b))
        by (unfold later; f_equal; lia).
      do 4 f_equal.
      destruct b as [|b']; [reflexivity|].
      rewrite tick_at_later. apply tick_at_eq. lia.
    + lia.
    + intros i Hlt. cbn [later echo_at reads].
      replace (i + (1 + reads w))%nat with (S i + reads w)%nat by lia.
      apply He. lia.
    + intros Hb. rewrite tick_at_later.
      specialize (Hi 0%nat ltac:(lia)). exact Hi.
    + intros i Hlt. rewrite !tick_at_later.
      specialize (Hi (S i) ltac:(lia)).
      replace (2 + 2 * i + 2)%nat with (2 + 2 * S i)%nat by lia.
      replace (1 + 2 * i + 2)%nat with (1 + 2 * S i)%nat by lia.
      exact Hi.
    + cbn [later echo_at reads].
      replace (b + (1 + reads w))%nat with (S b + reads w)%nat by lia.
      exact Hlow.
Qed.

(** ** The distance the driver of tyouonpa01 returns *)

(** The computed distance against the exact one, for every pulse from
    [MIN_PULSE_US] to [MAX_PULSE_US]. *)
Lemma durations_checked :
  forall_from duration_checked MIN_PULSE_US
              (Z.to_nat (MAX_PULSE_US - MIN_PULSE_US + 1)) = true.
Proof. vm_cast_no_check (eq_refl true). Qed.

(** The run of the driver on an echo that comes and goes. *)
Lemma get_distance_t_run (w : world) (a b fuel : nat) :
  (a < fuel)%nat -> (b < fuel)%nat ->
  (forall i, (i < a)%nat -> echo_at w (i + reads w) = false) ->
  (forall i, (i <= b)%nat -> echo_at w (i + (a + reads w)) = true) ->
  echo_at w (S b + (a + reads w)) = false ->
  (forall i, (i < a)%nat ->
             Tyouonpa01.tick_sub (tick_at w (1 + 2 * i)) (tick_at w (2 * i))
             <= 50000) ->
  (forall i, (i < b)%nat ->
             Tyouonpa01.tick_sub (tick_at w (2 * a + 2 + 2 * i))
                                 (tick_at w (2 * a + 1 + 2 * i))
             <= 50000) ->
  Tyouonpa01.get_distance_ultrasonic fuel w
  = Some (Tyouonpa01.filter_distance
            (Tyouonpa01.distance_of_duration
               (tick_at w (2 * a + 1 + 2 * b) - tick_at w (2 * a))),
          later w (a + b + 2) (2 * a + 2 * b + 2), trigger_t).
Proof.
  intros Hfa Hfb Hlow Hhigh Hend Ht1 Ht2.
  unfold Tyouonpa01.get_distance_ultrasonic.
  unfold bind at 1 2 3 4 5 6 7.
  unfold gpioWrite, sleep_us, emit, gpioTick.
  rewrite (wait_echo_high_t_falls a).
  - unfold bind at 1 2. unfold gpioTick.
    rewrite (wait_echo_low_t_falls b).
    + unfold ret. rewrite !later_later. cbn [app].
      match goal with
      | |- Some (_, ?W, _) = _ =>
          replace W with (later w (a + b + 2) (2 * a + 2 * b + 2))
            by (unfold later; f_equal; lia)
      end.
      match goal with
      | |- context [Tyouonpa01.distance_of_duration (?X - ?Y)] =>
          assert (E1 : X = tick_at w (2 * a + 1 + 2 * b));
          [|assert (E2 : Y = tick_at w (2 * a)); [|rewrite E1, E2; reflexivity]]
      end.
      * destruct b as [|b'].
        -- rewrite tick_at_now, tick_at_later. apply tick_at_eq. lia.
        -- rewrite tick_at_later. apply tick_at_eq. lia.
      * destruct a as [|a'].
        -- rewrite tick_at_now. apply tick_at_eq. lia.
        -- rewrite tick_at_later. apply tick_at_eq. lia.
    + exact Hfb.
    + intros i Hi. cbn [later echo_at reads].
      replace (i + (0 + (S a + (0 + reads w))))%nat
        with (S i + (a + reads w))%nat by lia.
      apply Hhigh. lia.
    + intros Hb. rewrite tick_at_now, !tick_at_later.
      rewrite (tick_gap_eq w _ _ (2 * a + 2 + 2 * 0) (2 * a + 1 + 2 * 0)) by lia.
      exact (Ht2 0%nat Hb).
    + intros i Hi. rewrite !tick_at_later.
      rewrite (tick_gap_eq w _ _ (2 * a + 2 + 2 * S i) (2 * a + 1 + 2 * S i))
        by lia.
      exact (Ht2 (S i) Hi).
    + cbn [later echo_at reads].
      replace (b + (0 + (S a + (0 + reads w))))%nat
        with (S b + (a + reads w))%nat by lia.
      exact Hend.
  - exact Hfa.
  - intros i Hi. cbn [later echo_at reads]. apply Hlow, Hi.
  - intros Ha. rewrite tick_at_now, !tick_at_later.
    rewrite (tick_gap_eq w _ _ (1 + 2 * 0) (2 * 0)) by lia.
    exact (Ht1 0%nat Ha).
  - intros i Hi. rewrite !tick_at_later.
    rewrite (tick_gap_eq w _ _ (1 + 2 * S i) (2 * S i)) by lia.
    exact (Ht1 (S i) Hi).
  - cbn [later echo_at reads]. apply (Hhigh 0%nat). lia.
Qed.

(** What the filter makes of the distance computed for a duration. *)
Lemma filtered_distance_facts (us : Z) :
  let d := F32.of_double
             (F64.div (F64.mul (F64.div (F64.of_Z us) (F64.of_Z 1000000))
                               (F64.of_Z 34300))
                      (F64.of_Z 2)) in
  let r := Tyouonpa01.filter_distance (Tyouonpa01.distance_of_duration us) in
  (F64.ltb (F64.of_float d) (F64.of_Z 0) = true
   \/ F64.ltb (F64.of_Z 400) (F64.of_float d) = true ->
   r = Tyouonpa01.FAILED)
  /\ (~ valid_reading d -> r = Tyouonpa01.FAILED)
  /\ (valid_reading d -> r = d)
  /\ (MIN_PULSE_US <= us <= MAX_PULSE_US ->
      (Qabs (SF_value d - exact_cm us) <= 1 # 32768)%Q
      /\ r = if Qle_bool 0 (exact_cm us) && Qle_bool (exact_cm us) 400
             then d else Tyouonpa01.FAILED)
  /\ (us = 1000 -> r = f17_15 /\ valid_reading r)
  /\ (us = 26240 ->
      r = Tyouonpa01.FAILED /\ F32.ltb (F32.of_Z 450) d = true).
Proof.
  intros d r.
  assert (Hd : Tyouonpa01.distance_of_duration us = d).
  { unfold Tyouonpa01.distance_of_duration.
    rewrite SOUND_SPEED_as_double. reflexivity. }
  pose proof (distance_of_duration_not_nan us) as Hn.
  subst r. rewrite Hd in *. clearbody d.
  split; [|split; [|split; [|split; [|split]]]].
  - intros H. unfold Tyouonpa01.filter_distance.
    destruct H as [H|H]; rewrite H; [reflexivity|rewrite orb_true_r; reflexivity].
  - intros H. destruct (filter_distance_cases d Hn) as [[E _]|[_ V]];
      [exact E|contradiction].
  - intros V. destruct (filter_distance_cases d Hn) as [[_ N]|[E _]];
      [contradiction|exact E].
  - intros Hr.
    pose proof (forall_from_spec duration_checked _ _ durations_checked us) as Hc.
    rewrite Z2Nat.id in Hc by (vm_compute; discriminate).
    specialize (Hc ltac:(lia)).
    unfold duration_checked in Hc. rewrite Hd in Hc.
    apply andb_prop in Hc as [H1 H2].
    split; [apply Qle_bool_iff, H1|apply sf_eqb_eq, H2].
  - intros ->. subst d.
    split; [vm_compute; reflexivity|split; vm_compute; reflexivity].
  - intros ->. subst d. split; vm_compute; reflexivity.
Qed.

(** C6: for every echo the driver of tyouonpa01 sees come and go, with
    a pulse of [us] microseconds between the two tick readings it keeps,
    [get_distance_ultrasonic] returns a value [r] made from
    d = (us / 1000000.0) * 34300 / 2, computed in double precision and
    rounded to [float]: [r] is the sentinel -1.0 when d is below 0 or
    above 400, and d itself otherwise.  For the pulses from -1000 to
    25000 microseconds d is within 2^-15 of the exact
    us / 1000000 * 34300 / 2, and [r] is d exactly when the exact
    distance is within [0, 400].  A pulse of 1000 microseconds gives
    17.15 (as a [float]), returned as a valid reading; a pulse of 26240
    microseconds (about 450 cm) gives the sentinel. *)
Theorem distance_computation (w : world) (a b fuel : nat) :
  (a < fuel)%nat -> (b < fuel)%nat ->
  (forall i, (i < a)%nat -> echo_at w (i + reads w) = false) ->
  (forall i, (i <= b)%nat -> echo_at w (i + (a + reads w)) = true) ->
  echo_at w (S b + (a + reads w)) = false ->
  (forall i, (i < a)%nat ->
             Tyouonpa01.tick_sub (tick_at w (1 + 2 * i)) (tick_at w (2 * i))
             <= 50000) ->
  (forall i, (i < b)%nat ->
             Tyouonpa01.tick_sub (tick_at w (2 * a + 2 + 2 * i))
                                 (tick_at w (2 * a + 1 + 2 * i))
             <= 50000) ->
  let us := tick_at w (2 * a + 1 + 2 * b) - tick_at w (2 * a) in
  let d := F32.of_double
             (F64.div (F64.mul (F64.div (F64.of_Z us) (F64.of_Z 1000000))
                               (F64.of_Z 34300))
                      (F64.of_Z 2)) in
  exists r,
    Tyouonpa01.get_distance_ultrasonic fuel w
    = Some (r, later w (a + b + 2) (2 * a + 2 * b + 2), trigger_t)
    /\ (F64.ltb (F64.of_float d) (F64.of_Z 0) = true
        \/ F64.ltb (F64.of_Z 400) (F64.of_float d) = true ->
        r = Tyouonpa01.FAILED)
    /\ (~ valid_reading d -> r = Tyouonpa01.FAILED)
    /\ (valid_reading d -> r = d)
    /\ (MIN_PULSE_US <= us <= MAX_PULSE_US ->
        (Qabs (SF_value d - exact_cm us) <= 1 # 32768)%Q
        /\ r = if Qle_bool 0 (exact_cm us) && Qle_bool (exact_cm us) 400
               then d else Tyouonpa01.FAILED)
    /\ (us = 1000 -> r = f17_15 /\ valid_reading r)
    /\ (us = 26240 ->
        r = Tyouonpa01.FAILED /\ F32.ltb (F32.of_Z 450) d = true)
    /\ Tyouonpa01.FAILED = F32.of_Z (-1).
Proof.
  intros Hfa Hfb Hlow Hhigh Hend Ht1 Ht2 us d.
  exists (Tyouonpa01.filter_distance (Tyouonpa01.distance_of_duration us)).
  split.
  - exact (get_distance_t_run w a b fuel Hfa Hfb Hlow Hhigh Hend Ht1 Ht2).
  - pose proof (filtered_distance_facts us) as (F1 & F2 & F3 & F4 & F5 & F6).
    split; [exact F1|]. split; [exact F2|]. split; [exact F3|].
    split; [exact F4|]. split; [exact F5|]. split; [exact F6|].
    vm_compute. reflexivity.
Qed.

(** The driver run on a pulse of 1000 and on one of 26240
    microseconds. *)
Lemma distance_computation_witness :
  (exists r,
      Tyouonpa01.get_distance_ultrasonic 4 pulse_1000us
      = Some (r, later pulse_1000us 4 6, trigger_t)
      /\ r = f17_15 /\ valid_reading r)
  /\ (exists r,
         Tyouonpa01.get_distance_ultrasonic 4 pulse_26240us
         = Some (r, later pulse_26240us 4 6, trigger_t)
         /\ r = Tyouonpa01.FAILED).
Proof.
  split.
  - destruct (distance_computation pulse_1000us 1 1 4) as (r & Hrun & H).
    + lia.
    + lia.
    + intros [|i] Hi; [reflexivity|lia].
    + intros [|[|i]] Hi; try lia; reflexivity.
    + reflexivity.
    + intros [|i] Hi; [vm_compute; discriminate|lia].
    + intros [|i] Hi; [vm_compute; discriminate|lia].
    + exists r. split; [exact Hrun|].
      apply (proj1 (proj2 (proj2 (proj2 (proj2 H))))).
      reflexivity.
  - destruct (distance_computation pulse_26240us 1 1 4) as (r & Hrun & H).
    + lia.
    + lia.
    + intros [|i] Hi; [reflexivity|lia].
    + intros [|[|i]] Hi; try lia; reflexivity.
    + reflexivity.
    + intros [|i] Hi; [vm_compute; discriminate|lia].
    + intros [|i] Hi; [vm_compute; discriminate|lia].
    + exists r. split; [exact Hrun|].
      refine (proj1 (proj1 (proj2 (proj2 (proj2 (proj2 (proj2 H))))) _)).
      reflexivity.
Defined.

(** X6: what tyouonpa01 measures.  When the echo line is found low [a]
    times, then high [b] + 1 times, then low, and no check comes more
    than 50 ms after the refresh before it, the function returns the
    filtered distance for the ticks between two refreshes of the
    marker: the last one before the line was found high and the last
    one before it was found low again. *)
Theorem get_distance_t_measures (w : world) (a b fuel : nat) :
  (a < fuel)%nat -> (b < fuel)%nat ->
  (forall i, (i < a)%nat -> echo_at w (i + reads w) = false) ->
  (forall i, (i <= b)%nat -> echo_at w (i + (a + reads w)) = true) ->
  echo_at w (S b + (a + reads w)) = false ->
  (forall i, (i < a)%nat ->
             Tyouonpa01.tick_sub (tick_at w (1 + 2 * i)) (tick_at w (2 * i))
             <= 50000) ->
  (forall i, (i < b)%nat ->
             Tyouonpa01.tick_sub (tick_at w (2 * a + 2 + 2 * i))
                                 (tick_at w (2 * a + 1 + 2 * i))
             <= 50000) ->
  Tyouonpa01.get_distance_ultrasonic fuel w
  = Some (Tyouonpa01.filter_distance
            (Tyouonpa01.distance_of_duration
               (tick_at w (2 * a + 1 + 2 * b) - tick_at w (2 * a))),
          later w (a + b + 2) (2 * a + 2 * b + 2), trigger_t).
Proof.
  intros Hfa Hfb Hlow Hhigh Hend Ht1 Ht2.
  unfold Tyouonpa01.get_distance_ultrasonic.
  unfold bind at 1 2 3 4 5 6 7.
  unfold gpioWrite, sleep_us, emit, gpioTick.
  rewrite (wait_echo_high_t_falls a).
  - unfold bind at 1 2. unfold gpioTick.
    rewrite (wait_echo_low_t_falls b).
    + unfold ret. rewrite !later_later. cbn [app].
      match goal with
      | |- Some (_, ?W, _) = _ =>
          replace W with (later w (a + b + 2) (2 * a + 2 * b + 2))
            by (unfold later; f_equal; lia)
      end.
      match goal with
      | |- context [Tyouonpa01.distance_of_duration (?X - ?Y)] =>
          assert (E1 : X = tick_at w (2 * a + 1 + 2 * b));
          [|assert (E2 : Y = tick_at w (2 * a)); [|rewrite E1, E2; reflexivity]]
      end.
      * destruct b as [|b'].
        -- rewrite tick_at_now, tick_at_later. apply tick_at_eq. lia.
        -- rewrite tick_at_later. apply tick_at_eq. lia.
      * destruct a as [|a'].
        -- rewrite tick_at_now. apply tick_at_eq. lia.
        -- rewrite tick_at_later. apply tick_at_eq. lia.
    + exact Hfb.
    + intros i Hi. cbn [later echo_at reads].
      replace (i + (0 + (S a + (0 + reads w))))%nat
        with (S i + (a + reads w))%nat by lia.
      apply Hhigh. lia.
    + intros Hb. rewrite tick_at_now, !tick_at_later.
      rewrite (tick_gap_eq w _ _ (2 * a + 2 + 2 * 0) (2 * a + 1 + 2 * 0)) by lia.
      exact (Ht2 0%nat Hb).
    + intros i Hi. rewrite !tick_at_later.
      rewrite (tick_gap_eq w _ _ (2 * a + 2 + 2 * S i) (2 * a + 1 + 2 * S i))
        by lia.
      exact (Ht2 (S i) Hi).
    + cbn [later echo_at reads].
      replace (b + (0 + (S a + (0 + reads w))))%nat
        with (S b + (a + reads w))%nat by lia.
      exact Hend.
  - exact Hfa.
  - intros i Hi. cbn [later echo_at reads]. apply Hlow, Hi.
  - intros Ha. rewrite tick_at_now, !tick_at_later.
    rewrite (tick_gap_eq w _ _ (1 + 2 * 0) (2 * 0)) by lia.
    exact (Ht1 0%nat Ha).
  - intros i Hi. rewrite !tick_at_later.
    rewrite (tick_gap_eq w _ _ (1 + 2 * S i) (2 * S i)) by lia.
    exact (Ht1 (S i) Hi).
  - cbn [later echo_at reads]. apply (Hhigh 0%nat). lia.
Qed.

(** The rising-edge wait of tyouonpa01 against a line that stays low:
    it ends, with the sentinel, at the first poll that comes more than
    50 ms after the marker was last refreshed. *)
Lemma wait_echo_high_t_times_out (a : nat) :
  forall fuel st w,
    (a < fuel)%nat ->
    (forall i, (i <= a)%nat -> echo_at w (i + reads w) = false) ->
    ((0 < a)%nat -> Tyouonpa01.tick_sub (tick_at w 0) st <= 50000) ->
    (forall i, (S i < a)%nat ->
               Tyouonpa01.tick_sub (tick_at w (2 + 2 * i)) (tick_at w (1 + 2 * i))
               <= 50000) ->
    50000 < Tyouonpa01.tick_sub
              (tick_at w (2 * a))
              (match a with O => st | S a' => tick_at w (1 + 2 * a') end) ->
    Tyouonpa01.wait_echo_high fuel st w
    = Some (Return Tyouonpa01.FAILED, later w (S a) (S (2 * a)), []).
Proof.
  induction a as [|a IH]; intros fuel st w Hf He H0 Hi Hfire;
    (destruct fuel as [|fuel]; [lia|]);
    rewrite wait_echo_high_t_step;
    rewrite (He 0%nat ltac:(lia) : echo_at w (reads w) = false).
  - apply Z.ltb_lt in Hfire. unfold tick_at in Hfire. cbn [Nat.add Nat.mul] in Hfire.
    rewrite Hfire. reflexivity.
  - specialize (H0 ltac:(lia)). unfold tick_at in H0.
    apply Z.ltb_ge in H0. cbn [Nat.add] in H0. rewrite H0.
    rewrite (IH fuel _ (later w 1 2)).
    + rewrite later_later.
      replace (later w (S a + 1) (S (2 * a) + 2))
        with (later w (S (S a)) (S (2 * S a)))
        by (unfold later; f_equal; lia).
      reflexivity.
    + lia.
    + intros i Hlt. cbn [later echo_at reads].
      replace (i + (1 + reads w))%nat with (S i + reads w)%nat by lia.
      apply He. lia.
    + intros Ha. rewrite tick_at_later.
      exact (Hi 0%nat ltac:(lia)).
    + intros i Hlt. rewrite !tick_at_later.
      rewrite (tick_gap_eq w _ _ (2 + 2 * S i) (1 + 2 * S i)) by lia.
      exact (Hi (S i) ltac:(lia)).
    + rewrite tick_at_later.
      destruct a as [|a'].
      * change (clock_at w (S (ticks w)) mod 2 ^ 32) with (tick_at w 1).
        rewrite (tick_gap_eq w _ _ (2 * 1) (1 + 2 * 0)) by lia. exact Hfire.
      * rewrite tick_at_later.
        rewrite (tick_gap_eq w _ _ (2 * S (S a')) (1 + 2 * S a')) by lia.
        exact Hfire.
Qed.

(** X8: the timeout of tyouonpa01 fires on one slow poll: when, with the
    line low, some check comes more than 50 ms (of the 32-bit tick
    counter) after the refresh just before it, the function returns
    -1.0 at that poll. *)
Theorem tyouonpa01_timeout_on_slow_poll (w : world) (a fuel : nat) :
  (a < fuel)%nat ->
  (forall i, (i <= a)%nat -> echo_at w (i + reads w) = false) ->
  (forall i, (i < a)%nat ->
             Tyouonpa01.tick_sub (tick_at w (1 + 2 * i)) (tick_at w (2 * i))
             <= 50000) ->
  50000 < Tyouonpa01.tick_sub (tick_at w (1 + 2 * a)) (tick_at w (2 * a)) ->
  Tyouonpa01.get_distance_ultrasonic fuel w
  = Some (Tyouonpa01.FAILED, later w (S a) (2 * a + 2), trigger_t).
Proof.
  intros Hf He Ht Hfire.
  unfold Tyouonpa01.get_distance_ultrasonic.
  unfold bind at 1 2 3 4 5 6 7.
  unfold gpioWrite, sleep_us, emit, gpioTick.
  rewrite (wait_echo_high_t_times_out a).
  - unfold ret. rewrite later_later. cbn [app].
    replace (later w (S a + 0) (S (2 * a) + 1)) with (later w (S a) (2 * a + 2))
      by (unfold later; f_equal; lia).
    reflexivity.
  - exact Hf.
  - intros i Hi. cbn [later echo_at reads]. apply He, Hi.
  - intros Ha. rewrite tick_at_now, !tick_at_later.
    rewrite (tick_gap_eq w _ _ (1 + 2 * 0) (2 * 0)) by lia.
    exact (Ht 0%nat Ha).
  - intros i Hi. rewrite !tick_at_later.
    rewrite (tick_gap_eq w _ _ (1 + 2 * S i) (2 * S i)) by lia.
    exact (Ht (S i) Hi).
  - rewrite tick_at_later. destruct a as [|a'].
    + rewrite tick_at_now.
      rewrite (tick_gap_eq w _ _ (1 + 2 * 0) (2 * 0)) by lia. exact Hfire.
    + rewrite tick_at_later.
      rewrite (tick_gap_eq w _ _ (1 + 2 * S a') (2 * S a')) by lia.
      exact Hfire.
Qed.

(** Subtraction of ticks gives the elapsed time across the wrap of the
    32-bit counter. *)
Lemma tick_sub_elapsed (clock d : Z) :
  0 <= d < 2 ^ 32 ->
  Tyouonpa01.tick_sub ((clock + d) mod 2 ^ 32) (clock mod 2 ^ 32) = d.
Proof.
  intros Hd. unfold Tyouonpa01.tick_sub.
  rewrite <- Zminus_mod.
  replace (clock + d - clock) with d by lia.
  apply Z.mod_small, Hd.
Qed.

Lemma tyouonpa01_timeout_on_slow_poll_witness :
  Tyouonpa01.get_distance_ultrasonic 2 slow_poll_at_wrap
  = Some (Tyouonpa01.FAILED, later slow_poll_at_wrap 2 4, trigger_t).
Proof.
  refine (tyouonpa01_timeout_on_slow_poll slow_poll_at_wrap 1 2 _ _ _ _).
  - lia.
  - reflexivity.
  - intros [|i] Hi; [|lia]. vm_compute. discriminate.
  - vm_compute. reflexivity.
Defined.

Lemma wait_echo_high01_step (fuel : nat) (ps : Z) (w : world) :
  RasEye01.wait_echo_high (S fuel) ps w =
  if echo_at w (reads w) then Some (ps, later w 1 0, [])
  else if RasEye01.within_50ms (clock_at w (ticks w)) ps
       then RasEye01.wait_echo_high fuel (clock_at w (S (ticks w))) (later w 1 2)
       else Some (ps, later w 1 1, []).
Proof.
  cbn [RasEye01.wait_echo_high]. unfold bind at 1. unfold gpioRead at 1.
  destruct (echo_at w (reads w)); [reflexivity|].
  unfold bind at 1. unfold clock_now at 1.
  change (clock_at (later w 1 0) (ticks (later w 1 0))) with (clock_at w (ticks w)).
  change (later (later w 1 0) 0 1) with (later w 1 1).
  destruct (RasEye01.within_50ms _ ps); [|reflexivity].
  unfold bind at 1. unfold clock_now at 1.
  change (clock_at (later w 1 1) (ticks (later w 1 1)))
    with (clock_at w (S (ticks w))).
  change (later (later w 1 1) 0 1) with (later w 1 2).
  destruct (RasEye01.wait_echo_high fuel _ _) as [[[r w2] t2]|]; reflexivity.
Qed.

Lemma wait_echo_high01_never_ends (fuel : nat) :
  forall ps w,
    (forall i, echo_at w (i + reads w) = false) ->
    RasEye01.within_50ms (clock_at w (ticks w)) ps = true ->
    (forall j, RasEye01.within_50ms (clock_at w (S j + ticks w))
                                    (clock_at w (j + ticks w)) = true) ->
    RasEye01.wait_echo_high fuel ps w = None.
Proof.
  induction fuel as [|fuel IH]; intros ps w He H0 Hj; [reflexivity|].
  rewrite wait_echo_high01_step.
  rewrite (He 0%nat : echo_at w (reads w) = false).
  rewrite H0.
  apply IH.
  - intros i. cbn [later echo_at reads].
    replace (i + (1 + reads w))%nat with (S i + reads w)%nat by lia.
    apply He.
  - exact (Hj 1%nat).
  - intros j. cbn [later clock_at ticks].
    replace (S j + (2 + ticks w))%nat with (S (S (S j)) + ticks w)%nat by lia.
    replace (j + (2 + ticks w))%nat with (S (S j) + ticks w)%nat by lia.
    apply Hj.
Qed.

(** X9: the echo wait of ras_eye01 has the rolling marker too: with a line
    that stays low and clock readings that follow each other within
    50 ms, the measurement does not return, whatever the number of
    polls. *)
Theorem ras_eye01_echo_wait_unbounded (fuel : nat) (w : world) :
  (forall i, echo_at w (i + reads w) = false) ->
  RasEye01.within_50ms (clock_at w (2 + ticks w)) (clock_at w (ticks w)) = true ->
  (forall j, RasEye01.within_50ms (clock_at w (S j + ticks w))
                                  (clock_at w (j + ticks w)) = true) ->
  RasEye01.measure fuel w = None.
Proof.
  intros He H0 Hj.
  unfold RasEye01.measure.
  unfold bind at 1 2 3 4 5 6.
  unfold gpioWrite, sleep_us, emit, clock_now.
  rewrite wait_echo_high01_never_ends; try reflexivity.
  - exact He.
  - exact H0.
  - intros j. cbn [later clock_at ticks].
    replace (S j + (1 + (1 + ticks w)))%nat with (S (S (S j)) + ticks w)%nat by lia.
    replace (j + (1 + (1 + ticks w)))%nat with (S (S j) + ticks w)%nat by lia.
    apply Hj.
Qed.

Lemma within_50ms_elapsed (t marker : Z) :
  RasEye01.within_50ms t marker = RasEye01.within_50ms (t - marker) 0.
Proof.
  unfold RasEye01.within_50ms, seconds_between. rewrite Z.sub_0_r. reflexivity.
Qed.

Lemma ras_eye01_echo_wait_unbounded_witness :
  RasEye01.measure 1000 stuck_low_ns = None.
Proof.
  refine (ras_eye01_echo_wait_unbounded 1000 stuck_low_ns _ _ _).
  - reflexivity.
  - vm_compute. reflexivity.
  - intros j. rewrite within_50ms_elapsed.
    unfold stuck_low_ns. cbn [clock_at ticks].
    replace (1000000 * Z.of_nat (S j + 0) - 1000000 * Z.of_nat (j + 0))
      with 1000000 by lia.
    vm_compute. reflexivity.
Defined.

Lemma servo_not_led (es : list event) :
  Forall is_servo es -> filter is_led_write es = [] /\ filter is_ping es = [].
Proof.
  induction 1 as [|e es (pin & pulse & ->) _ [IH1 IH2]]; [split; reflexivity|].
  cbn [filter is_led_write is_ping]. auto.
Qed.

(** X10: in ras_eye02 one iteration pings once and writes the LED once, and
    it switches the LED on only for a reading that came back from the
    measurement within [0, 400] and below the threshold. *)
Theorem ras_eye02_alert_only_on_valid_reading
        (fuel : nat) (faces : list Rect) (st : ActuatorState)
        (w w' : world) (r : option ActuatorState) (tr : list event) :
  RasEye02.loop_iteration fuel (Some faces) st w = Some (r, w', tr) ->
  exists d,
    RasEye02.get_distance_ultrasonic fuel w = Some (d, w', trigger02)
    /\ filter is_ping tr = [GpioWrite TRIG_PIN true]
    /\ filter is_led_write tr
       = [GpioWrite LED_PIN (RasEye02.decide d DISTANCE_THRESHOLD)]
    /\ (In (GpioWrite LED_PIN true) tr ->
        valid_reading d /\ d <> RasEye02.INVALID
        /\ F32.ltb d DISTANCE_THRESHOLD = true).
Proof.
  intros H.
  destruct (loop_iteration02_inv _ _ _ _ _ _ _ H) as (d & Hd & _ & Htr).
  cbv zeta in Htr.
  set (nose := RasEye02.find_nose faces) in *.
  destruct (servo_not_led _ (control_pan_tilt_only_servo st (fst nose) (snd nose)))
    as [Hs1 Hs2].
  assert (Hled : filter is_led_write tr
                 = [GpioWrite LED_PIN (RasEye02.decide d DISTANCE_THRESHOLD)]).
  { rewrite Htr, filter_app, Hs1. destruct (fst nose =? -1); reflexivity. }
  exists d. split; [exact Hd|]. split; [|split; [exact Hled|]].
  - rewrite Htr, filter_app, Hs2.
    destruct (fst nose =? -1), (RasEye02.decide d DISTANCE_THRESHOLD); reflexivity.
  - intros Hin.
    assert (Hin' : In (GpioWrite LED_PIN true) (filter is_led_write tr)).
    { apply filter_In. split; [exact Hin|reflexivity]. }
    rewrite Hled in Hin'. destruct Hin' as [Hon|[]].
    injection Hon as Hon.
    unfold RasEye02.decide in Hon.
    apply andb_prop in Hon as [Hne Hlt]. apply negb_true_iff in Hne.
    assert (Hnot : d <> RasEye02.INVALID).
    { intros ->. rewrite INVALID_is_999 in Hne. discriminate. }
    split; [|split; [exact Hnot|exact Hlt]].
    apply get_distance02_inv in Hd as [_ [Hd|(t0 & t1 & Hd)]]; [contradiction|].
    destruct (filter_distance02_cases _ (distance_of_pulse_not_nan t0 t1))
      as [[E _]|[E V]]; rewrite <- Hd in E.
    + contradiction.
    + rewrite E. exact V.
Qed.

(** X11: in tyouonpa01 one iteration pings once and writes the LED once; the
    LED is switched on only for a reading within [0, 400] that is above
    0 and at most the warning distance, never for the sentinel. *)
Theorem tyouonpa01_alert_only_on_valid_reading
        (fuel : nat) (w w' : world) (tr : list event) :
  Tyouonpa01.loop_iteration fuel w = Some (tt, w', tr) ->
  exists d,
    Tyouonpa01.get_distance_ultrasonic fuel w = Some (d, w', trigger_t)
    /\ tr = trigger_t
            ++ [GpioWrite LED_PIN (Tyouonpa01.decide d Tyouonpa01.WARNING_DISTANCE_CM);
                Sleep 500000]
    /\ filter is_ping tr = [GpioWrite TRIG_PIN true]
    /\ (In (GpioWrite LED_PIN true) tr ->
        valid_reading d /\ d <> Tyouonpa01.FAILED
        /\ F32.ltb (F32.of_Z 0) d = true
        /\ F32.leb d Tyouonpa01.WARNING_DISTANCE_CM = true).
Proof.
  unfold Tyouonpa01.loop_iteration. intros H.
  apply bind_Some in H as (d & w1 & t1 & t2 & Hd & H & ->).
  apply bind_Some in H as (? & w2 & t3 & t4 & E & H & ->).
  injection E as _ <- <-. injection H as <- <-.
  pose proof (get_distance_t_inv _ _ _ _ _ Hd) as [-> Hv].
  exists d. split; [exact Hd|]. split; [reflexivity|]. split.
  - destruct (Tyouonpa01.decide d Tyouonpa01.WARNING_DISTANCE_CM); reflexivity.
  - intros Hin. cbn in Hin.
    repeat (destruct Hin as [Hin|Hin]; try discriminate Hin).
    2: destruct Hin.
    injection Hin as Hon. unfold Tyouonpa01.decide in Hon.
    destruct (F32.ltb (F32.of_Z 0) d) eqn:Hpos; [|discriminate].
    assert (Hnot : d <> Tyouonpa01.FAILED).
    { intros ->. vm_compute in Hpos. discriminate. }
    split; [|auto].
    destruct Hv as [Hv|(us & Hv)]; [contradiction|].
    destruct (filter_distance_cases _ (distance_of_duration_not_nan us))
      as [[E _]|[E V]]; rewrite <- Hv in E.
    + contradiction.
    + rewrite E. exact V.
Qed.


Lemma loop_iteration02_counts (fuel : nat) (faces : list Rect) (st : ActuatorState)
      (w w' : world) (r : option ActuatorState) (tr : list event) :
  RasEye02.loop_iteration fuel (Some faces) st w = Some (r, w', tr) ->
  r = Some (fst (RasEye02.control_pan_tilt
                   st (fst (RasEye02.find_nose faces)) (snd (RasEye02.find_nose faces))))
  /\ length (filter is_ping tr) = 1%nat
  /\ length (filter is_led_write tr) = 1%nat.
Proof.
  intros H.
  destruct (loop_iteration02_inv _ _ _ _ _ _ _ H) as (d & Hd & Hr & Htr).
  cbv zeta in Htr, Hr.
  set (nose := RasEye02.find_nose faces) in *.
  destruct (servo_not_led _ (control_pan_tilt_only_servo st (fst nose) (snd nose)))
    as [Hs1 Hs2].
  split; [exact Hr|].
  rewrite Htr, !filter_app, Hs1, Hs2.
  destruct (fst nose =? -1), (RasEye02.decide d DISTANCE_THRESHOLD);
    split; reflexivity.
Qed.

Lemma main_loop02_inv (frames : list (list Rect)) :
  forall rest fuel st w st' w' tr,
    main_loop02 fuel (map Some frames ++ None :: rest) st w = Some (st', w', tr) ->
    st' = run02 st (map RasEye02.find_nose frames)
    /\ length (filter is_ping tr) = length frames
    /\ length (filter is_led_write tr) = length frames
    /\ main_loop02 fuel (map Some frames ++ [None]) st w = Some (st', w', tr).
Proof.
  induction frames as [|f fs IH]; intros rest fuel st w st' w' tr H.
  - cbn in H. injection H as <- <- <-. repeat split.
  - cbn [map app main_loop02] in H |- *.
    apply bind_Some in H as (r & w1 & t1 & t2 & E1 & H & ->).
    destruct (loop_iteration02_counts _ _ _ _ _ _ _ E1) as (-> & Hp & Hl).
    apply IH in H as (-> & Hp2 & Hl2 & Hrun).
    split; [reflexivity|].
    rewrite !filter_app, !length_app, Hp, Hl, Hp2, Hl2.
    split; [reflexivity|]. split; [reflexivity|].
    unfold bind. rewrite E1, Hrun. reflexivity.
Qed.

(** X13: the main loop of ras_eye02 handles the frames up to the first empty
    one and nothing after it: the actuator state it leaves is the
    controller applied to the located targets in order, it stays within
    [1000, 2000] when it started there, and each frame handled caused
    exactly one ping and one write to the LED. *)
Theorem main_loop02_run (frames : list (list Rect)) (rest : list (option (list Rect)))
        (fuel : nat) (st st' : ActuatorState) (w w' : world) (tr : list event) :
  main_loop02 fuel (map Some frames ++ None :: rest) st w = Some (st', w', tr) ->
  st' = run02 st (map RasEye02.find_nose frames)
  /\ (state_in_range st -> state_in_range st')
  /\ length (filter is_ping tr) = length frames
  /\ length (filter is_led_write tr) = length frames
  /\ main_loop02 fuel (map Some frames ++ [None]) st w = Some (st', w', tr).
Proof.
  intros H. apply main_loop02_inv in H as (-> & Hp & Hl & Hrun).
  split; [reflexivity|]. split; [apply run02_in_range|]. auto.
Qed.

Lemma loop_iteration01_counts (fuel : nat) (faces : list Rect) (st : ActuatorState)
      (w w' : world) (r : option ActuatorState) (tr : list event) :
  RasEye01.loop_iteration fuel (Some faces) st w = Some (r, w', tr) ->
  r = Some (RasEye01.update st (fst (RasEye01.nose_of_faces faces))
                               (snd (RasEye01.nose_of_faces faces)))
  /\ length (filter is_ping tr) = (if has_target faces then 1 else 0)%nat
  /\ length (filter is_led_write tr) = 1%nat.
Proof.
  intros H.
  pose proof (loop_iteration01_inv _ _ _ _ _ _ _ H) as Hinv.
  cbv zeta in Hinv. unfold has_target, RasEye01.update.
  set (nose := RasEye01.nose_of_faces faces) in *.
  destruct (negb (fst nose =? -1) && negb (snd nose =? -1)).
  - destruct Hinv as (d & Hd & Hr & Htr).
    destruct (servo_not_led _ (track_only_servo st (fst nose) (snd nose)))
      as [Hs1 Hs2].
    split; [exact Hr|].
    rewrite Htr, !filter_app, Hs1, Hs2.
    destruct (F32.ltb d DISTANCE_THRESHOLD); split; reflexivity.
  - destruct Hinv as (_ & -> & ->). repeat split.
Qed.

(** X14: the main loop of ras_eye01: the state it leaves is its controller
    applied to the located targets in order, within [1000, 2000] when
    it started there; it writes the LED once per frame handled, and
    pings once per frame in which a target was found. *)
Theorem main_loop01_run (frames : list (list Rect)) :
  forall (rest : list (option (list Rect))) (fuel : nat)
         (st st' : ActuatorState) (w w' : world) (tr : list event),
    main_loop01 fuel (map Some frames ++ None :: rest) st w = Some (st', w', tr) ->
    st' = run01 st (map RasEye01.nose_of_faces frames)
    /\ (state_in_range st -> state_in_range st')
    /\ length (filter is_ping tr) = length (filter has_target frames)
    /\ length (filter is_led_write tr) = length frames.
Proof.
  induction frames as [|f fs IH]; intros rest fuel st st' w w' tr H.
  - cbn in H. injection H as <- <- <-.
    split; [reflexivity|]. split; [auto|]. split; reflexivity.
  - cbn [map app main_loop01] in H.
    apply bind_Some in H as (r & w1 & t1 & t2 & E1 & H & ->).
    destruct (loop_iteration01_counts _ _ _ _ _ _ _ E1) as (-> & Hp & Hl).
    apply IH in H as (-> & Hin & Hp2 & Hl2).
    split; [reflexivity|]. split.
    + intros Hst. apply Hin. rewrite update01_eq_control02.
      apply control_pan_tilt_in_range, Hst.
    + rewrite !filter_app, !length_app, Hp, Hl, Hp2, Hl2.
      cbn [filter length]. destruct (has_target f); split; reflexivity.
Qed.

Lemma main_loop02_run_witness :
  exists st' tr,
    main_loop02 4 [Some one_face; Some []; None; Some one_face] initial_state two_echoes
    = Some (st', later two_echoes 8 12, tr)
    /\ st' = run02 initial_state [(420, 320); (-1, -1)]
    /\ length (filter is_led_write tr) = 2%nat.
Proof.
  eexists. eexists.
  assert (H : main_loop02 4 (map Some [one_face; []] ++ None :: [Some one_face])
                          initial_state two_echoes
              = Some (run02 initial_state [(420, 320); (-1, -1)],
                      later two_echoes 8 12,
                      snd (RasEye02.control_pan_tilt initial_state 420 320)
                      ++ [Sleep 50000] ++ trigger02
                      ++ [GpioWrite LED_PIN true; Sleep 100000]
                      ++ trigger02 ++ [GpioWrite LED_PIN true; Sleep 100000]))
    by (vm_compute; reflexivity).
  split; [exact H|].
  destruct (main_loop02_run _ _ _ _ _ _ _ _ H) as (Hst & _ & _ & Hl & _).
  split; [reflexivity|exact Hl].
Defined.

(** X1: the locator of both tracking programs returns the centre of the
    first face of largest area: no face before it is as large, none
    after it is larger. *)
Theorem find_nose_first_largest (first : Rect) (rest : list Rect) :
  exists before best after,
    first :: rest = before ++ best :: after
    /\ Forall (fun r => area r < area best) before
    /\ Forall (fun r => area r <= area best) after
    /\ RasEye02.find_nose (first :: rest) = face_center best
    /\ RasEye01.nose_of_faces (first :: rest) = face_center best.
Proof.
  destruct (largest_face_first_max rest first) as (before & after & Hs & Hb & Ha).
  exists before, (largest_face first rest), after.
  repeat split; assumption.
Qed.

(** X2: for faces that lie inside the 640 x 480 frame the located point is
    inside the frame, so that it is never mistaken for "no target": a
    coordinate of -1 comes back exactly when no face was detected, and
    the pixel errors the controller computes are at most 320 and 240,
    far from any overflow of [int]. *)
Theorem find_nose_in_frame (faces : list Rect) :
  Forall in_frame faces ->
  let nose := RasEye02.find_nose faces in
  RasEye01.nose_of_faces faces = nose
  /\ ((fst nose =? -1) || (snd nose =? -1) = true <-> faces = [])
  /\ (fst nose = -1 <-> faces = [])
  /\ (faces <> [] ->
      0 <= fst nose <= CAMERA_WIDTH /\ 0 <= snd nose <= CAMERA_HEIGHT
      /\ int_sub (fst nose) CAMERA_CENTER_X = fst nose - CAMERA_CENTER_X
      /\ int_sub (snd nose) CAMERA_CENTER_Y = snd nose - CAMERA_CENTER_Y
      /\ Z.abs (fst nose - CAMERA_CENTER_X) <= 320
      /\ Z.abs (snd nose - CAMERA_CENTER_Y) <= 240).
Proof.
  intros Hall nose. split; [reflexivity|].
  destruct faces as [|f rest].
  - split; [split; intros _; reflexivity|].
    split; [split; intros _; reflexivity|].
    intros Hne. exfalso. apply Hne. reflexivity.
  - assert (Hin : in_frame (largest_face f rest)).
    { rewrite Forall_forall in Hall. apply Hall, largest_face_in. }
    destruct (face_center_in_frame _ Hin) as (_ & Hx & Hy).
    change (RasEye02.find_nose (f :: rest)) with (face_center (largest_face f rest))
      in nose.
    fold nose in Hx, Hy.
    unfold CAMERA_WIDTH, CAMERA_HEIGHT in Hx, Hy.
    assert (Ex : (fst nose =? -1) = false) by (apply Z.eqb_neq; lia).
    assert (Ey : (snd nose =? -1) = false) by (apply Z.eqb_neq; lia).
    split; [rewrite Ex, Ey; split; discriminate|].
    split; [split; [lia|discriminate]|].
    intros _.
    unfold int_sub, CAMERA_CENTER_X, CAMERA_CENTER_Y, CAMERA_WIDTH, CAMERA_HEIGHT.
    change (Z.quot 640 2) with 320. change (Z.quot 480 2) with 240.
    rewrite !wrap32_small by (change (2 ^ 31) with 2147483648; lia).
    repeat split; lia.
Qed.

Lemma find_nose_in_frame_witness :
  0 <= fst (RasEye02.find_nose one_face) <= CAMERA_WIDTH
  /\ 0 <= snd (RasEye02.find_nose one_face) <= CAMERA_HEIGHT.
Proof.
  assert (H : Forall in_frame one_face).
  { repeat constructor; vm_compute; congruence. }
  destruct (proj2 (proj2 (proj2 (find_nose_in_frame one_face H))))
    as (Hx & Hy & _).
  - discriminate.
  - split; [exact Hx|exact Hy].
Defined.

(** X3: the clamp is a saturation: it sends every value that is not a NaN
    into [1000, 2000], leaves a value inside untouched and so is
    idempotent; the infinities go to the bounds, while a NaN passes
    through unchanged. *)
Theorem clamp_cmd_saturates (a : spec_float) :
  (is_nan a = false ->
   cmd_in_range (clamp_cmd a) /\ clamp_cmd (clamp_cmd a) = clamp_cmd a)
  /\ (cmd_in_range a -> clamp_cmd a = a)
  /\ clamp_cmd (S754_infinity false) = F32.of_Z 2000
  /\ clamp_cmd (S754_infinity true) = F32.of_Z 1000
  /\ clamp_cmd S754_nan = S754_nan.
Proof.
  split; [|split; [|split; [|split]]].
  - intros Ha. pose proof (clamp_cmd_in_range a Ha) as Hr.
    split; [exact Hr|apply clamp_cmd_inside, Hr].
  - apply clamp_cmd_inside.
  - vm_compute. reflexivity.
  - vm_compute. reflexivity.
  - reflexivity.
Qed.

Lemma clamp_cmd_saturates_witness :
  cmd_in_range (clamp_cmd (F32.of_Z 2500))
  /\ clamp_cmd (F32.of_Z 1234) = F32.of_Z 1234.
Proof.
  split.
  - refine (proj1 (proj1 (clamp_cmd_saturates (F32.of_Z 2500)) _)).
    vm_compute. reflexivity.
  - refine (proj1 (proj2 (clamp_cmd_saturates (F32.of_Z 1234))) _).
    split; vm_compute; reflexivity.
Defined.

Lemma get_distance02_measures_witness :
  RasEye02.get_distance_ultrasonic 4 late_echo
  = Some (RasEye02.filter_distance (RasEye02.distance_of_pulse 60000000 61000000),
          later late_echo 4 6, trigger02).
Proof.
  refine (get_distance02_measures late_echo 1 1 4 _ _ _ _ _ _ _).
  - lia.
  - lia.
  - intros [|i] Hi; [reflexivity|lia].
  - intros [|[|i]] Hi; try lia; reflexivity.
  - reflexivity.
  - intros [|i] Hi; [vm_compute; reflexivity|lia].
  - intros [|i] Hi; [vm_compute; reflexivity|lia].
Defined.

Lemma get_distance_t_measures_witness :
  Tyouonpa01.get_distance_ultrasonic 4 pulse_1000us
  = Some (Tyouonpa01.filter_distance (Tyouonpa01.distance_of_duration (1020 - 20)),
          later pulse_1000us 4 6, trigger_t).
Proof.
  refine (get_distance_t_measures pulse_1000us 1 1 4 _ _ _ _ _ _ _).
  - lia.
  - lia.
  - intros [|i] Hi; [reflexivity|lia].
  - intros [|[|i]] Hi; try lia; reflexivity.
  - reflexivity.
  - intros [|i] Hi; [vm_compute; discriminate|lia].
  - intros [|i] Hi; [vm_compute; discriminate|lia].
Defined.

Lemma ras_eye02_alert_only_on_valid_reading_witness :
  exists d,
    RasEye02.get_distance_ultrasonic 4 late_echo
    = Some (d, later late_echo 4 6, trigger02)
    /\ valid_reading d /\ F32.ltb d DISTANCE_THRESHOLD = true.
Proof.
  destruct (ras_eye02_alert_only_on_valid_reading
              4 one_face initial_state late_echo (later late_echo 4 6)
              (Some (fst (RasEye02.control_pan_tilt initial_state 420 320)))
              (snd (RasEye02.control_pan_tilt initial_state 420 320)
               ++ [Sleep 50000] ++ trigger02
               ++ [GpioWrite LED_PIN true; Sleep 100000]))
    as (d & Hd & _ & _ & Hon).
  - vm_compute. reflexivity.
  - exists d. split; [exact Hd|].
    destruct Hon as (V & _ & Hlt); [|auto].
    apply in_or_app. right. cbn. auto 10.
Defined.

Lemma tyouonpa01_alert_only_on_valid_reading_witness :
  exists d,
    Tyouonpa01.get_distance_ultrasonic 4 pulse_1000us
    = Some (d, later pulse_1000us 4 6, trigger_t)
    /\ valid_reading d /\ d <> Tyouonpa01.FAILED.
Proof.
  destruct (tyouonpa01_alert_only_on_valid_reading
              4 pulse_1000us (later pulse_1000us 4 6)
              (trigger_t ++ [GpioWrite LED_PIN true; Sleep 500000]))
    as (d & Hd & _ & _ & Hon).
  - vm_compute. reflexivity.
  - exists d. split; [exact Hd|].
    destruct Hon as (V & Hne & _); [|auto].
    apply in_or_app. right. left. reflexivity.
Defined.


Lemma main_loop01_run_witness :
  exists st' tr,
    main_loop01 4 [Some one_face; Some []; None] initial_state late_echo01
    = Some (st', later late_echo01 4 6, tr)
    /\ st' = run01 initial_state [(420, 320); (-1, -1)]
    /\ length (filter is_ping tr) = 1%nat
    /\ length (filter is_led_write tr) = 2%nat.
Proof.
  eexists. eexists.
  assert (H : main_loop01 4 (map Some [one_face; []] ++ None :: [])
                          initial_state late_echo01
              = Some (run01 initial_state [(420, 320); (-1, -1)],
                      later late_echo01 4 6,
                      snd (RasEye01.track initial_state 420 320)
                      ++ [Sleep 50000] ++ trigger02
                      ++ [GpioWrite LED_PIN true; Sleep 100000]
                      ++ RasEye01.hold (run01 initial_state [(420, 320)])
                      ++ [GpioWrite LED_PIN false; Sleep 100000]))
    by (vm_compute; reflexivity).
  split; [exact H|].
  destruct (main_loop01_run _ _ _ _ _ _ _ _ H) as (Hst & _ & Hp & Hl).
  split; [reflexivity|]. split; [exact Hp|exact Hl].
Defined.

(** A wait of ras_eye02 ends once a clock reading is beyond the limit,
    whatever the echo line does. *)
Lemma wait_echo_high02_ends (n : nat) :
  forall fuel ts ps w,
    (n < fuel)%nat ->
    RasEye02.timed_out (clock_at w (n + ticks w)) ts = true ->
    exists r k t,
      RasEye02.wait_echo_high fuel ts ps w = Some (r, later w k t, [])
      /\ (t <= S n)%nat.
Proof.
  induction n as [|n IH]; intros fuel ts ps w Hf Hn;
    (destruct fuel as [|fuel]; [lia|]);
    rewrite wait_echo_high02_step;
    (destruct (echo_at w (reads w)); [exists (Fallthrough ps), 1%nat, 0%nat;
                                      split; [reflexivity|lia]|]).
  - rewrite (Hn : RasEye02.timed_out (clock_at w (ticks w)) ts = true).
    exists (Return RasEye02.INVALID), 1%nat, 1%nat. split; [reflexivity|lia].
  - destruct (RasEye02.timed_out (clock_at w (ticks w)) ts).
    + exists (Return RasEye02.INVALID), 1%nat, 1%nat. split; [reflexivity|lia].
    + destruct (IH fuel ts (clock_at w (ticks w)) (later w 1 1))
        as (r & k & t & Hr & Ht).
      * lia.
      * cbn [later clock_at ticks].
        replace (n + (1 + ticks w))%nat with (S n + ticks w)%nat by lia.
        exact Hn.
      * exists r, (k + 1)%nat, (t + 1)%nat. rewrite Hr, later_later.
        split; [reflexivity|lia].
Qed.

Lemma wait_echo_low02_ends (n : nat) :
  forall fuel ts pe w,
    (n < fuel)%nat ->
    RasEye02.timed_out (clock_at w (n + ticks w)) ts = true ->
    exists r k t,
      RasEye02.wait_echo_low fuel ts pe w = Some (r, later w k t, [])
      /\ (t <= S n)%nat.
Proof.
  induction n as [|n IH]; intros fuel ts pe w Hf Hn;
    (destruct fuel as [|fuel]; [lia|]);
    rewrite wait_echo_low02_step;
    (destruct (echo_at w (reads w)); [|exists (Fallthrough pe), 1%nat, 0%nat;
                                       split; [reflexivity|lia]]).
  - rewrite (Hn : RasEye02.timed_out (clock_at w (ticks w)) ts = true).
    exists (Return RasEye02.INVALID), 1%nat, 1%nat. split; [reflexivity|lia].
  - destruct (RasEye02.timed_out (clock_at w (ticks w)) ts).
    + exists (Return RasEye02.INVALID), 1%nat, 1%nat. split; [reflexivity|lia].
    + destruct (IH fuel ts (clock_at w (ticks w)) (later w 1 1))
        as (r & k & t & Hr & Ht).
      * lia.
      * cbn [later clock_at ticks].
        replace (n + (1 + ticks w))%nat with (S n + ticks w)%nat by lia.
        exact Hn.
      * exists r, (k + 1)%nat, (t + 1)%nat. rewrite Hr, later_later.
        split; [reflexivity|lia].
Qed.

(** X5: the measurement of ras_eye02 always returns, and after a bounded
    number of clock readings, when the clock keeps advancing: if every
    clock reading taken [N] + 1 readings after another is more than
    0.1 s beyond it, then, whatever the echo line does, the function
    returns a value after at most 2 [N] + 6 readings of the clock. *)
Theorem get_distance02_returns (w : world) (N fuel : nat) :
  (N < fuel)%nat ->
  (forall i, RasEye02.timed_out (clock_at w (N + S i + ticks w))
                                (clock_at w (i + ticks w)) = true) ->
  exists v k t,
    RasEye02.get_distance_ultrasonic fuel w = Some (v, later w k t, trigger02)
    /\ (t <= 2 * N + 6)%nat.
Proof.
  intros Hf Hclock.
  unfold RasEye02.get_distance_ultrasonic.
  unfold bind at 1 2 3 4 5 6 7.
  unfold gpioWrite, sleep_us, emit, clock_now.
  destruct (wait_echo_high02_ends N fuel
              (clock_at (later (later w 0 1) 0 1)
                        (ticks (later (later w 0 1) 0 1)))
              (clock_at w (ticks w))
              (later (later (later w 0 1) 0 1) 0 1) Hf)
    as (r1 & k1 & t1 & Hr1 & Ht1).
  { cbn [later clock_at ticks Nat.add].
    replace (N + S (S (S (ticks w))))%nat with (N + 3 + ticks w)%nat by lia.
    exact (Hclock 2%nat). }
  rewrite Hr1. destruct r1 as [ps|v].
  - unfold bind at 1 2. unfold clock_now.
    match goal with
    | |- context [RasEye02.wait_echo_low fuel ?TS ?PE ?W] =>
        destruct (wait_echo_low02_ends N fuel TS PE W Hf)
          as (r2 & k2 & t2 & Hr2 & Ht2)
    end.
    { cbn [later clock_at ticks Nat.add].
      replace (N + S (t1 + S (S (S (ticks w)))))%nat
        with (N + S (t1 + 3) + ticks w)%nat by lia.
      replace (t1 + S (S (S (ticks w))))%nat with (t1 + 3 + ticks w)%nat by lia.
      exact (Hclock (t1 + 3)%nat). }
    rewrite Hr2. rewrite !later_later.
    destruct r2 as [pe|v]; unfold ret; cbn [app];
      eexists; eexists; eexists; (split; [reflexivity|lia]).
  - unfold ret. rewrite !later_later. cbn [app].
    eexists; eexists; eexists. split; [reflexivity|lia].
Qed.

(** On [silent_echo], a line that never answers with the clock advancing
    50 ms per reading, the measurement returns. *)
Lemma get_distance02_returns_witness :
  exists v k t,
    RasEye02.get_distance_ultrasonic 3 silent_echo
    = Some (v, later silent_echo k t, trigger02)
    /\ (t <= 2 * 2 + 6)%nat.
Proof.
  refine (get_distance02_returns silent_echo 2 3 _ _).
  - lia.
  - intros i. rewrite timed_out_elapsed.
    unfold silent_echo. cbn [clock_at ticks].
    replace (50000000 * Z.of_nat (2 + S i + 0) - 50000000 * Z.of_nat (i + 0))
      with 150000000 by lia.
    vm_compute. reflexivity.
Defined.

Lemma rolling_marker_never_expires_low (fuel : nat) :
  forall et w,
    (forall i, echo_at w (i + reads w) = true) ->
    Tyouonpa01.tick_sub (tick_at w 0) et <= 50000 ->
    (forall j, Tyouonpa01.tick_sub (tick_at w (S j)) (tick_at w j) <= 50000) ->
    Tyouonpa01.wait_echo_low fuel et w = None.
Proof.
  induction fuel as [|fuel IH]; intros et w He H0 Hj; [reflexivity|].
  rewrite wait_echo_low_t_step.
  rewrite (He 0%nat : echo_at w (reads w) = true).
  apply Z.ltb_ge in H0. unfold tick_at in H0. cbn [Nat.add] in H0. rewrite H0.
  apply IH.
  - intros i. cbn [later echo_at reads].
    replace (i + (1 + reads w))%nat with (S i + reads w)%nat by lia.
    apply He.
  - rewrite tick_at_later. exact (Hj 1%nat).
  - intros j. rewrite !tick_at_later.
    rewrite (tick_gap_eq w _ _ (S (S (S j))) (S (S j))) by lia.
    apply Hj.
Qed.

(** X7: with the rolling marker of tyouonpa01 a line that is stuck, low or
    high, blocks the measurement for good: when two successive readings
    of the tick counter are never more than 50 ms apart, the function
    does not return, whatever the number of polls. *)
Theorem tyouonpa01_stuck_line_never_returns (level : bool) (fuel : nat) (w : world) :
  (forall i, echo_at w (i + reads w) = level) ->
  (forall j, Tyouonpa01.tick_sub (tick_at w (S j)) (tick_at w j) <= 50000) ->
  Tyouonpa01.get_distance_ultrasonic fuel w = None.
Proof.
  intros He Hj.
  unfold Tyouonpa01.get_distance_ultrasonic.
  unfold bind at 1 2 3 4 5 6 7.
  unfold gpioWrite, sleep_us, emit, gpioTick.
  destruct level.
  - destruct fuel as [|fuel]; [reflexivity|].
    rewrite wait_echo_high_t_step.
    cbn [later echo_at reads Nat.add].
    rewrite (He 0%nat : echo_at w (reads w) = true).
    unfold bind at 1 2. unfold gpioTick.
    rewrite rolling_marker_never_expires_low; try reflexivity.
    + intros i. cbn [later echo_at reads Nat.add].
      replace (i + S (reads w))%nat with (S i + reads w)%nat by lia.
      apply He.
    + rewrite tick_at_now, !tick_at_later.
      rewrite (tick_gap_eq w _ _ 2 1) by lia.
      exact (Hj 1%nat).
    + intros j. rewrite !tick_at_later.
      rewrite (tick_gap_eq w _ _ (S (S (S j))) (S (S j))) by lia.
      apply Hj.
  - rewrite rolling_marker_never_expires; try reflexivity.
    + exact He.
    + exact (Hj 0%nat).
    + intros j. cbn [later clock_at ticks].
      replace (S j + (1 + ticks w))%nat with (S (S j) + ticks w)%nat by lia.
      replace (j + (1 + ticks w))%nat with (S j + ticks w)%nat by lia.
      apply Hj.
Qed.

Lemma tyouonpa01_stuck_line_never_returns_witness :
  Tyouonpa01.get_distance_ultrasonic 1000 stuck_low = None
  /\ Tyouonpa01.get_distance_ultrasonic 1000 stuck_high = None.
Proof.
  assert (Hgap : forall j : nat,
             Tyouonpa01.tick_sub ((1000 * Z.of_nat (S j + 0)) mod 2 ^ 32)
                                 ((1000 * Z.of_nat (j + 0)) mod 2 ^ 32) <= 50000).
  { intros j.
    replace (1000 * Z.of_nat (S j + 0)) with (1000 * Z.of_nat (j + 0) + 1000) by lia.
    rewrite tick_sub_elapsed; [lia|].
    change (2 ^ 32) with 4294967296. lia. }
  split.
  - refine (tyouonpa01_stuck_line_never_returns false 1000 stuck_low _ _).
    + reflexivity.
    + exact Hgap.
  - refine (tyouonpa01_stuck_line_never_returns true 1000 stuck_high _ _).
    + reflexivity.
    + exact Hgap.
Defined.

(** ** A wait of ras_eye01 that is given up *)

Lemma wait_echo_high01_gives_up (a : nat) :
  forall fuel ps w,
    (a < fuel)%nat ->
    (forall i, (i <= a)%nat -> echo_at w (i + reads w) = false) ->
    ((0 < a)%nat -> RasEye01.within_50ms (clock_at w (ticks w)) ps = true) ->
    (forall i, (S i < a)%nat ->
               RasEye01.within_50ms (clock_at w (2 + 2 * i + ticks w))
                                    (clock_at w (1 + 2 * i + ticks w)) = true) ->
    RasEye01.within_50ms
      (clock_at w (2 * a + ticks w))
      (match a with O => ps | S a' => clock_at w (1 + 2 * a' + ticks w) end)
    = false ->
    RasEye01.wait_echo_high fuel ps w
    = Some (match a with O => ps | S a' => clock_at w (1 + 2 * a' + ticks w) end,
            later w (S a) (S (2 * a)), []).
Proof.
  induction a as [|a IH]; intros fuel ps w Hf He H0 Hi Hout;
    (destruct fuel as [|fuel]; [lia|]);
    rewrite wait_echo_high01_step;
    rewrite (He 0%nat ltac:(lia) : echo_at w (reads w) = false).
  - rewrite (Hout : RasEye01.within_50ms (clock_at w (ticks w)) ps = false).
    reflexivity.
  - rewrite (H0 ltac:(lia)).
    rewrite (IH fuel _ (later w 1 2)).
    + rewrite later_later.
      replace (later w (S a + 1) (S (2 * a) + 2))
        with (later w (S (S a)) (S (2 * S a)))
        by (unfold later; f_equal; lia).
      do 3 f_equal.
      destruct a as [|a']; [reflexivity|].
      cbn [later clock_at ticks]. f_equal. lia.
    + lia.
    + intros i Hlt. cbn [later echo_at reads].
      replace (i + (1 + reads w))%nat with (S i + reads w)%nat by lia.
      apply He. lia.
    + intros Ha. cbn [later clock_at ticks].
      exact (Hi 0%nat ltac:(lia)).
    + intros i Hlt. cbn [later clock_at ticks].
      replace (2 + 2 * i + (2 + ticks w))%nat with (2 + 2 * S i + ticks w)%nat by lia.
      replace (1 + 2 * i + (2 + ticks w))%nat with (1 + 2 * S i + ticks w)%nat by lia.
      exact (Hi (S i) ltac:(lia)).
    + cbn [later clock_at ticks].
      replace (2 * a + (2 + ticks w))%nat with (2 * S a + ticks w)%nat by lia.
      destruct a as [|a'].
      * exact Hout.
      * replace (1 + 2 * a' + (2 + ticks w))%nat
          with (1 + 2 * S a' + ticks w)%nat by lia.
        exact Hout.
Qed.

(** X15: ras_eye01 has no failure return in its waits.  When the rising-edge
    wait is given up (a poll comes 50 ms or more after the marker) and
    the line is still low, the program goes on and takes as the pulse
    the time from the marker to the clock reading made before the wait:
    a "distance" is computed and filtered although no echo was seen. *)
Theorem ras_eye01_gives_up_without_failure (w : world) (a fuel : nat) :
  (a < fuel)%nat ->
  (forall i, (i <= S a)%nat -> echo_at w (i + reads w) = false) ->
  (forall i, (i < a)%nat ->
             RasEye01.within_50ms (clock_at w (2 + 2 * i + ticks w))
                                  (marker01 w i) = true) ->
  RasEye01.within_50ms (clock_at w (2 + 2 * a + ticks w)) (marker01 w a) = false ->
  RasEye01.measure fuel w
  = Some (RasEye01.filter_distance
            (RasEye01.distance_of_pulse (marker01 w a) (clock_at w (1 + ticks w))),
          later w (a + 2) (2 * a + 3), trigger02).
Proof.
  intros Hf He Hin Hout.
  unfold RasEye01.measure.
  unfold bind at 1 2 3 4 5 6.
  unfold gpioWrite, sleep_us, emit, clock_now.
  rewrite (wait_echo_high01_gives_up a).
  - unfold bind at 1.
    destruct fuel as [|fuel]; [lia|].
    cbn [RasEye01.wait_echo_low]. unfold bind at 1. unfold gpioRead at 1.
    cbn [later echo_at reads Nat.add].
    replace (S (a + reads w)) with (S a + reads w)%nat by lia.
    rewrite (He (S a) ltac:(lia)). cbn [negb].
    unfold ret. rewrite !later_later. cbn [app].
    match goal with
    | |- Some (_, ?W, _) = _ =>
        replace W with (later w (a + 2) (2 * a + 3))
          by (unfold later; f_equal; lia)
    end.
    do 4 f_equal.
    destruct a as [|a']; [reflexivity|].
    unfold marker01. cbn [later clock_at ticks]. do 2 f_equal. lia.
  - exact Hf.
  - intros i Hi. cbn [later echo_at reads]. apply He. lia.
  - intros Ha. cbn [later clock_at ticks].
    exact (Hin 0%nat Ha).
  - intros i Hi. cbn [later clock_at ticks].
    specialize (Hin (S i) Hi). unfold marker01 in Hin.
    replace (2 + 2 * i + (1 + (1 + ticks w)))%nat
      with (2 + 2 * S i + ticks w)%nat by lia.
    replace (1 + 2 * i + (1 + (1 + ticks w)))%nat
      with (3 + 2 * i + ticks w)%nat by lia.
    exact Hin.
  - cbn [later clock_at ticks].
    replace (2 * a + (1 + (1 + ticks w)))%nat with (2 + 2 * a + ticks w)%nat by lia.
    destruct a as [|a']; [exact Hout|].
    unfold marker01 in Hout.
    replace (1 + 2 * a' + (1 + (1 + ticks w)))%nat
      with (3 + 2 * a' + ticks w)%nat by lia.
    exact Hout.
Qed.

Lemma ras_eye01_gives_up_without_failure_witness :
  RasEye01.measure 1 slow_first_poll
  = Some (RasEye01.filter_distance (RasEye01.distance_of_pulse 0 1000),
          later slow_first_poll 2 3, trigger02)
  /\ F32.ltb (RasEye01.filter_distance (RasEye01.distance_of_pulse 0 1000))
             DISTANCE_THRESHOLD = true.
Proof.
  split.
  - refine (ras_eye01_gives_up_without_failure slow_first_poll 0 1 _ _ _ _).
    + lia.
    + reflexivity.
    + intros i Hi. lia.
    + vm_compute. reflexivity.
  - vm_compute. reflexivity.
Defined.
